(** * bloodq: the provider adapter of [src/app/api/analyze/route.ts]

    A shallow embedding of the analysis route: the three request builders
    ([prepareGeminiRequest], [prepareOpenAIRequest], [prepareClaudeRequest]),
    the adapter [analyzeBloodTest] and the route handler [POST], together
    with the fragment of the JavaScript runtime they rely on (truthiness,
    [String.prototype.split], property access, [JSON.stringify]).

    Strings are sequences of 8-bit code units ([String.string]).  A thrown
    [Error] is represented by its [message], which is all the route ever
    reads from it. *)

From Stdlib Require Import String Ascii List Bool ZArith NArith Lia.
From Stdlib Require Import Decimal DecimalString.
Import ListNotations.
Open Scope list_scope.
Open Scope string_scope.

(** ** The JavaScript fragment *)

Module JS.

#[local] Set Warnings "-register-all".

(** The result of evaluating an expression that may throw. *)
Inductive outcome (A : Type) : Type :=
| Throw (message : string)
| Return (a : A).
Arguments Throw {A} message.
Arguments Return {A} a.

Definition bindO {A B} (o : outcome A) (k : A -> outcome B) : outcome B :=
  match o with
  | Throw m => Throw m
  | Return a => k a
  end.

(** The line feed, the double quote and the backslash. *)
Definition nl : string := String (ascii_of_nat 10) EmptyString.
Definition dq : string := String (ascii_of_nat 34) EmptyString.
Definition bs : string := String (ascii_of_nat 92) EmptyString.

(** A value of type [string | undefined | null] is an [option string];
    it is truthy when it is a non-empty string.  [as_truthy] returns the
    string in that case: [!x] holds exactly when [as_truthy x = None]. *)
Definition as_truthy (x : option string) : option string :=
  match x with
  | Some s => if (s =? EmptyString)%string then None else Some s
  | None => None
  end.

(** [a || b] *)
Definition or_else (a b : option string) : option string :=
  match as_truthy a with
  | Some _ => a
  | None => b
  end.

(** [s.split(sep)] for a one-character separator: never empty. *)
Fixpoint split (sep : ascii) (s : string) : list string :=
  match s with
  | EmptyString => [EmptyString]
  | String c rest =>
      if Ascii.eqb c sep then EmptyString :: split sep rest
      else match split sep rest with
           | piece :: pieces => String c piece :: pieces
           | [] => [String c EmptyString]
           end
  end.

(** [c] occurs in [s]. *)
Fixpoint occurs (c : ascii) (s : string) : bool :=
  match s with
  | EmptyString => false
  | String d rest => Ascii.eqb d c || occurs c rest
  end.

(** JavaScript values, as far as JSON reaches.  A number keeps its decimal
    numeral; the two literals of the route, [0.1] and [2048], print as
    written. *)
Inductive value : Type :=
| VUndefined
| VNull
| VBool (b : bool)
| VNum (d : decimal)
| VStr (s : string)
| VArr (items : list value)
| VObj (props : list (string * value)).

Definition of_opt (x : option string) : value :=
  match x with
  | Some s => VStr s
  | None => VUndefined
  end.

Definition number_to_string (d : decimal) : string :=
  match d with
  | Decimal i Nil => NilZero.string_of_int i
  | Decimal i f => NilZero.string_of_int i ++ "." ++ NilEmpty.string_of_uint f
  | DecimalExp i Nil e =>
      NilZero.string_of_int i ++ "e" ++ NilZero.string_of_int e
  | DecimalExp i f e =>
      NilZero.string_of_int i ++ "." ++ NilEmpty.string_of_uint f
        ++ "e" ++ NilZero.string_of_int e
  end.

Definition N_to_string (n : N) : string := NilZero.string_of_uint (N.to_uint n).

Definition hex_digit (n : nat) : ascii :=
  if Nat.ltb n 10 then ascii_of_nat (48 + n) else ascii_of_nat (87 + n).

(** QuoteJSONString, one code unit at a time. *)
Definition escape (c : ascii) : string :=
  let n := nat_of_ascii c in
  if Nat.eqb n 8 then bs ++ "b"
  else if Nat.eqb n 9 then bs ++ "t"
  else if Nat.eqb n 10 then bs ++ "n"
  else if Nat.eqb n 12 then bs ++ "f"
  else if Nat.eqb n 13 then bs ++ "r"
  else if Nat.eqb n 34 then bs ++ dq
  else if Nat.eqb n 92 then bs ++ bs
  else if Nat.ltb n 32 then
    bs ++ "u00" ++ String (hex_digit (Nat.div n 16))
                     (String (hex_digit (Nat.modulo n 16)) EmptyString)
  else String c EmptyString.

Fixpoint escape_all (s : string) : string :=
  match s with
  | EmptyString => EmptyString
  | String c rest => escape c ++ escape_all rest
  end.

Definition quote (s : string) : string := dq ++ escape_all s ++ dq.

Definition join (sep : string) (l : list string) : string := String.concat sep l.

(** [JSON.stringify(v)]; [None] is [undefined].  A property whose value
    serializes to [undefined] is left out of its object, an array element
    that does becomes [null]. *)
Fixpoint stringify (v : value) : option string :=
  match v with
  | VUndefined => None
  | VNull => Some "null"
  | VBool b => Some (if b then "true" else "false")
  | VNum d => Some (number_to_string d)
  | VStr s => Some (quote s)
  | VArr items =>
      Some ("[" ++ join ","
                     (map (fun x => match stringify x with
                                    | Some t => t
                                    | None => "null"
                                    end) items) ++ "]")
  | VObj props =>
      Some ("{" ++ join ","
                     (flat_map (fun p => match stringify (snd p) with
                                         | Some t => [quote (fst p) ++ ":" ++ t]
                                         | None => []
                                         end) props) ++ "}")
  end.

(** The own property [name] of an object literal, [undefined] when absent. *)
Fixpoint lookup (name : string) (props : list (string * value)) : value :=
  match props with
  | [] => VUndefined
  | (k, v) :: rest => if (k =? name)%string then v else lookup name rest
  end.

Definition cannot_read (of_what key : string) : string :=
  "Cannot read properties of " ++ of_what ++ " (reading '" ++ key ++ "')".

(** [v.name], for a [name] that no prototype defines (all the names the
    route reads are such).  Reading a property of [undefined] or [null]
    throws a TypeError, whose message is the engine's (V8's here). *)
Definition get_prop (v : value) (name : string) : outcome value :=
  match v with
  | VUndefined => Throw (cannot_read "undefined" name)
  | VNull => Throw (cannot_read "null" name)
  | VObj props => Return (lookup name props)
  | _ => Return VUndefined
  end.

(** [v[i]] for a literal index [i]. *)
Definition get_index (v : value) (i : nat) : outcome value :=
  let key := N_to_string (N.of_nat i) in
  match v with
  | VUndefined => Throw (cannot_read "undefined" key)
  | VNull => Throw (cannot_read "null" key)
  | VArr items => Return (nth i items VUndefined)
  | VObj props => Return (lookup key props)
  | VStr s => Return (match String.get i s with
                      | Some c => VStr (String c EmptyString)
                      | None => VUndefined
                      end)
  | _ => Return VUndefined
  end.

End JS.

Import JS.

Notation "x <- c ;; k" := (bindO c (fun x => k))
  (at level 61, c at next level, right associativity).

(** ** The route: [src/app/api/analyze/route.ts] *)

Module Route.

(** [AnalysisRequest] and [AnalysisResult] of the types file.  The union
    type [LLMProvider] is erased at run time: a provider is a string. *)
Record AnalysisRequest : Type := {
  imageBase64 : option string;
  contextText : option string;
  provider : string
}.

Record AnalysisResult : Type := {
  text : value;
  result_provider : string;
  timestamp : Z
}.

(** The second argument of [fetch], and what a builder returns. *)
Record RequestInit : Type := {
  method : string;
  headers : list (string * string);
  body : option string
}.

Record FetchConfig : Type := {
  url : string;
  options : RequestInit
}.

(** A [Response]: [resp_text] is what [response.text()] resolves to and
    [resp_json] what [response.json()] does (it throws a SyntaxError on a
    body that is not JSON). *)
Record Response : Type := {
  status : N;
  resp_text : string;
  resp_json : outcome value
}.

(** [response.ok]: the status is in the range 200-299. *)
Definition ok (r : Response) : bool :=
  (200 <=? status r)%N && (status r <=? 299)%N.

(** What the route reads from its surroundings: the environment variable,
    the network and the clock. *)
Record World : Type := {
  GOOGLE_GEMINI_API_KEY : option string;
  fetch : string -> RequestInit -> outcome Response;
  Date_now : Z
}.

(** What the route does to its surroundings, in order. *)
Inductive event : Type :=
| EvFetch (u : string) (o : RequestInit)
| EvConsoleError (label message : string).

Definition is_fetch (e : event) : bool :=
  match e with
  | EvFetch _ _ => true
  | EvConsoleError _ _ => false
  end.

(** The number of network calls in a trace. *)
Definition network_calls (trace : list event) : nat :=
  List.length (filter is_fetch trace).

(** A computation that may throw and leaves a trace. *)
Definition M (A : Type) : Type := (outcome A * list event)%type.

Definition retM {A} (a : A) : M A := (Return a, []).
Definition throwM {A} (message : string) : M A := (Throw message, []).
Definition liftO {A} (o : outcome A) : M A := (o, []).
Definition emit (e : event) : M unit := (Return tt, [e]).

Definition bindM {A B} (c : M A) (k : A -> M B) : M B :=
  match c with
  | (Throw m, t) => (Throw m, t)
  | (Return a, t) => let (r, t') := k a in (r, (t ++ t')%list)
  end.

(** [try { body } catch (error) { handler }] with a handler that returns. *)
Definition try_catch {A} (body : M A) (handler : string -> A * list event)
  : A * list event :=
  match body with
  | (Return a, t) => (a, t)
  | (Throw m, t) => let (a, t') := handler m in (a, (t ++ t')%list)
  end.

Notation "x <~ c ;; k" := (bindM c (fun x => k))
  (at level 61, c at next level, right associativity).

(** [await fetch(url, options)] *)
Definition do_fetch (w : World) (u : string) (o : RequestInit) : M Response :=
  (fetch w u o, [EvFetch u o]).

Definition ANALYSIS_PROMPT : string :=
  nl ++ "You are a medical expert analyzing a blood test result. " ++ nl
  ++ "Examine the image of the blood test results and provide a detailed analysis including:" ++ nl
  ++ nl
  ++ "1. A summary of the test results" ++ nl
  ++ "2. Identification of any abnormal values and their significance" ++ nl
  ++ "3. Potential health implications based on these results" ++ nl
  ++ "4. General recommendations (NOT medical advice)" ++ nl
  ++ nl
  ++ "Present this information in a clear, organized format." ++ nl.

Definition getApiEndpoint (provider : string) : outcome string :=
  if provider =? "gemini" then
    Return "https://generativelanguage.googleapis.com/v1beta/models/gemini-1.5-flash:generateContent"
  else if provider =? "openai" then
    Return "https://api.openai.com/v1/chat/completions"
  else if provider =? "claude" then
    Return "https://api.anthropic.com/v1/messages"
  else Throw ("Unsupported provider: " ++ provider).

(** The numerals [0.1] and [2048]. *)
Definition num_0_1 : decimal := Decimal (Pos (D0 Nil)) (D1 Nil).
Definition num_2048 : decimal := Decimal (Pos (D2 (D0 (D4 (D8 Nil))))) Nil.

Definition prepareGeminiRequest (w : World)
    (imageBase64 : string) (contextText apiKey : option string)
  : outcome FetchConfig :=
  let apiKeyToUse := or_else apiKey (GOOGLE_GEMINI_API_KEY w) in
  match as_truthy apiKeyToUse with
  | None => Throw "No Gemini API key provided"
  | Some apiKeyToUse =>
      let base64Data := nth_error (split "," imageBase64) 1 in
      let prompt :=
        match as_truthy contextText with
        | Some contextText =>
            ANALYSIS_PROMPT ++ nl ++ nl
              ++ "Additional context provided by user: " ++ contextText
        | None => ANALYSIS_PROMPT
        end in
      endpoint <- getApiEndpoint "gemini" ;;
      Return {|
        url := endpoint ++ "?key=" ++ apiKeyToUse;
        options := {|
          method := "POST";
          headers := [("Content-Type", "application/json")];
          body := stringify (VObj [
            ("contents", VArr [
              VObj [
                ("parts", VArr [
                  VObj [("text", VStr prompt)];
                  VObj [
                    ("inline_data", VObj [
                      ("mime_type", VStr "image/jpeg");
                      ("data", of_opt base64Data)
                    ])
                  ]
                ])
              ]
            ]);
            ("generationConfig", VObj [
              ("temperature", VNum num_0_1);
              ("maxOutputTokens", VNum num_2048)
            ])
          ])
        |}
      |}
  end.

Definition prepareOpenAIRequest
    (imageBase64 : string) (contextText apiKey : option string)
  : outcome FetchConfig :=
  match as_truthy apiKey with
  | None => Throw "No OpenAI API key provided"
  | Some apiKey =>
      let prompt :=
        match as_truthy contextText with
        | Some contextText =>
            ANALYSIS_PROMPT ++ nl ++ nl
              ++ "Additional context provided by user: " ++ contextText
        | None => ANALYSIS_PROMPT
        end in
      endpoint <- getApiEndpoint "openai" ;;
      Return {|
        url := endpoint;
        options := {|
          method := "POST";
          headers := [
            ("Content-Type", "application/json");
            ("Authorization", "Bearer " ++ apiKey)
          ];
          body := stringify (VObj [
            ("model", VStr "gpt-4-vision-preview");
            ("messages", VArr [
              VObj [
                ("role", VStr "user");
                ("content", VArr [
                  VObj [("type", VStr "text"); ("text", VStr prompt)];
                  VObj [
                    ("type", VStr "image_url");
                    ("image_url", VObj [("url", VStr imageBase64)])
                  ]
                ])
              ]
            ]);
            ("max_tokens", VNum num_2048);
            ("temperature", VNum num_0_1)
          ])
        |}
      |}
  end.

Definition prepareClaudeRequest
    (imageBase64 : string) (contextText apiKey : option string)
  : outcome FetchConfig :=
  match as_truthy apiKey with
  | None => Throw "No Claude API key provided"
  | Some apiKey =>
      let base64Data := nth_error (split "," imageBase64) 1 in
      mimeType <-
        match nth_error (split ";" imageBase64) 0 with
        | Some head => Return (nth_error (split ":" head) 1)
        | None => Throw (cannot_read "undefined" "split")
        end ;;
      let prompt :=
        match as_truthy contextText with
        | Some contextText =>
            ANALYSIS_PROMPT ++ nl ++ nl
              ++ "Additional context provided by user: " ++ contextText
        | None => ANALYSIS_PROMPT
        end in
      endpoint <- getApiEndpoint "claude" ;;
      Return {|
        url := endpoint;
        options := {|
          method := "POST";
          headers := [
            ("Content-Type", "application/json");
            ("x-api-key", apiKey);
            ("anthropic-version", "2023-06-01")
          ];
          body := stringify (VObj [
            ("model", VStr "claude-3-opus-20240229");
            ("max_tokens", VNum num_2048);
            ("temperature", VNum num_0_1);
            ("messages", VArr [
              VObj [
                ("role", VStr "user");
                ("content", VArr [
                  VObj [("type", VStr "text"); ("text", VStr prompt)];
                  VObj [
                    ("type", VStr "image");
                    ("source", VObj [
                      ("type", VStr "base64");
                      ("media_type", of_opt mimeType);
                      ("data", of_opt base64Data)
                    ])
                  ]
                ])
              ]
            ])
          ])
        |}
      |}
  end.

(** The three extraction paths of the second [switch]. *)
Definition extractGemini (data : value) : outcome value :=
  candidates <- get_prop data "candidates" ;;
  candidate <- get_index candidates 0 ;;
  content <- get_prop candidate "content" ;;
  parts <- get_prop content "parts" ;;
  part <- get_index parts 0 ;;
  get_prop part "text".

Definition extractOpenAI (data : value) : outcome value :=
  choices <- get_prop data "choices" ;;
  choice <- get_index choices 0 ;;
  message <- get_prop choice "message" ;;
  get_prop message "content".

Definition extractClaude (data : value) : outcome value :=
  content <- get_prop data "content" ;;
  block <- get_index content 0 ;;
  get_prop block "text".

(** What [analyzeBloodTest] resolves to: the object with [success: true]
    and a [result], or the one with [success: false] and an [error]. *)
Inductive AnalyzeOutput : Type :=
| Success (result : AnalysisResult)
| Failure (error : string).

Definition analyzeBloodTest (w : World)
    (request : AnalysisRequest) (userApiKey : option string)
  : AnalyzeOutput * list event :=
  try_catch
    (let contextText := contextText request in
     let provider := provider request in
     match as_truthy (imageBase64 request) with
     | None => throwM "No image provided"
     | Some imageBase64 =>
         fetchConfig <~
           (if provider =? "gemini" then
              liftO (prepareGeminiRequest w imageBase64 contextText userApiKey)
            else if provider =? "openai" then
              liftO (prepareOpenAIRequest imageBase64 contextText userApiKey)
            else if provider =? "claude" then
              liftO (prepareClaudeRequest imageBase64 contextText userApiKey)
            else throwM ("Unsupported provider: " ++ provider)) ;;
         response <~ do_fetch w (url fetchConfig) (options fetchConfig) ;;
         if negb (ok response) then
           let errorText := resp_text response in
           throwM ("API Error (" ++ N_to_string (status response) ++ "): "
                     ++ errorText)
         else
           data <~ liftO (resp_json response) ;;
           resultText <~
             (if provider =? "gemini" then liftO (extractGemini data)
              else if provider =? "openai" then liftO (extractOpenAI data)
              else if provider =? "claude" then liftO (extractClaude data)
              else retM (VStr EmptyString)) ;;
           retM (Success {|
             text := resultText;
             result_provider := provider;
             timestamp := Date_now w
           |})
     end)
    (fun message =>
       (Failure message, [EvConsoleError "Analysis error:" message])).

(** The incoming [NextRequest]: what [request.json()] resolves to and
    [request.headers.get]. *)
Record NextRequest : Type := {
  req_json : outcome AnalysisRequest;
  headers_get : string -> option string
}.

(** The body and status given to [NextResponse.json]. *)
Inductive RouteBody : Type :=
| BodyResult (result : AnalysisResult)
| BodyError (error : string).

Record RouteResponse : Type := {
  http_status : N;
  payload : RouteBody
}.

Definition POST (w : World) (request : NextRequest)
  : RouteResponse * list event :=
  try_catch
    (requestData <~ liftO (req_json request) ;;
     let userApiKey :=
       if provider requestData =? "gemini" then
         headers_get request "x-gemini-key"
       else if provider requestData =? "openai" then
         headers_get request "x-openai-key"
       else headers_get request "x-claude-key" in
     result <~
       (let (r, t) := analyzeBloodTest w requestData (or_else userApiKey None)
        in (Return r, t)) ;;
     match result with
     | Failure error =>
         retM {| http_status := 400; payload := BodyError error |}
     | Success r =>
         retM {| http_status := 200; payload := BodyResult r |}
     end)
    (fun message =>
       ({| http_status := 500; payload := BodyError message |},
        [EvConsoleError "API route error:" message])).

End Route.

Import Route.

(** ** The wire contracts

    The three requests of section 4.1 of the specification, written as the
    bytes that reach the provider, to compare the builders with.  [q s] is
    the JSON literal of a string that needs no escape. *)

Module Wire.

Definition q (s : string) : string := dq ++ s ++ dq.

(** An optional member of an object that already has a member before it. *)
Definition member (name : string) (x : option string) : string :=
  match x with
  | Some s => "," ++ q name ++ ":" ++ quote s
  | None => EmptyString
  end.

Definition gemini_body (prompt : string) (data : option string) : string :=
  "{" ++ q "contents" ++ ":[{" ++ q "parts" ++ ":[{"
    ++ q "text" ++ ":" ++ quote prompt
    ++ "},{" ++ q "inline_data" ++ ":{"
    ++ q "mime_type" ++ ":" ++ q "image/jpeg" ++ member "data" data
    ++ "}}]}]," ++ q "generationConfig" ++ ":{"
    ++ q "temperature" ++ ":0.1," ++ q "maxOutputTokens" ++ ":2048}}".

Definition gemini (key prompt : string) (data : option string) : FetchConfig :=
  {| url := "https://generativelanguage.googleapis.com/v1beta/models/gemini-1.5-flash:generateContent"
              ++ "?key=" ++ key;
     options := {| method := "POST";
                   headers := [("Content-Type", "application/json")];
                   body := Some (gemini_body prompt data) |} |}.

Definition openai_body (prompt image : string) : string :=
  "{" ++ q "model" ++ ":" ++ q "gpt-4-vision-preview" ++ ","
    ++ q "messages" ++ ":[{" ++ q "role" ++ ":" ++ q "user" ++ ","
    ++ q "content" ++ ":[{" ++ q "type" ++ ":" ++ q "text" ++ ","
    ++ q "text" ++ ":" ++ quote prompt
    ++ "},{" ++ q "type" ++ ":" ++ q "image_url" ++ ","
    ++ q "image_url" ++ ":{" ++ q "url" ++ ":" ++ quote image
    ++ "}}]}]," ++ q "max_tokens" ++ ":2048," ++ q "temperature" ++ ":0.1}".

Definition openai (key prompt image : string) : FetchConfig :=
  {| url := "https://api.openai.com/v1/chat/completions";
     options := {| method := "POST";
                   headers := [("Content-Type", "application/json");
                               ("Authorization", "Bearer " ++ key)];
                   body := Some (openai_body prompt image) |} |}.

Definition claude_body (prompt : string) (media_type data : option string)
  : string :=
  "{" ++ q "model" ++ ":" ++ q "claude-3-opus-20240229" ++ ","
    ++ q "max_tokens" ++ ":2048," ++ q "temperature" ++ ":0.1,"
    ++ q "messages" ++ ":[{" ++ q "role" ++ ":" ++ q "user" ++ ","
    ++ q "content" ++ ":[{" ++ q "type" ++ ":" ++ q "text" ++ ","
    ++ q "text" ++ ":" ++ quote prompt
    ++ "},{" ++ q "type" ++ ":" ++ q "image" ++ ","
    ++ q "source" ++ ":{" ++ q "type" ++ ":" ++ q "base64"
    ++ member "media_type" media_type ++ member "data" data
    ++ "}}]}]}".

Definition claude (key prompt : string) (media_type data : option string)
  : FetchConfig :=
  {| url := "https://api.anthropic.com/v1/messages";
     options := {| method := "POST";
                   headers := [("Content-Type", "application/json");
                               ("x-api-key", key);
                               ("anthropic-version", "2023-06-01")];
                   body := Some (claude_body prompt media_type data) |} |}.

(** A base64 data URI, as [FileReader.readAsDataURL] makes one, and what
    makes it well formed: a media type free of the three delimiters and a
    payload free of commas. *)
Definition data_uri (mime payload : string) : string :=
  "data:" ++ mime ++ ";base64," ++ payload.

Definition well_formed (mime payload : string) : Prop :=
  occurs "," mime = false /\ occurs ";" mime = false
  /\ occurs ":" mime = false /\ occurs "," payload = false.

(** The sentence the specification says a context adds to the prompt. *)
Definition context_sentence (context : string) : string :=
  "Additional context provided by user: " ++ context.

(** A credential that is there: a non-empty string. *)
Definition present (x : option string) (key : string) : Prop :=
  x = Some key /\ key <> EmptyString.

Definition absent (x : option string) : Prop :=
  x = None \/ x = Some EmptyString.

End Wire.

(** The two parses of the image string that the builders make. *)
Definition payload_of (imageBase64 : string) : option string :=
  nth_error (split "," imageBase64) 1.

Definition media_type_of (imageBase64 : string) : option string :=
  match nth_error (split ";" imageBase64) 0 with
  | Some head => nth_error (split ":" head) 1
  | None => None
  end.

(** [head] is the text of [s] before its first [sep], the whole of [s]
    when there is none. *)
Definition before_first (sep : ascii) (s head : string) : Prop :=
  occurs sep head = false
  /\ (s = head \/ exists rest, s = head ++ String sep EmptyString ++ rest).

(** The prompt expression that the three builders share. *)
Definition prompt_of (contextText : option string) : string :=
  match as_truthy contextText with
  | Some contextText =>
      ANALYSIS_PROMPT ++ nl ++ nl
        ++ "Additional context provided by user: " ++ contextText
  | None => ANALYSIS_PROMPT
  end.

(** The decode switch of [analyzeBloodTest], by provider. *)
Definition extract (provider : string) (data : value) : outcome value :=
  if provider =? "gemini" then extractGemini data
  else if provider =? "openai" then extractOpenAI data
  else if provider =? "claude" then extractClaude data
  else Return (VStr EmptyString).

(** The first [switch] of [analyzeBloodTest]: the builder chosen by the
    provider, and the throw of the default branch. *)
Definition build (w : World) (provider imageBase64 : string)
    (contextText userApiKey : option string) : outcome FetchConfig :=
  if provider =? "gemini" then
    prepareGeminiRequest w imageBase64 contextText userApiKey
  else if provider =? "openai" then
    prepareOpenAIRequest imageBase64 contextText userApiKey
  else if provider =? "claude" then
    prepareClaudeRequest imageBase64 contextText userApiKey
  else Throw ("Unsupported provider: " ++ provider).

(** What the [catch] block of [analyzeBloodTest] makes of a throw after the
    trace [t]. *)
Definition caught (t : list event) (message : string)
  : AnalyzeOutput * list event :=
  (Failure message, (t ++ [EvConsoleError "Analysis error:" message])%list).

(** The header that [POST] reads the caller's key from. *)
Definition key_header (provider : string) : string :=
  if provider =? "gemini" then "x-gemini-key"
  else if provider =? "openai" then "x-openai-key"
  else "x-claude-key".

(** The three recognized provider identifiers. *)
Definition recognized (provider : string) : Prop :=
  provider = "gemini" \/ provider = "openai" \/ provider = "claude".

(** Credential resolution as the specification words it: the caller's key
    when there is one, and for the first provider only, the server-side
    default otherwise. *)
Definition resolves (provider : string) (w : World)
    (caller : option string) (key : string) : Prop :=
  Wire.present caller key
  \/ (provider = "gemini" /\ Wire.absent caller
      /\ Wire.present (GOOGLE_GEMINI_API_KEY w) key).

Definition unresolvable (provider : string) (w : World)
    (caller : option string) : Prop :=
  Wire.absent caller
  /\ (provider = "gemini" -> Wire.absent (GOOGLE_GEMINI_API_KEY w)).

(** The missing-credential message of each builder. *)
Definition missing_credential (provider : string) : string :=
  if provider =? "gemini" then "No Gemini API key provided"
  else if provider =? "openai" then "No OpenAI API key provided"
  else "No Claude API key provided".

(** The wire contract of a provider, for an image string parsed the way
    the builders parse it. *)
Definition request_for (provider key prompt image : string) : FetchConfig :=
  if provider =? "gemini" then Wire.gemini key prompt (payload_of image)
  else if provider =? "openai" then Wire.openai key prompt image
  else Wire.claude key prompt (media_type_of image) (payload_of image).

(** *** Reply paths

    The documented nesting of each provider's reply, as a path of property
    and index accesses, and the walk along such a path. *)
Inductive access : Type :=
| Field (name : string)
| At (i : nat).

Definition read (v : value) (a : access) : outcome value :=
  match a with
  | Field name => get_prop v name
  | At i => get_index v i
  end.

Fixpoint walk (path : list access) (v : value) : outcome value :=
  match path with
  | [] => Return v
  | a :: rest => x <- read v a ;; walk rest x
  end.

Definition path_of (provider : string) : list access :=
  if provider =? "gemini" then
    [Field "candidates"; At 0; Field "content"; Field "parts"; At 0;
     Field "text"]
  else if provider =? "openai" then
    [Field "choices"; At 0; Field "message"; Field "content"]
  else [Field "content"; At 0; Field "text"].

Definition nullish (v : value) : Prop := v = VUndefined \/ v = VNull.

(** A reply breaks the path when the walk reaches [undefined] or [null]
    with at least one access still to make. *)
Definition breaks (path : list access) (data : value) : Prop :=
  exists before a after v,
    path = (before ++ a :: after)%list
    /\ walk before data = Return v /\ nullish v.

(** The error string of an HTTP-level failure starts with this. *)
Definition is_http_error (message : string) : bool :=
  String.prefix "API Error (" message.

(** *** Sample surroundings and requests *)

Definition offline : World := {|
  GOOGLE_GEMINI_API_KEY := None;
  fetch := fun _ _ => Throw "fetch failed";
  Date_now := 0
|}.

(** A world whose network answers every call with [r]. *)
Definition answering (r : Response) : World := {|
  GOOGLE_GEMINI_API_KEY := Some "server-key";
  fetch := fun _ _ => Return r;
  Date_now := 1700000000000
|}.

Definition sample_image : string := "data:image/jpeg;base64,AAAA".

Definition sample_request (provider : string) : AnalysisRequest := {|
  imageBase64 := Some sample_image;
  contextText := None;
  provider := provider
|}.

Definition unauthorized : Response := {|
  status := 401;
  resp_text := "denied";
  resp_json := Throw "Unexpected token d in JSON at position 0"
|}.

Definition replying (data : value) : Response := {|
  status := 200;
  resp_text := EmptyString;
  resp_json := Return data
|}.

(** A Gemini reply whose first part has no [text]. *)
Definition textless_reply : value :=
  VObj [("candidates", VArr [
    VObj [("content", VObj [("parts", VArr [VObj []])])]
  ])].

Definition gemini_reply (t : string) : value :=
  VObj [("candidates", VArr [
    VObj [("content", VObj [("parts", VArr [VObj [("text", VStr t)]])])]
  ])].

Definition incoming (data : AnalysisRequest)
    (hdrs : list (string * string)) : NextRequest := {|
  req_json := Return data;
  headers_get := fun name =>
    match find (fun h => fst h =? name) hdrs with
    | Some h => Some (snd h)
    | None => None
    end
|}.

(** ** The client store: [src/app/utils/settings.ts]

    The settings and the usage counter that the page keeps in
    [localStorage].  [JSON.parse] followed by the unchecked cast to the
    declared interface is taken from the surroundings, one reading per
    interface: the embedding covers stored texts that either make
    [JSON.parse] throw or have the declared shape, with integer counts and
    times.  A code unit is a code point below 256. *)

Module Client.

Record UserSettings : Type := {
  apiKeys : list (string * string);
  preferredProvider : string
}.

Record ProcessedImages : Type := {
  count : Z;
  lastResetTime : Z
}.

Record UsageLimits : Type := {
  processedImages : ProcessedImages
}.

Definition SETTINGS_KEY : string := "bloodq_user_settings".
Definition USAGE_LIMITS_KEY : string := "bloodq_usage_limits".

Definition MAX_IMAGES_PER_DAY : Z := 2.
Definition HOURS_24 : Z := 24 * 60 * 60 * 1000.

(** The browser as the module sees it.  [storage] is [localStorage];
    [getItem_throws] and [setItem_throws] make the two calls throw (storage
    disabled, quota exceeded); [clock] gives the successive readings of
    [Date.now()] and [reads] counts them; [defaultSettings] and
    [defaultUsageLimits] are the two objects of the module, which are
    shared by every caller that gets them back; [fetch] and [requests] are
    the network and the calls made to it; [console] collects
    [console.error]. *)
Record Browser : Type := {
  window_defined : bool;
  storage : list (string * string);
  getItem_throws : option string;
  setItem_throws : option string;
  parse_settings : string -> outcome UserSettings;
  parse_limits : string -> outcome UsageLimits;
  clock : nat -> Z;
  reads : nat;
  defaultSettings : UserSettings;
  defaultUsageLimits : UsageLimits;
  fetch : string -> RequestInit -> outcome Response;
  requests : list (string * RequestInit);
  console : list (string * string)
}.

Definition set_storage (items : list (string * string)) (b : Browser)
  : Browser := {|
  window_defined := window_defined b; storage := items;
  getItem_throws := getItem_throws b; setItem_throws := setItem_throws b;
  parse_settings := parse_settings b; parse_limits := parse_limits b;
  clock := clock b; reads := reads b;
  defaultSettings := defaultSettings b;
  defaultUsageLimits := defaultUsageLimits b;
  fetch := fetch b; requests := requests b; console := console b
|}.

Definition set_reads (n : nat) (b : Browser) : Browser := {|
  window_defined := window_defined b; storage := storage b;
  getItem_throws := getItem_throws b; setItem_throws := setItem_throws b;
  parse_settings := parse_settings b; parse_limits := parse_limits b;
  clock := clock b; reads := n;
  defaultSettings := defaultSettings b;
  defaultUsageLimits := defaultUsageLimits b;
  fetch := fetch b; requests := requests b; console := console b
|}.

Definition set_defaultSettings (s : UserSettings) (b : Browser) : Browser := {|
  window_defined := window_defined b; storage := storage b;
  getItem_throws := getItem_throws b; setItem_throws := setItem_throws b;
  parse_settings := parse_settings b; parse_limits := parse_limits b;
  clock := clock b; reads := reads b;
  defaultSettings := s;
  defaultUsageLimits := defaultUsageLimits b;
  fetch := fetch b; requests := requests b; console := console b
|}.

Definition set_defaultUsageLimits (l : UsageLimits) (b : Browser)
  : Browser := {|
  window_defined := window_defined b; storage := storage b;
  getItem_throws := getItem_throws b; setItem_throws := setItem_throws b;
  parse_settings := parse_settings b; parse_limits := parse_limits b;
  clock := clock b; reads := reads b;
  defaultSettings := defaultSettings b;
  defaultUsageLimits := l;
  fetch := fetch b; requests := requests b; console := console b
|}.

Definition set_requests (r : list (string * RequestInit)) (b : Browser)
  : Browser := {|
  window_defined := window_defined b; storage := storage b;
  getItem_throws := getItem_throws b; setItem_throws := setItem_throws b;
  parse_settings := parse_settings b; parse_limits := parse_limits b;
  clock := clock b; reads := reads b;
  defaultSettings := defaultSettings b;
  defaultUsageLimits := defaultUsageLimits b;
  fetch := fetch b; requests := r; console := console b
|}.

Definition set_console (c : list (string * string)) (b : Browser)
  : Browser := {|
  window_defined := window_defined b; storage := storage b;
  getItem_throws := getItem_throws b; setItem_throws := setItem_throws b;
  parse_settings := parse_settings b; parse_limits := parse_limits b;
  clock := clock b; reads := reads b;
  defaultSettings := defaultSettings b;
  defaultUsageLimits := defaultUsageLimits b;
  fetch := fetch b; requests := requests b; console := c
|}.

(** A computation on the browser. *)
Definition B (A : Type) : Type := Browser -> A * Browser.

Definition retB {A} (a : A) : B A := fun b => (a, b).

Definition bindB {A C} (c : B A) (k : A -> B C) : B C :=
  fun b => let (a, b') := c b in k a b'.

Notation "x <<- c ;; k" := (bindB c (fun x => k))
  (at level 61, c at next level, right associativity).

(** The own property [name] of an object with string values. *)
Fixpoint item (name : string) (items : list (string * string))
  : option string :=
  match items with
  | [] => None
  | (k, v) :: rest => if (k =? name)%string then Some v else item name rest
  end.

(** Setting the property [name]: in place when the object has it, at the
    end otherwise (for a name that is no array index). *)
Fixpoint assign (name text : string) (items : list (string * string))
  : list (string * string) :=
  match items with
  | [] => [(name, text)]
  | (k, v) :: rest =>
      if (k =? name)%string then (k, text) :: rest
      else (k, v) :: assign name text rest
  end.

(** [localStorage.getItem(key)] *)
Definition getItem (key : string) : B (outcome (option string)) :=
  fun b =>
    (match getItem_throws b with
     | Some m => Throw m
     | None => Return (item key (storage b))
     end, b).

(** [localStorage.setItem(key, text)] *)
Definition setItem (key text : string) : B (outcome unit) :=
  fun b =>
    match setItem_throws b with
    | Some m => (Throw m, b)
    | None => (Return tt, set_storage (assign key text (storage b)) b)
    end.

(** [console.error(label, error)] *)
Definition console_error (label message : string) : B unit :=
  fun b => (tt, set_console (console b ++ [(label, message)])%list b).

(** [Date.now()] *)
Definition Date_now : B Z :=
  fun b => (clock b (reads b), set_reads (S (reads b)) b).

(** The text that [JSON.stringify] gives to [setItem]. *)
Definition JSON_text (v : value) : string :=
  match stringify v with
  | Some t => t
  | None => "undefined"
  end.

Definition Z_num (z : Z) : decimal := Decimal (Z.to_int z) Nil.

Definition settings_value (s : UserSettings) : value :=
  VObj [
    ("apiKeys", VObj (map (fun kv => (fst kv, VStr (snd kv))) (apiKeys s)));
    ("preferredProvider", VStr (preferredProvider s))
  ].

Definition limits_value (l : UsageLimits) : value :=
  VObj [
    ("processedImages", VObj [
      ("count", VNum (Z_num (count (processedImages l))));
      ("lastResetTime", VNum (Z_num (lastResetTime (processedImages l))))
    ])
  ].

(** Where a loaded object comes from: parsed or made afresh, or one of the
    module's two shared defaults. *)
Inductive origin : Type :=
| Fresh
| Shared.

(** White space, as [String.prototype.trim] sees it. *)
Definition is_space (c : ascii) : bool :=
  let n := nat_of_ascii c in
  (Nat.leb 9 n && Nat.leb n 13) || Nat.eqb n 32 || Nat.eqb n 160.

Fixpoint trimStart (s : string) : string :=
  match s with
  | EmptyString => EmptyString
  | String c rest => if is_space c then trimStart rest else s
  end.

Fixpoint trimEnd (s : string) : string :=
  match s with
  | EmptyString => EmptyString
  | String c rest =>
      match trimEnd rest with
      | EmptyString => if is_space c then EmptyString else String c EmptyString
      | kept => String c kept
      end
  end.

Definition trim (s : string) : string := trimEnd (trimStart s).

(** [key && key.trim() !== ''] *)
Definition filled (key : string) : bool :=
  match as_truthy (Some key) with
  | Some key => negb (trim key =? EmptyString)
  | None => false
  end.

Definition saveSettings (settings : UserSettings) : B unit :=
  fun b =>
    if window_defined b then
      (r <<- setItem SETTINGS_KEY (JSON_text (settings_value settings)) ;;
       match r with
       | Return _ => retB tt
       | Throw error => console_error "Failed to save settings:" error
       end) b
    else (tt, b).

Definition loadSettings : B (origin * UserSettings) :=
  fun b =>
    if window_defined b then
      (r <<- getItem SETTINGS_KEY ;;
       match r with
       | Return savedSettings =>
           match as_truthy savedSettings with
           | Some savedSettings =>
               match parse_settings b savedSettings with
               | Return settings => retB (Fresh, settings)
               | Throw error =>
                   _ <<- console_error "Failed to load settings:" error ;;
                   retB (Shared, defaultSettings b)
               end
           | None => retB (Shared, defaultSettings b)
           end
       | Throw error =>
           _ <<- console_error "Failed to load settings:" error ;;
           retB (Shared, defaultSettings b)
       end) b
    else (Shared, defaultSettings b, b).

(** A write to a loaded settings object reaches the module's default when
    that is the object that was loaded. *)
Definition write_settings (o : origin) (s : UserSettings) : B unit :=
  fun b =>
    match o with
    | Shared => (tt, set_defaultSettings s b)
    | Fresh => (tt, b)
    end.

Definition saveApiKey (provider apiKey : string) : B unit :=
  loaded <<- loadSettings ;;
  let (o, settings) := loaded in
  let settings := {|
    apiKeys := assign provider apiKey (apiKeys settings);
    preferredProvider := preferredProvider settings
  |} in
  _ <<- write_settings o settings ;;
  saveSettings settings.

Definition getApiKey (provider : string) : B (option string) :=
  loaded <<- loadSettings ;;
  retB (item provider (apiKeys (snd loaded))).

Definition setPreferredProvider (provider : string) : B unit :=
  loaded <<- loadSettings ;;
  let (o, settings) := loaded in
  let settings := {|
    apiKeys := apiKeys settings;
    preferredProvider := provider
  |} in
  _ <<- write_settings o settings ;;
  saveSettings settings.

Definition getPreferredProvider : B string :=
  loaded <<- loadSettings ;;
  retB (preferredProvider (snd loaded)).

Definition hasAnyApiKey : B bool :=
  loaded <<- loadSettings ;;
  retB (existsb (fun kv => filled (snd kv)) (apiKeys (snd loaded))).

Definition hasProviderApiKey (provider : string) : B bool :=
  loaded <<- loadSettings ;;
  retB (match item provider (apiKeys (snd loaded)) with
        | Some apiKey => negb (trim apiKey =? EmptyString)
        | None => false
        end).

Definition getAvailableProviders : B (list string) :=
  loaded <<- loadSettings ;;
  retB (map fst (filter (fun kv => filled (snd kv)) (apiKeys (snd loaded)))).

Definition saveUsageLimits (limits : UsageLimits) : B unit :=
  fun b =>
    if window_defined b then
      (r <<- setItem USAGE_LIMITS_KEY (JSON_text (limits_value limits)) ;;
       match r with
       | Return _ => retB tt
       | Throw error => console_error "Failed to save usage limits:" error
       end) b
    else (tt, b).

Definition loadUsageLimits : B (origin * UsageLimits) :=
  fun b =>
    if window_defined b then
      (r <<- getItem USAGE_LIMITS_KEY ;;
       match r with
       | Return savedLimits =>
           match as_truthy savedLimits with
           | Some savedLimits =>
               match parse_limits b savedLimits with
               | Return limits =>
                   now <<- Date_now ;;
                   if (now - lastResetTime (processedImages limits)
                         >? HOURS_24)%Z
                   then
                     now <<- Date_now ;;
                     let resetLimits := {|
                       processedImages := {| count := 0;
                                             lastResetTime := now |}
                     |} in
                     _ <<- saveUsageLimits resetLimits ;;
                     retB (Fresh, resetLimits)
                   else retB (Fresh, limits)
               | Throw error =>
                   _ <<- console_error "Failed to load usage limits:" error ;;
                   retB (Shared, defaultUsageLimits b)
               end
           | None => retB (Shared, defaultUsageLimits b)
           end
       | Throw error =>
           _ <<- console_error "Failed to load usage limits:" error ;;
           retB (Shared, defaultUsageLimits b)
       end) b
    else (Shared, defaultUsageLimits b, b).

Definition write_limits (o : origin) (l : UsageLimits) : B unit :=
  fun b =>
    match o with
    | Shared => (tt, set_defaultUsageLimits l b)
    | Fresh => (tt, b)
    end.

(** The object that [trackImageProcessed] returns. *)
Record Tracked : Type := {
  success : bool;
  remaining : Z
}.

Definition trackImageProcessed (provider : string) : B Tracked :=
  own <<- hasProviderApiKey provider ;;
  if own then
    retB {| success := true; remaining := MAX_IMAGES_PER_DAY |}
  else
    loaded <<- loadUsageLimits ;;
    let (o, limits) := loaded in
    if (count (processedImages limits) >=? MAX_IMAGES_PER_DAY)%Z then
      retB {| success := false; remaining := 0 |}
    else
      let limits := {|
        processedImages := {|
          count := count (processedImages limits) + 1;
          lastResetTime := lastResetTime (processedImages limits)
        |}
      |} in
      _ <<- write_limits o limits ;;
      _ <<- saveUsageLimits limits ;;
      retB {| success := true;
              remaining := MAX_IMAGES_PER_DAY - count (processedImages limits) |}.

Definition getRemainingImageCount (provider : string) : B Z :=
  own <<- hasProviderApiKey provider ;;
  if own then retB MAX_IMAGES_PER_DAY
  else
    loaded <<- loadUsageLimits ;;
    retB (Z.max 0 (MAX_IMAGES_PER_DAY - count (processedImages (snd loaded)))).

Definition getResetTimeRemaining : B Z :=
  loaded <<- loadUsageLimits ;;
  now <<- Date_now ;;
  retB (Z.max 0 (HOURS_24
                   - (now - lastResetTime (processedImages (snd loaded))))).

End Client.

(** ** The page: [src/app/page.tsx] *)

Module Page.

Import Client.

(** The state of the [Home] component. *)
Record Home : Type := {
  imageBase64 : string;
  contextText : string;
  isLoading : bool;
  error : option string;
  result : option value;
  showSettings : bool;
  provider : string;
  hasApiKey : bool;
  showResults : bool;
  remainingImages : Z;
  resetTime : Z
}.

Definition setIsLoading (x : bool) (h : Home) : Home := {|
  imageBase64 := imageBase64 h; contextText := contextText h;
  isLoading := x; error := error h; result := result h;
  showSettings := showSettings h; provider := provider h;
  hasApiKey := hasApiKey h; showResults := showResults h;
  remainingImages := remainingImages h; resetTime := resetTime h
|}.

Definition setError (x : option string) (h : Home) : Home := {|
  imageBase64 := imageBase64 h; contextText := contextText h;
  isLoading := isLoading h; error := x; result := result h;
  showSettings := showSettings h; provider := provider h;
  hasApiKey := hasApiKey h; showResults := showResults h;
  remainingImages := remainingImages h; resetTime := resetTime h
|}.

Definition setResult (x : option value) (h : Home) : Home := {|
  imageBase64 := imageBase64 h; contextText := contextText h;
  isLoading := isLoading h; error := error h; result := x;
  showSettings := showSettings h; provider := provider h;
  hasApiKey := hasApiKey h; showResults := showResults h;
  remainingImages := remainingImages h; resetTime := resetTime h
|}.

Definition setShowResults (x : bool) (h : Home) : Home := {|
  imageBase64 := imageBase64 h; contextText := contextText h;
  isLoading := isLoading h; error := error h; result := result h;
  showSettings := showSettings h; provider := provider h;
  hasApiKey := hasApiKey h; showResults := x;
  remainingImages := remainingImages h; resetTime := resetTime h
|}.

Definition setRemainingImages (x : Z) (h : Home) : Home := {|
  imageBase64 := imageBase64 h; contextText := contextText h;
  isLoading := isLoading h; error := error h; result := result h;
  showSettings := showSettings h; provider := provider h;
  hasApiKey := hasApiKey h; showResults := showResults h;
  remainingImages := x; resetTime := resetTime h
|}.

Definition setResetTime (x : Z) (h : Home) : Home := {|
  imageBase64 := imageBase64 h; contextText := contextText h;
  isLoading := isLoading h; error := error h; result := result h;
  showSettings := showSettings h; provider := provider h;
  hasApiKey := hasApiKey h; showResults := showResults h;
  remainingImages := remainingImages h; resetTime := x
|}.

Definition Z_to_string (z : Z) : string := NilZero.string_of_int (Z.to_int z).

(** [Number.MAX_SAFE_INTEGER], 2^53 - 1: the integers from 0 to it are
    doubles, the double quotient of one of them by 3600000 differs from the
    real one by less than 1/3600000, so [Math.floor] of it is the integer
    quotient, and it prints as a plain decimal numeral. *)
Definition MAX_SAFE_INTEGER : Z := 9007199254740991.

(** [Math.floor(a / b)] and [a % b] on integers, for a positive [b]; the
    page computes them on doubles, and the integers are the same for a time
    from 0 to [MAX_SAFE_INTEGER]. *)
Definition formatTimeRemaining (milliseconds : Z) : string :=
  let hours := (milliseconds / (60 * 60 * 1000))%Z in
  let minutes :=
    (Z.rem milliseconds (60 * 60 * 1000) / (60 * 1000))%Z in
  Z_to_string hours ++ "h " ++ Z_to_string minutes ++ "m".

(** The handlers read the state of the render they were made in, [h0], and
    their setters act on the state that the next render gets, [h]. *)
Definition updateRemainingImages (h0 : Home) (h : Home) : B Home :=
  n <<- getRemainingImageCount (provider h0) ;;
  t <<- getResetTimeRemaining ;;
  retB (setResetTime t (setRemainingImages n h)).

Definition isLimitApplied (h0 : Home) : B bool :=
  own <<- hasProviderApiKey (provider h0) ;;
  retB (negb own).

(** JavaScript truthiness and [String(v)], for what a reply may hold. *)
Fixpoint zeros (u : uint) : bool :=
  match u with
  | Nil => true
  | D0 rest => zeros rest
  | _ => false
  end.

Definition mantissa_zero (d : decimal) : bool :=
  match d with
  | Decimal (Pos i) f | Decimal (Neg i) f
  | DecimalExp (Pos i) f _ | DecimalExp (Neg i) f _ => zeros i && zeros f
  end.

Definition truthy (v : value) : bool :=
  match v with
  | VUndefined | VNull => false
  | VBool b => b
  | VNum d => negb (mantissa_zero d)
  | VStr s => negb (s =? EmptyString)
  | VArr _ | VObj _ => true
  end.

Fixpoint to_string (v : value) : string :=
  match v with
  | VUndefined => "undefined"
  | VNull => "null"
  | VBool b => if b then "true" else "false"
  | VNum d => number_to_string d
  | VStr s => s
  | VArr items =>
      join "," (map (fun x => match x with
                              | VUndefined | VNull => EmptyString
                              | _ => to_string x
                              end) items)
  | VObj _ => "[object Object]"
  end.

(** The headers and the body that [handleAnalyze] gives to [fetch]. *)
Definition key_headers (provider : string) (userApiKey : option string)
  : list (string * string) :=
  ((if provider =? "gemini" then
      match as_truthy userApiKey with
      | Some k => [("x-gemini-key", k)]
      | None => []
      end
    else [])
   ++ (if provider =? "openai" then
         match as_truthy userApiKey with
         | Some k => [("x-openai-key", k)]
         | None => []
         end
       else [])
   ++ (if provider =? "claude" then
         match as_truthy userApiKey with
         | Some k => [("x-claude-key", k)]
         | None => []
         end
       else []))%list.

Definition analyze_request (h0 : Home) (userApiKey : option string)
  : RequestInit := {|
  method := "POST";
  headers := ("Content-Type", "application/json")
               :: key_headers (provider h0) userApiKey;
  body := stringify (VObj [
    ("imageBase64", VStr (imageBase64 h0));
    ("contextText", of_opt (or_else (Some (trim (contextText h0))) None));
    ("provider", VStr (provider h0))
  ])
|}.

(** [await fetch(url, options)] in the browser. *)
Definition page_fetch (u : string) (o : RequestInit) : B (outcome Response) :=
  fun b => (Client.fetch b u o,
            set_requests (requests b ++ [(u, o)])%list b).

(** The [try] block of [handleAnalyze]: the state it leaves, and the
    message of what it threw, if it threw. *)
Definition try_analyze (h0 h : Home) : B (Home * option string) :=
  userApiKey <<- getApiKey (provider h0) ;;
  sent <<- page_fetch "/api/analyze" (analyze_request h0 userApiKey) ;;
  match sent with
  | Throw m => retB (h, Some m)
  | Return response =>
      match resp_json response with
      | Throw m => retB (h, Some m)
      | Return data =>
          if negb (ok response) then
            match get_prop data "error" with
            | Throw m => retB (h, Some m)
            | Return e =>
                retB (h, Some (if truthy e then to_string e
                               else "Failed to analyze blood test"))
            end
          else
            match get_prop data "result" with
            | Throw m => retB (h, Some m)
            | Return r =>
                h <<- updateRemainingImages h0 (setResult (Some r) h) ;;
                retB (h, None)
            end
      end
  end.

Definition handleAnalyze (h0 : Home) : B Home :=
  match as_truthy (Some (imageBase64 h0)) with
  | None => retB (setError (Some "Please upload an image first") h0)
  | Some _ =>
      trackResult <<- trackImageProcessed (provider h0) ;;
      if negb (success trackResult) then
        retB (setError
                (Some ("You've reached the limit of 2 images in 24 hours. Try again in "
                         ++ formatTimeRemaining (resetTime h0) ++ "."))
                h0)
      else
        let h := setShowResults true (setError None (setIsLoading true h0)) in
        tried <<- try_analyze h0 h ;;
        let (h, thrown) := tried in
        h <<- match thrown with
              | Some message =>
                  _ <<- console_error "Analysis error:" message ;;
                  retB (setError (Some message) h)
              | None => retB h
              end ;;
        retB (setIsLoading false h)
  end.

(** HTTP white space: tab, line feed, carriage return and space.  The
    [Headers] of [fetch] remove it from both ends of every value they are
    given. *)
Definition http_space (c : ascii) : bool :=
  let n := nat_of_ascii c in
  Nat.eqb n 9 || Nat.eqb n 10 || Nat.eqb n 13 || Nat.eqb n 32.

Fixpoint strip_start (s : string) : string :=
  match s with
  | EmptyString => EmptyString
  | String c rest => if http_space c then strip_start rest else s
  end.

Fixpoint strip_end (s : string) : string :=
  match s with
  | EmptyString => EmptyString
  | String c rest =>
      match strip_end rest with
      | EmptyString =>
          if http_space c then EmptyString else String c EmptyString
      | kept => String c kept
      end
  end.

Definition strip_value (s : string) : string := strip_end (strip_start s).

(** What the route receives when [request] arrives, when its body parses
    to [data].  Header names are compared as written: the page and the
    route both write them in lower case.  A header value arrives without
    the white space at its ends, the empty string when it was white space
    only; this is what happens to a value of printable ASCII, and the
    properties below are stated for such values. *)
Definition arriving (request : RequestInit) (data : outcome AnalysisRequest)
  : NextRequest := {|
  req_json := data;
  headers_get :=
    fun name => option_map strip_value (Client.item name (headers request))
|}.

(** A browser for the examples: no network, an empty store. *)
Definition fresh_browser (started : Z) : Browser := {|
  window_defined := true;
  storage := [];
  getItem_throws := None;
  setItem_throws := None;
  parse_settings := fun _ => Throw "Unexpected token";
  parse_limits := fun _ => Throw "Unexpected token";
  clock := fun n => (started + Z.of_nat n)%Z;
  reads := 0;
  defaultSettings := {| apiKeys := []; preferredProvider := "gemini" |};
  defaultUsageLimits :=
    {| processedImages := {| count := 0; lastResetTime := started |} |};
  Client.fetch := fun _ _ => Throw "Failed to fetch";
  requests := [];
  console := []
|}.

End Page.

(** *** What a browser holds

    The settings or the limits that the store holds: the item is there,
    it is not the empty text, and it parses. *)
Definition stores_settings (b : Client.Browser) (s : Client.UserSettings)
  : Prop :=
  Client.window_defined b = true
  /\ Client.getItem_throws b = None
  /\ exists text,
       Client.item Client.SETTINGS_KEY (Client.storage b) = Some text
       /\ text <> EmptyString
       /\ Client.parse_settings b text = Return s.

Definition stores_limits (b : Client.Browser) (l : Client.UsageLimits)
  : Prop :=
  Client.window_defined b = true
  /\ Client.getItem_throws b = None
  /\ exists text,
       Client.item Client.USAGE_LIMITS_KEY (Client.storage b) = Some text
       /\ text <> EmptyString
       /\ Client.parse_limits b text = Return l.

(** [setItem] goes through. *)
Definition writable (b : Client.Browser) : Prop :=
  Client.window_defined b = true /\ Client.setItem_throws b = None.

(** Nothing can be written: no [window], or [setItem] throws. *)
Definition unwritable (b : Client.Browser) : Prop :=
  Client.window_defined b = false \/ Client.setItem_throws b <> None.

Definition settings_text (s : Client.UserSettings) : string :=
  Client.JSON_text (Client.settings_value s).

Definition limits_text (l : Client.UsageLimits) : string :=
  Client.JSON_text (Client.limits_value l).

Definition limits_of (n t : Z) : Client.UsageLimits :=
  {| Client.processedImages :=
       {| Client.count := n; Client.lastResetTime := t |} |}.

(** Every code unit of [s] is white space. *)
Definition blank (s : string) : Prop :=
  forall c, occurs c s = true -> Client.is_space c = true.

(** Every code unit of [s] is printable ASCII, from the space to the
    tilde. *)
Definition printable (s : string) : Prop :=
  forall c, occurs c s = true -> 32 <= nat_of_ascii c <= 126.

(** A browser whose store holds the limits [l] and the settings [s], whose
    parser reads these two texts and the texts of [more], and whose clock
    stands at [now]. *)
Definition holding (s : Client.UserSettings) (l : Client.UsageLimits)
    (more : list Client.UsageLimits) (now : Z) : Client.Browser := {|
  Client.window_defined := true;
  Client.storage := [(Client.SETTINGS_KEY, settings_text s);
                     (Client.USAGE_LIMITS_KEY, limits_text l)];
  Client.getItem_throws := None;
  Client.setItem_throws := None;
  Client.parse_settings := fun t =>
    if t =? settings_text s then Return s else Throw "Unexpected token";
  Client.parse_limits := fun t =>
    match find (fun x => t =? limits_text x) (l :: more) with
    | Some x => Return x
    | None => Throw "Unexpected token"
    end;
  Client.clock := fun _ => now;
  Client.reads := 0;
  Client.defaultSettings :=
    {| Client.apiKeys := []; Client.preferredProvider := "gemini" |};
  Client.defaultUsageLimits := limits_of 0 0;
  Client.fetch := fun _ _ => Throw "Failed to fetch";
  Client.requests := [];
  Client.console := []
|}.

(** A browser whose store refuses every write and holds nothing. *)
Definition locked_browser (started : Z) : Client.Browser := {|
  Client.window_defined := true;
  Client.storage := [];
  Client.getItem_throws := None;
  Client.setItem_throws := Some "QuotaExceededError";
  Client.parse_settings := fun _ => Throw "Unexpected token";
  Client.parse_limits := fun _ => Throw "Unexpected token";
  Client.clock := fun n => (started + Z.of_nat n)%Z;
  Client.reads := 0;
  Client.defaultSettings :=
    {| Client.apiKeys := []; Client.preferredProvider := "gemini" |};
  Client.defaultUsageLimits := limits_of 0 started;
  Client.fetch := fun _ _ => Throw "Failed to fetch";
  Client.requests := [];
  Client.console := []
|}.

(** A browser without [window]. *)
Definition headless (d : Client.UsageLimits) : Client.Browser := {|
  Client.window_defined := false;
  Client.storage := [];
  Client.getItem_throws := None;
  Client.setItem_throws := None;
  Client.parse_settings := fun _ => Throw "Unexpected token";
  Client.parse_limits := fun _ => Throw "Unexpected token";
  Client.clock := fun n => Z.of_nat n;
  Client.reads := 0;
  Client.defaultSettings :=
    {| Client.apiKeys := []; Client.preferredProvider := "gemini" |};
  Client.defaultUsageLimits := d;
  Client.fetch := fun _ _ => Throw "Failed to fetch";
  Client.requests := [];
  Client.console := []
|}.

(** The settings after [saveApiKey] and after [setPreferredProvider]. *)
Definition with_key (provider apiKey : string) (s : Client.UserSettings)
  : Client.UserSettings :=
  {| Client.apiKeys := Client.assign provider apiKey (Client.apiKeys s);
     Client.preferredProvider := Client.preferredProvider s |}.

Definition with_preferred (provider : string) (s : Client.UserSettings)
  : Client.UserSettings :=
  {| Client.apiKeys := Client.apiKeys s;
     Client.preferredProvider := provider |}.

(** A browser like [holding], whose parser also reads the settings of
    [more]. *)
Definition keeping (s : Client.UserSettings)
    (more : list Client.UserSettings) : Client.Browser := {|
  Client.window_defined := true;
  Client.storage := [(Client.SETTINGS_KEY, settings_text s)];
  Client.getItem_throws := None;
  Client.setItem_throws := None;
  Client.parse_settings := fun t =>
    match find (fun x => t =? settings_text x) (s :: more) with
    | Some x => Return x
    | None => Throw "Unexpected token"
    end;
  Client.parse_limits := fun _ => Throw "Unexpected token";
  Client.clock := fun _ => 0%Z;
  Client.reads := 0;
  Client.defaultSettings :=
    {| Client.apiKeys := []; Client.preferredProvider := "gemini" |};
  Client.defaultUsageLimits := limits_of 0 0;
  Client.fetch := fun _ _ => Throw "Failed to fetch";
  Client.requests := [];
  Client.console := []
|}.

(** [b'] is [b] but for the counter: the item of the usage limits, the
    shared default limits, the readings of the clock and the console.  The
    settings, the network and the calls made to it are the same. *)
Definition only_counter_changed (b b' : Client.Browser) : Prop :=
  Client.window_defined b' = Client.window_defined b
  /\ Client.getItem_throws b' = Client.getItem_throws b
  /\ Client.setItem_throws b' = Client.setItem_throws b
  /\ Client.parse_settings b' = Client.parse_settings b
  /\ Client.parse_limits b' = Client.parse_limits b
  /\ Client.clock b' = Client.clock b
  /\ Client.defaultSettings b' = Client.defaultSettings b
  /\ Client.fetch b' = Client.fetch b
  /\ Client.requests b' = Client.requests b
  /\ Client.item Client.SETTINGS_KEY (Client.storage b')
     = Client.item Client.SETTINGS_KEY (Client.storage b).


(** The state in which [handleAnalyze] starts its request. *)
Definition loading (h0 : Page.Home) : Page.Home :=
  Page.setShowResults true (Page.setError None (Page.setIsLoading true h0)).

(** What the [catch] and [finally] blocks of [handleAnalyze] leave. *)
Definition failed (message : string) (h : Page.Home) (b : Client.Browser)
  : Page.Home * Client.Browser :=
  (Page.setIsLoading false (Page.setError (Some message) h),
   Client.set_console
     (Client.console b ++ [("Analysis error:", message)])%list b).

(** The message that [handleAnalyze] shows when the limit is reached. *)
Definition limit_message (h0 : Page.Home) : string :=
  "You've reached the limit of 2 images in 24 hours. Try again in "
    ++ Page.formatTimeRemaining (Page.resetTime h0) ++ ".".

Definition no_keys : Client.UserSettings :=
  {| Client.apiKeys := []; Client.preferredProvider := "gemini" |}.

Definition sample_home : Page.Home := {|
  Page.imageBase64 := sample_image;
  Page.contextText := "  fasting ";
  Page.isLoading := false;
  Page.error := None;
  Page.result := None;
  Page.showSettings := false;
  Page.provider := "gemini";
  Page.hasApiKey := false;
  Page.showResults := false;
  Page.remainingImages := 2;
  Page.resetTime := 0
|}.

(** ** Strings and [split] *)

Lemma append_assoc (a b c : string) : (a ++ b) ++ c = a ++ (b ++ c).
Proof.
  induction a as [|x a IH]; simpl; [reflexivity|].
  now rewrite IH.
Qed.

Lemma split_cons (sep : ascii) (s : string) :
  exists piece pieces, split sep s = piece :: pieces.
Proof.
  induction s as [|c s IH]; simpl.
  - now exists EmptyString, [].
  - destruct (Ascii.eqb c sep).
    + now exists EmptyString, (split sep s).
    + destruct IH as (p & ps & ->). now exists (String c p), ps.
Qed.

(** Without the separator there is one piece, the string itself. *)
Lemma split_none (sep : ascii) (s : string) :
  occurs sep s = false -> split sep s = [s].
Proof.
  induction s as [|c s IH]; simpl; [reflexivity|].
  intros H. apply orb_false_iff in H as [Hc Hs].
  rewrite Hc, (IH Hs). reflexivity.
Qed.

(** The first piece ends at the first separator. *)
Lemma split_app (sep : ascii) (a b : string) :
  occurs sep a = false ->
  split sep (a ++ String sep b) = a :: split sep b.
Proof.
  induction a as [|c a IH]; simpl.
  - intros _. now rewrite Ascii.eqb_refl.
  - intros H. apply orb_false_iff in H as [Hc Ha].
    rewrite Hc, (IH Ha). reflexivity.
Qed.

Lemma occurs_app (c : ascii) (a b : string) :
  occurs c (a ++ b) = occurs c a || occurs c b.
Proof.
  induction a as [|d a IH]; simpl; [reflexivity|].
  now rewrite IH, orb_assoc.
Qed.

Lemma payload_of_data_uri (mime payload : string) :
  occurs "," mime = false -> occurs "," payload = false ->
  payload_of (Wire.data_uri mime payload) = Some payload.
Proof.
  intros Hm Hp. unfold payload_of, Wire.data_uri.
  change ("data:" ++ mime ++ ";base64," ++ payload)
    with ("data:" ++ (mime ++ ";base64" ++ String "," payload)).
  rewrite <- !append_assoc.
  rewrite split_app.
  - rewrite (split_none _ _ Hp). reflexivity.
  - rewrite !occurs_app, Hm. reflexivity.
Qed.

Lemma scheme_head (mime : string) :
  occurs ":" mime = false ->
  nth_error (split ":" ("data:" ++ mime)) 1 = Some mime.
Proof.
  intros Hc.
  change ("data:" ++ mime) with ("data" ++ String ":" mime).
  rewrite split_app by reflexivity.
  rewrite (split_none _ _ Hc). reflexivity.
Qed.

Lemma media_type_of_data_uri (mime payload : string) :
  occurs ";" mime = false -> occurs ":" mime = false ->
  media_type_of (Wire.data_uri mime payload) = Some mime.
Proof.
  intros Hs Hc. unfold media_type_of, Wire.data_uri.
  change ("data:" ++ mime ++ ";base64," ++ payload)
    with ("data:" ++ (mime ++ String ";" ("base64," ++ payload))).
  rewrite <- append_assoc.
  rewrite split_app by (rewrite occurs_app, Hs; reflexivity).
  unfold nth_error at 1.
  apply (scheme_head mime Hc).
Qed.

Lemma payload_of_no_comma (s : string) :
  occurs "," s = false -> payload_of s = None.
Proof.
  intros H. unfold payload_of. now rewrite (split_none _ _ H).
Qed.

Lemma as_truthy_Some (x : option string) (s : string) :
  as_truthy x = Some s <-> Wire.present x s.
Proof.
  unfold as_truthy, Wire.present. destruct x as [t|].
  - destruct (String.eqb_spec t EmptyString) as [->|Hne]; split.
    + discriminate.
    + intros [[= <-] H]. now elim H.
    + intros [= <-]. now split.
    + intros [[= <-] _]. reflexivity.
  - split; [discriminate|]. now intros [? _].
Qed.

Lemma as_truthy_None (x : option string) :
  as_truthy x = None <-> Wire.absent x.
Proof.
  unfold as_truthy, Wire.absent. destruct x as [t|].
  - destruct (String.eqb_spec t EmptyString) as [->|Hne]; split.
    + now right.
    + reflexivity.
    + discriminate.
    + intros [H|H]; [discriminate|]. injection H as H. contradiction.
  - split; [now left | reflexivity].
Qed.

(** ** The builders produce the wire contracts *)

Ltac wire_bytes :=
  cbn; unfold quote, dq; repeat (rewrite !append_assoc; cbn); reflexivity.

Lemma gemini_bytes (prompt : string) (data : option string) :
  stringify (VObj [
    ("contents", VArr [
      VObj [
        ("parts", VArr [
          VObj [("text", VStr prompt)];
          VObj [
            ("inline_data", VObj [
              ("mime_type", VStr "image/jpeg");
              ("data", of_opt data)
            ])
          ]
        ])
      ]
    ]);
    ("generationConfig", VObj [
      ("temperature", VNum num_0_1);
      ("maxOutputTokens", VNum num_2048)
    ])
  ]) = Some (Wire.gemini_body prompt data).
Proof.
  unfold Wire.gemini_body, Wire.member, Wire.q.
  destruct data as [d|]; wire_bytes.
Qed.

Lemma openai_bytes (prompt image : string) :
  stringify (VObj [
    ("model", VStr "gpt-4-vision-preview");
    ("messages", VArr [
      VObj [
        ("role", VStr "user");
        ("content", VArr [
          VObj [("type", VStr "text"); ("text", VStr prompt)];
          VObj [
            ("type", VStr "image_url");
            ("image_url", VObj [("url", VStr image)])
          ]
        ])
      ]
    ]);
    ("max_tokens", VNum num_2048);
    ("temperature", VNum num_0_1)
  ]) = Some (Wire.openai_body prompt image).
Proof.
  unfold Wire.openai_body, Wire.q. wire_bytes.
Qed.

Lemma claude_bytes (prompt : string) (media_type data : option string) :
  stringify (VObj [
    ("model", VStr "claude-3-opus-20240229");
    ("max_tokens", VNum num_2048);
    ("temperature", VNum num_0_1);
    ("messages", VArr [
      VObj [
        ("role", VStr "user");
        ("content", VArr [
          VObj [("type", VStr "text"); ("text", VStr prompt)];
          VObj [
            ("type", VStr "image");
            ("source", VObj [
              ("type", VStr "base64");
              ("media_type", of_opt media_type);
              ("data", of_opt data)
            ])
          ]
        ])
      ]
    ])
  ]) = Some (Wire.claude_body prompt media_type data).
Proof.
  unfold Wire.claude_body, Wire.member, Wire.q.
  destruct media_type as [m|], data as [d|]; wire_bytes.
Qed.

Lemma prepareGemini_Return (w : World) (img : string)
    (ctx key : option string) (k : string) :
  as_truthy (or_else key (GOOGLE_GEMINI_API_KEY w)) = Some k ->
  prepareGeminiRequest w img ctx key
  = Return (Wire.gemini k (prompt_of ctx) (payload_of img)).
Proof.
  intros H. unfold prepareGeminiRequest. rewrite H.
  fold (prompt_of ctx). fold (payload_of img).
  unfold Wire.gemini. rewrite gemini_bytes. reflexivity.
Qed.

Lemma prepareGemini_Throw (w : World) (img : string) (ctx key : option string) :
  as_truthy (or_else key (GOOGLE_GEMINI_API_KEY w)) = None ->
  prepareGeminiRequest w img ctx key = Throw "No Gemini API key provided".
Proof.
  intros H. unfold prepareGeminiRequest. now rewrite H.
Qed.

Lemma prepareOpenAI_Return (img : string) (ctx key : option string) (k : string) :
  as_truthy key = Some k ->
  prepareOpenAIRequest img ctx key
  = Return (Wire.openai k (prompt_of ctx) img).
Proof.
  intros H. unfold prepareOpenAIRequest. rewrite H.
  fold (prompt_of ctx).
  unfold Wire.openai. rewrite openai_bytes. reflexivity.
Qed.

Lemma prepareOpenAI_Throw (img : string) (ctx key : option string) :
  as_truthy key = None ->
  prepareOpenAIRequest img ctx key = Throw "No OpenAI API key provided".
Proof.
  intros H. unfold prepareOpenAIRequest. now rewrite H.
Qed.

Lemma prepareClaude_Return (img : string) (ctx key : option string) (k : string) :
  as_truthy key = Some k ->
  prepareClaudeRequest img ctx key
  = Return (Wire.claude k (prompt_of ctx) (media_type_of img) (payload_of img)).
Proof.
  intros H. unfold prepareClaudeRequest. rewrite H.
  fold (prompt_of ctx). fold (payload_of img). unfold media_type_of.
  destruct (split_cons ";" img) as (head & rest & ->).
  cbn [nth_error bindO getApiEndpoint String.eqb Ascii.eqb Bool.eqb].
  unfold Wire.claude. rewrite claude_bytes. reflexivity.
Qed.

Lemma prepareClaude_Throw (img : string) (ctx key : option string) :
  as_truthy key = None ->
  prepareClaudeRequest img ctx key = Throw "No Claude API key provided".
Proof.
  intros H. unfold prepareClaudeRequest. now rewrite H.
Qed.

(** ** The decision tree of [analyzeBloodTest] *)

Lemma analyze_no_image (w : World) (request : AnalysisRequest)
    (key : option string) :
  as_truthy (imageBase64 request) = None ->
  analyzeBloodTest w request key = caught [] "No image provided".
Proof.
  intros H. unfold analyzeBloodTest. rewrite H. reflexivity.
Qed.

Lemma analyze_tree (w : World) (request : AnalysisRequest)
    (key : option string) (img : string) :
  as_truthy (imageBase64 request) = Some img ->
  analyzeBloodTest w request key =
  match build w (provider request) img (contextText request) key with
  | Throw m => caught [] m
  | Return cfg =>
      let sent := [EvFetch (url cfg) (options cfg)] in
      match fetch w (url cfg) (options cfg) with
      | Throw m => caught sent m
      | Return response =>
          if ok response then
            match resp_json response with
            | Throw m => caught sent m
            | Return data =>
                match extract (provider request) data with
                | Throw m => caught sent m
                | Return t =>
                    (Success {| text := t;
                                result_provider := provider request;
                                timestamp := Date_now w |}, sent)
                end
            end
          else
            caught sent ("API Error (" ++ N_to_string (status response)
                           ++ "): " ++ resp_text response)
      end
  end.
Proof.
  intros H. unfold analyzeBloodTest, build, extract. rewrite H.
  destruct (provider request =? "gemini");
    [|destruct (provider request =? "openai");
      [|destruct (provider request =? "claude")]].
  4: reflexivity.
  all: match goal with
       | |- context [liftO ?b] => destruct b as [m|cfg]; [reflexivity|]
       end.
  all: cbn [liftO bindM try_catch do_fetch].
  all: destruct (fetch w (url cfg) (options cfg)) as [m|response];
         [reflexivity|].
  all: destruct (ok response); cbn [negb]; [|reflexivity].
  all: destruct (resp_json response) as [m|data]; [reflexivity|].
  all: cbn [liftO bindM try_catch].
  all: match goal with
       | |- context [extractGemini ?d] => destruct (extractGemini d)
       | |- context [extractOpenAI ?d] => destruct (extractOpenAI d)
       | |- context [extractClaude ?d] => destruct (extractClaude d)
       end; reflexivity.
Qed.

(** ** Credential resolution and the choice of a builder *)

Lemma resolves_gemini (w : World) (caller : option string) (key : string) :
  resolves "gemini" w caller key
  <-> as_truthy (or_else caller (GOOGLE_GEMINI_API_KEY w)) = Some key.
Proof.
  unfold resolves, or_else. split.
  - intros [H|(_ & Ha & Hp)].
    + pose proof H as H'. apply as_truthy_Some in H'. now rewrite H'.
    + apply as_truthy_None in Ha. rewrite Ha. now apply as_truthy_Some.
  - destruct (as_truthy caller) as [k|] eqn:E; intros H.
    + left. now apply as_truthy_Some.
    + right. repeat split.
      * now apply as_truthy_None.
      * now apply as_truthy_Some.
      * now apply as_truthy_Some in H as [_ ?].
Qed.

Lemma resolves_other (p : string) (w : World) (caller : option string)
    (key : string) :
  p <> "gemini" ->
  resolves p w caller key <-> as_truthy caller = Some key.
Proof.
  intros Hp. unfold resolves. split.
  - intros [H|(E & _)]; [now apply as_truthy_Some | contradiction].
  - intros H. left. now apply as_truthy_Some.
Qed.

Lemma unresolvable_gemini (w : World) (caller : option string) :
  unresolvable "gemini" w caller
  <-> as_truthy (or_else caller (GOOGLE_GEMINI_API_KEY w)) = None.
Proof.
  unfold unresolvable, or_else. split.
  - intros [Ha He]. apply as_truthy_None in Ha. rewrite Ha.
    now apply as_truthy_None, He.
  - destruct (as_truthy caller) as [k|] eqn:E; intros H.
    + congruence.
    + split; [|intros _]; now apply as_truthy_None.
Qed.

Lemma unresolvable_other (p : string) (w : World) (caller : option string) :
  p <> "gemini" ->
  unresolvable p w caller <-> as_truthy caller = None.
Proof.
  intros Hp. unfold unresolvable. split.
  - intros [Ha _]. now apply as_truthy_None.
  - intros H. split; [now apply as_truthy_None | contradiction].
Qed.

(** A credential either resolves or is unresolvable, never both. *)
Lemma resolves_or_not (p : string) (w : World) (caller : option string) :
  (exists key, resolves p w caller key) \/ unresolvable p w caller.
Proof.
  destruct (String.eqb_spec p "gemini") as [->|Hp].
  - destruct (as_truthy (or_else caller (GOOGLE_GEMINI_API_KEY w)))
      as [k|] eqn:E.
    + left. exists k. now apply resolves_gemini.
    + right. now apply unresolvable_gemini.
  - destruct (as_truthy caller) as [k|] eqn:E.
    + left. exists k. now apply resolves_other.
    + right. now apply unresolvable_other.
Qed.

Ltac by_provider H :=
  destruct H as [->|[->| ->]].

Lemma build_Return (p : string) (w : World) (img : string)
    (ctx caller : option string) (key : string) :
  recognized p -> resolves p w caller key ->
  build w p img ctx caller = Return (request_for p key (prompt_of ctx) img).
Proof.
  intros Hp Hr. by_provider Hp; unfold build, request_for; cbn [String.eqb Ascii.eqb Bool.eqb].
  - apply prepareGemini_Return. now apply resolves_gemini.
  - apply prepareOpenAI_Return. apply resolves_other in Hr; [assumption|discriminate].
  - apply prepareClaude_Return. apply resolves_other in Hr; [assumption|discriminate].
Qed.

Lemma build_missing (p : string) (w : World) (img : string)
    (ctx caller : option string) :
  recognized p -> unresolvable p w caller ->
  build w p img ctx caller = Throw (missing_credential p).
Proof.
  intros Hp Hu. by_provider Hp; unfold build, missing_credential; cbn [String.eqb Ascii.eqb Bool.eqb].
  - apply prepareGemini_Throw. now apply unresolvable_gemini.
  - apply prepareOpenAI_Throw. apply unresolvable_other in Hu; [assumption|discriminate].
  - apply prepareClaude_Throw. apply unresolvable_other in Hu; [assumption|discriminate].
Qed.

Lemma recognized_dec (p : string) : recognized p \/ ~ recognized p.
Proof.
  unfold recognized.
  destruct (String.eqb_spec p "gemini"); [now left; left|].
  destruct (String.eqb_spec p "openai"); [now left; right; left|].
  destruct (String.eqb_spec p "claude"); [now left; right; right|].
  right. intros [?|[?|?]]; contradiction.
Qed.

Lemma build_unsupported (p : string) (w : World) (img : string)
    (ctx caller : option string) :
  ~ recognized p ->
  build w p img ctx caller = Throw ("Unsupported provider: " ++ p).
Proof.
  intros Hp. unfold build, recognized in *.
  destruct (String.eqb_spec p "gemini"); [tauto|].
  destruct (String.eqb_spec p "openai"); [tauto|].
  destruct (String.eqb_spec p "claude"); [tauto|].
  reflexivity.
Qed.

(** A builder that returns was given a recognized provider and a
    credential that resolves, and returns that provider's contract. *)
Lemma build_inv (p : string) (w : World) (img : string)
    (ctx caller : option string) (cfg : FetchConfig) :
  build w p img ctx caller = Return cfg ->
  recognized p /\ exists key,
    resolves p w caller key /\ cfg = request_for p key (prompt_of ctx) img.
Proof.
  intros H. destruct (recognized_dec p) as [Hp|Hp].
  - split; [assumption|].
    destruct (resolves_or_not p w caller) as [[key Hr]|Hu].
    + exists key. split; [assumption|].
      rewrite (build_Return _ _ _ _ _ _ Hp Hr) in H. congruence.
    + rewrite (build_missing _ _ _ _ _ Hp Hu) in H. discriminate.
  - rewrite (build_unsupported _ _ _ _ _ Hp) in H. discriminate.
Qed.

(** ** Walking a reply *)

Lemma extract_walk (p : string) (data : value) :
  recognized p -> extract p data = walk (path_of p) data.
Proof.
  intros Hp. by_provider Hp; unfold extract, path_of;
    cbn [String.eqb Ascii.eqb Bool.eqb].
  - unfold extractGemini. cbn [walk read].
    destruct (get_prop data "candidates") as [|a]; [reflexivity|]; cbn [bindO].
    destruct (get_index a 0) as [|b]; [reflexivity|]; cbn [bindO].
    destruct (get_prop b "content") as [|c]; [reflexivity|]; cbn [bindO].
    destruct (get_prop c "parts") as [|d]; [reflexivity|]; cbn [bindO].
    destruct (get_index d 0) as [|e]; [reflexivity|]; cbn [bindO].
    now destruct (get_prop e "text").
  - unfold extractOpenAI. cbn [walk read].
    destruct (get_prop data "choices") as [|a]; [reflexivity|]; cbn [bindO].
    destruct (get_index a 0) as [|b]; [reflexivity|]; cbn [bindO].
    destruct (get_prop b "message") as [|c]; [reflexivity|]; cbn [bindO].
    now destruct (get_prop c "content").
  - unfold extractClaude. cbn [walk read].
    destruct (get_prop data "content") as [|a]; [reflexivity|]; cbn [bindO].
    destruct (get_index a 0) as [|b]; [reflexivity|]; cbn [bindO].
    now destruct (get_prop b "text").
Qed.

Lemma read_Throw (v : value) (a : access) (m : string) :
  read v a = Throw m ->
  nullish v /\ exists what key, m = cannot_read what key.
Proof.
  unfold nullish.
  destruct a as [name|i], v; cbn [read get_prop get_index]; intros H;
    try discriminate;
    injection H as <-; (split; [auto | do 2 eexists; reflexivity]).
Qed.

Lemma read_nullish (v : value) (a : access) :
  nullish v -> exists m, read v a = Throw m.
Proof.
  intros [->| ->]; destruct a; cbn [read get_prop get_index]; eauto.
Qed.

Lemma walk_Throw (path : list access) (data : value) (m : string) :
  walk path data = Throw m ->
  breaks path data /\ exists what key, m = cannot_read what key.
Proof.
  revert data. induction path as [|a rest IH]; intros data; cbn [walk].
  - discriminate.
  - destruct (read data a) as [m'|x] eqn:E; cbn [bindO].
    + intros [= ->]. destruct (read_Throw _ _ _ E) as [Hn Hm].
      split; [|assumption].
      exists [], a, rest, data. now repeat split.
    + intros H. destruct (IH _ H) as [(b & a' & aft & v & -> & Hw & Hn) Hm].
      split; [|assumption].
      exists (a :: b), a', aft, v. repeat split; [|assumption].
      cbn [walk]. now rewrite E.
Qed.

Lemma walk_breaks (path : list access) (data : value) :
  breaks path data -> exists m, walk path data = Throw m.
Proof.
  intros (b & a & aft & v & -> & Hw & Hn). revert data Hw.
  induction b as [|c b IH]; intros data Hw;
    cbn [walk Datatypes.app] in *.
  - injection Hw as Hw. subst.
    destruct (read_nullish _ a Hn) as [m Hm].
    exists m. now rewrite Hm.
  - destruct (read data c) as [m'|x]; cbn [bindO] in *; [discriminate|].
    now apply IH.
Qed.

Lemma type_error_not_http (what key : string) :
  is_http_error (cannot_read what key) = false.
Proof. reflexivity. Qed.

Lemma api_error_is_http (code body : string) :
  is_http_error ("API Error (" ++ code ++ "): " ++ body) = true.
Proof.
  unfold is_http_error. cbn.
  now destruct (code ++ String ")" (String ":" (String " " body))).
Qed.

(** ** Network calls *)

Lemma calls_caught (t : list event) (m : string) :
  network_calls (snd (caught t m)) = network_calls t.
Proof.
  unfold caught, network_calls. cbn [snd].
  rewrite filter_app, length_app. cbn. lia.
Qed.

(** An invocation makes at most one network call. *)
Lemma at_most_one_call (w : World) (request : AnalysisRequest)
    (key : option string) :
  network_calls (snd (analyzeBloodTest w request key)) <= 1.
Proof.
  destruct (as_truthy (imageBase64 request)) as [img|] eqn:E.
  - rewrite (analyze_tree _ _ _ _ E).
    destruct (build _ _ _ _ _) as [m|cfg]; [rewrite calls_caught; cbn; lia|].
    cbv zeta.
    destruct (fetch _ _ _) as [m|r]; [rewrite calls_caught; cbn; lia|].
    destruct (ok r); [|rewrite calls_caught; cbn; lia].
    destruct (resp_json r) as [m|d]; [rewrite calls_caught; cbn; lia|].
    destruct (extract _ d); [rewrite calls_caught; cbn; lia|cbn; lia].
  - rewrite (analyze_no_image _ _ _ E). cbn. lia.
Qed.

(** With an image and a builder that returns, the adapter makes exactly
    one network call, and it is the builder's request. *)
Lemma analyze_sends (w : World) (request : AnalysisRequest)
    (caller : option string) (img : string) (cfg : FetchConfig) :
  as_truthy (imageBase64 request) = Some img ->
  build w (provider request) img (contextText request) caller = Return cfg ->
  exists out rest,
    analyzeBloodTest w request caller
    = (out, EvFetch (url cfg) (options cfg) :: rest)
    /\ network_calls (EvFetch (url cfg) (options cfg) :: rest) = 1.
Proof.
  intros Hi Hb. rewrite (analyze_tree _ _ _ _ Hi), Hb. cbv zeta.
  destruct (fetch _ _ _) as [m|r]; [now eexists _, _|].
  destruct (ok r); [|now eexists _, _].
  destruct (resp_json r) as [m|d]; [now eexists _, _|].
  destruct (extract _ d); now eexists _, _.
Qed.

Lemma data_uri_truthy (mime payload : string) :
  as_truthy (Some (Wire.data_uri mime payload))
  = Some (Wire.data_uri mime payload).
Proof. reflexivity. Qed.

(** * The claims *)

(** ** C1 *)

(** C1: for each of the three providers, a well-formed base64 data URI, no
    context and a credential that resolves give exactly the request of the
    wire contract: gemini carries the credential in the [key] query
    parameter and the stripped payload under the fixed [image/jpeg] type;
    openai carries it in the [Authorization: Bearer] header and the whole
    data URI as the image URL; claude carries it in [x-api-key] next to
    [anthropic-version: 2023-06-01], with the media type parsed from the
    prefix and the stripped payload.  The adapter sends that very request. *)
Theorem C1_builders_meet_wire_contract (w : World) (mime payload : string)
    (caller : option string) (key : string) :
  Wire.well_formed mime payload ->
  let image := Wire.data_uri mime payload in
  (resolves "gemini" w caller key ->
     prepareGeminiRequest w image None caller
     = Return (Wire.gemini key ANALYSIS_PROMPT (Some payload)))
  /\ (resolves "openai" w caller key ->
     prepareOpenAIRequest image None caller
     = Return (Wire.openai key ANALYSIS_PROMPT image))
  /\ (resolves "claude" w caller key ->
     prepareClaudeRequest image None caller
     = Return (Wire.claude key ANALYSIS_PROMPT (Some mime) (Some payload)))
  /\ (forall p, recognized p -> resolves p w caller key ->
      exists out rest,
        analyzeBloodTest w
          {| imageBase64 := Some image; contextText := None; provider := p |}
          caller
        = (out, EvFetch (url (request_for p key ANALYSIS_PROMPT image))
                  (options (request_for p key ANALYSIS_PROMPT image)) :: rest)).
Proof.
  intros (Hm1 & Hm2 & Hm3 & Hp) image.
  assert (Epay : payload_of image = Some payload)
    by now apply payload_of_data_uri.
  assert (Emed : media_type_of image = Some mime)
    by now apply media_type_of_data_uri.
  repeat split.
  - intros Hr. apply resolves_gemini in Hr.
    rewrite (prepareGemini_Return _ _ _ _ _ Hr), Epay. reflexivity.
  - intros Hr. apply resolves_other in Hr; [|discriminate].
    rewrite (prepareOpenAI_Return _ _ _ _ Hr). reflexivity.
  - intros Hr. apply resolves_other in Hr; [|discriminate].
    rewrite (prepareClaude_Return _ _ _ _ Hr), Epay, Emed. reflexivity.
  - intros p Hrec Hr.
    pose proof (build_Return p w image None caller key Hrec Hr) as Hb.
    destruct (analyze_sends w
      {| imageBase64 := Some image; contextText := None; provider := p |}
      caller image _ (data_uri_truthy mime payload) Hb)
      as (out & rest & E & _).
    now exists out, rest.
Qed.

Lemma C1_witness :
  Wire.well_formed "image/png" "iVBORw0KGgo="
  /\ prepareClaudeRequest (Wire.data_uri "image/png" "iVBORw0KGgo=") None
       (Some "sk-ant-1")
     = Return (Wire.claude "sk-ant-1" ANALYSIS_PROMPT (Some "image/png")
                 (Some "iVBORw0KGgo=")).
Proof.
  assert (W : Wire.well_formed "image/png" "iVBORw0KGgo=")
    by (repeat split; reflexivity).
  split; [exact W|].
  apply (C1_builders_meet_wire_contract offline "image/png" "iVBORw0KGgo="
           (Some "sk-ant-1") "sk-ant-1" W).
  left. split; [reflexivity | discriminate].
Defined.

(** ** C2 *)

(** C2, as stated, fails: with the context "fasting" no builder sends the
    fixed prompt followed directly by the sentence: the builders put two
    line feeds in between, so the bodies differ in length. *)
Lemma C2_sentence_not_appended_directly :
  let claimed := ANALYSIS_PROMPT ++ Wire.context_sentence "fasting" in
  prepareGeminiRequest offline sample_image (Some "fasting") (Some "k")
    <> Return (Wire.gemini "k" claimed (Some "AAAA"))
  /\ prepareOpenAIRequest sample_image (Some "fasting") (Some "k")
    <> Return (Wire.openai "k" claimed sample_image)
  /\ prepareClaudeRequest sample_image (Some "fasting") (Some "k")
    <> Return (Wire.claude "k" claimed (Some "image/jpeg") (Some "AAAA")).
Proof.
  cbv zeta.
  repeat split; intros H;
    apply (f_equal (fun o => match o with
                             | Return c => option_map String.length
                                             (body (options c))
                             | Throw _ => None
                             end)) in H;
    vm_compute in H; discriminate H.
Qed.

(** C2, amended: with a non-empty context each builder sends the fixed
    prompt, two line feeds and the sentence "Additional context provided by
    user: " followed by the context, the rest of the request being what it
    is without a context; with no context (or an empty one) the prompt is
    the fixed prompt. *)
Theorem C2_context_appended_after_blank_line (w : World) (image : string)
    (caller : option string) (key context : string) :
  context <> EmptyString ->
  let prompt :=
    ANALYSIS_PROMPT ++ nl ++ nl ++ Wire.context_sentence context in
  (resolves "gemini" w caller key ->
     prepareGeminiRequest w image (Some context) caller
       = Return (Wire.gemini key prompt (payload_of image))
     /\ forall none, Wire.absent none ->
        prepareGeminiRequest w image none caller
        = Return (Wire.gemini key ANALYSIS_PROMPT (payload_of image)))
  /\ (resolves "openai" w caller key ->
     prepareOpenAIRequest image (Some context) caller
       = Return (Wire.openai key prompt image)
     /\ forall none, Wire.absent none ->
        prepareOpenAIRequest image none caller
        = Return (Wire.openai key ANALYSIS_PROMPT image))
  /\ (resolves "claude" w caller key ->
     prepareClaudeRequest image (Some context) caller
       = Return (Wire.claude key prompt (media_type_of image)
                   (payload_of image))
     /\ forall none, Wire.absent none ->
        prepareClaudeRequest image none caller
        = Return (Wire.claude key ANALYSIS_PROMPT (media_type_of image)
                    (payload_of image))).
Proof.
  intros Hc prompt.
  assert (Ectx : prompt_of (Some context) = prompt).
  { unfold prompt_of.
    assert (T : as_truthy (Some context) = Some context)
      by (apply as_truthy_Some; now split).
    now rewrite T. }
  assert (Enone : forall none, Wire.absent none ->
                  prompt_of none = ANALYSIS_PROMPT).
  { intros none Hn. apply as_truthy_None in Hn.
    unfold prompt_of. now rewrite Hn. }
  repeat split.
  - apply resolves_gemini in H.
    now rewrite (prepareGemini_Return _ _ _ _ _ H), Ectx.
  - intros none Hn. apply resolves_gemini in H.
    now rewrite (prepareGemini_Return _ _ _ _ _ H), (Enone _ Hn).
  - apply resolves_other in H; [|discriminate].
    now rewrite (prepareOpenAI_Return _ _ _ _ H), Ectx.
  - intros none Hn. apply resolves_other in H; [|discriminate].
    now rewrite (prepareOpenAI_Return _ _ _ _ H), (Enone _ Hn).
  - apply resolves_other in H; [|discriminate].
    now rewrite (prepareClaude_Return _ _ _ _ H), Ectx.
  - intros none Hn. apply resolves_other in H; [|discriminate].
    now rewrite (prepareClaude_Return _ _ _ _ H), (Enone _ Hn).
Qed.

Lemma C2_witness :
  prepareOpenAIRequest sample_image (Some "fasting") (Some "k")
  = Return (Wire.openai "k"
              (ANALYSIS_PROMPT ++ nl ++ nl
                 ++ Wire.context_sentence "fasting")
              sample_image).
Proof.
  assert (Hne : "fasting" <> EmptyString) by discriminate.
  assert (Hr : resolves "openai" offline (Some "k") "k")
    by (left; split; [reflexivity | discriminate]).
  exact (proj1 (proj1 (proj2
    (C2_context_appended_after_blank_line offline sample_image (Some "k")
       "k" "fasting" Hne)) Hr)).
Defined.

(** ** C3 *)

(** C3: the request for gemini built from "data:image/jpeg;base64,AAAA" has
    the inline-data part with [mime_type] "image/jpeg" and [data] "AAAA";
    and for every well-formed data URI the payload that gemini and claude
    send is the original payload and the media type that claude sends is
    the original media type. *)
Theorem C3_data_uri_round_trip (w : World) (mime payload : string)
    (ctx caller : option string) (key : string) :
  Wire.well_formed mime payload ->
  resolves "gemini" w caller key ->
  let image := Wire.data_uri mime payload in
  (exists before after,
     option_map (fun c => body (options c))
       (match prepareGeminiRequest w "data:image/jpeg;base64,AAAA" None caller
        with Return c => Some c | Throw _ => None end)
     = Some (Some
         (before
            ++ Wire.q "inline_data" ++ ":{"
            ++ Wire.q "mime_type" ++ ":" ++ Wire.q "image/jpeg" ++ ","
            ++ Wire.q "data" ++ ":" ++ Wire.q "AAAA" ++ "}"
            ++ after)))
  /\ prepareGeminiRequest w "data:image/jpeg;base64,AAAA" None caller
     = Return (Wire.gemini key ANALYSIS_PROMPT (Some "AAAA"))
  /\ nth_error (split "," image) 1 = Some payload
  /\ match nth_error (split ";" image) 0 with
     | Some head => nth_error (split ":" head) 1
     | None => None
     end = Some mime
  /\ prepareGeminiRequest w image ctx caller
     = Return (Wire.gemini key (prompt_of ctx) (Some payload))
  /\ (forall k, resolves "claude" w caller k ->
      prepareClaudeRequest image ctx caller
      = Return (Wire.claude k (prompt_of ctx) (Some mime) (Some payload))).
Proof.
  intros (Hm1 & Hm2 & Hm3 & Hp) Hr image.
  assert (Epay : payload_of image = Some payload)
    by now apply payload_of_data_uri.
  assert (Emed : media_type_of image = Some mime)
    by now apply media_type_of_data_uri.
  apply resolves_gemini in Hr.
  assert (Eex : prepareGeminiRequest w "data:image/jpeg;base64,AAAA" None caller
                = Return (Wire.gemini key ANALYSIS_PROMPT (Some "AAAA")))
    by now rewrite (prepareGemini_Return _ _ _ _ _ Hr).
  repeat split.
  - rewrite Eex. cbn [option_map Wire.gemini options body].
    exists ("{" ++ Wire.q "contents" ++ ":[{" ++ Wire.q "parts" ++ ":[{"
              ++ Wire.q "text" ++ ":" ++ quote ANALYSIS_PROMPT ++ "},{"),
           ("}]}]," ++ Wire.q "generationConfig" ++ ":{"
              ++ Wire.q "temperature" ++ ":0.1,"
              ++ Wire.q "maxOutputTokens" ++ ":2048}}").
    vm_compute. reflexivity.
  - exact Eex.
  - exact Epay.
  - exact Emed.
  - now rewrite (prepareGemini_Return _ _ _ _ _ Hr), Epay.
  - intros k Hk. apply resolves_other in Hk; [|discriminate].
    now rewrite (prepareClaude_Return _ _ _ _ Hk), Epay, Emed.
Qed.

Lemma C3_witness :
  nth_error (split "," (Wire.data_uri "image/png" "iVBORw0KGgo=")) 1
  = Some "iVBORw0KGgo="
  /\ prepareClaudeRequest (Wire.data_uri "image/png" "iVBORw0KGgo=")
       (Some "fasting") (Some "k")
     = Return (Wire.claude "k" (prompt_of (Some "fasting"))
                 (Some "image/png") (Some "iVBORw0KGgo=")).
Proof.
  assert (W : Wire.well_formed "image/png" "iVBORw0KGgo=")
    by (repeat split; reflexivity).
  assert (Hr : forall p, resolves p offline (Some "k") "k")
    by (intros p; left; split; [reflexivity | discriminate]).
  pose proof (C3_data_uri_round_trip offline "image/png" "iVBORw0KGgo="
                (Some "fasting") (Some "k") "k" W (Hr "gemini")) as H.
  cbv zeta in H.
  destruct H as (_ & _ & Hpay & _ & _ & Hclaude).
  split; [exact Hpay | exact (Hclaude "k" (Hr "claude"))].
Defined.

(** ** C4 *)

Lemma or_else_undefined (x : option string) : or_else x None = as_truthy x.
Proof.
  unfold or_else. destruct (as_truthy x) as [s|] eqn:E; [|reflexivity].
  apply as_truthy_Some in E as [-> _]. reflexivity.
Qed.

(** What [POST] makes of a body that parses: it reads the one header of
    the request's provider and maps the adapter's result to a status. *)
Lemma POST_tree (w : World) (request : NextRequest) (data : AnalysisRequest) :
  req_json request = Return data ->
  POST w request =
  let r := analyzeBloodTest w data
             (as_truthy (headers_get request (key_header (provider data)))) in
  (match fst r with
   | Failure error => {| http_status := 400; payload := BodyError error |}
   | Success res => {| http_status := 200; payload := BodyResult res |}
   end, snd r).
Proof.
  intros H. unfold POST. rewrite H. cbn [liftO bindM].
  rewrite or_else_undefined.
  replace (if provider data =? "gemini"
           then headers_get request "x-gemini-key"
           else if provider data =? "openai"
                then headers_get request "x-openai-key"
                else headers_get request "x-claude-key")
    with (headers_get request (key_header (provider data))).
  2: { unfold key_header. destruct (provider data =? "gemini");
         [reflexivity|]. now destruct (provider data =? "openai"). }
  cbv zeta.
  destruct (analyzeBloodTest w data _) as [[res|e] t]; cbn;
    now rewrite app_nil_r.
Qed.

(** C4: a request whose image is absent or empty gets the validation
    failure "No image provided" and the trace holds no network call; this
    is so whatever the provider, the credential and the surroundings are,
    and the route answers it with status 400. *)
Theorem C4_missing_image_rejected (w : World) (request : AnalysisRequest)
    (caller : option string) :
  Wire.absent (imageBase64 request) ->
  analyzeBloodTest w request caller
  = (Failure "No image provided",
     [EvConsoleError "Analysis error:" "No image provided"])
  /\ network_calls (snd (analyzeBloodTest w request caller)) = 0
  /\ forall get,
       let incoming := {| req_json := Return request; headers_get := get |} in
       fst (POST w incoming)
       = {| http_status := 400; payload := BodyError "No image provided" |}
       /\ network_calls (snd (POST w incoming)) = 0.
Proof.
  intros Ha. apply as_truthy_None in Ha.
  assert (E : forall k, analyzeBloodTest w request k
              = (Failure "No image provided",
                 [EvConsoleError "Analysis error:" "No image provided"]))
    by (intros k; now rewrite (analyze_no_image _ _ _ Ha)).
  split; [apply E|]. split; [now rewrite E|].
  intros get incoming.
  rewrite (POST_tree w incoming request eq_refl). cbv zeta.
  rewrite E. now split.
Qed.

Lemma C4_witness :
  analyzeBloodTest (answering (replying (gemini_reply "fine")))
    {| imageBase64 := Some EmptyString; contextText := None; provider := "gemini" |}
    (Some "k")
  = (Failure "No image provided",
     [EvConsoleError "Analysis error:" "No image provided"]).
Proof.
  apply (C4_missing_image_rejected
           (answering (replying (gemini_reply "fine")))
           {| imageBase64 := Some EmptyString; contextText := None;
              provider := "gemini" |}
           (Some "k")).
  right. reflexivity.
Defined.

(** ** C5 *)

(** C5: when the caller supplies no key, gemini falls back to the
    server-side [GOOGLE_GEMINI_API_KEY] and throws its missing-credential
    error only when that is absent too, while openai and claude throw
    theirs at once, whatever the environment holds; and whenever no
    credential resolves for the provider of a request, the adapter fails
    without a network call (with the missing-credential error once the
    image is there). *)
Theorem C5_credential_resolution (w : World) (request : AnalysisRequest)
    (image : string) (context caller : option string) :
  Wire.absent caller ->
  (forall key, Wire.present (GOOGLE_GEMINI_API_KEY w) key ->
     prepareGeminiRequest w image context caller
     = Return (Wire.gemini key (prompt_of context) (payload_of image)))
  /\ (Wire.absent (GOOGLE_GEMINI_API_KEY w) ->
     prepareGeminiRequest w image context caller
     = Throw "No Gemini API key provided")
  /\ prepareOpenAIRequest image context caller
     = Throw "No OpenAI API key provided"
  /\ prepareClaudeRequest image context caller
     = Throw "No Claude API key provided"
  /\ (recognized (provider request) ->
      (provider request = "gemini" -> Wire.absent (GOOGLE_GEMINI_API_KEY w)) ->
      network_calls (snd (analyzeBloodTest w request caller)) = 0
      /\ (exists e, fst (analyzeBloodTest w request caller) = Failure e)
      /\ (forall img, Wire.present (imageBase64 request) img ->
          analyzeBloodTest w request caller
          = (Failure (missing_credential (provider request)),
             [EvConsoleError "Analysis error:"
                (missing_credential (provider request))]))).
Proof.
  intros Ha. pose proof Ha as Hn. apply as_truthy_None in Hn.
  repeat split.
  - intros key Hk. apply prepareGemini_Return, resolves_gemini.
    right. now repeat split; try apply Hk.
  - intros He. apply prepareGemini_Throw, unresolvable_gemini. now split.
  - now apply prepareOpenAI_Throw.
  - now apply prepareClaude_Throw.
  - destruct (as_truthy (imageBase64 request)) as [img|] eqn:E.
    + rewrite (analyze_tree _ _ _ _ E), (build_missing _ _ _ _ _ H).
      * reflexivity.
      * now split.
    + now rewrite (analyze_no_image _ _ _ E).
  - destruct (as_truthy (imageBase64 request)) as [img|] eqn:E.
    + rewrite (analyze_tree _ _ _ _ E), (build_missing _ _ _ _ _ H).
      * now eexists.
      * now split.
    + rewrite (analyze_no_image _ _ _ E). now eexists.
  - intros img Hi. apply as_truthy_Some in Hi.
    rewrite (analyze_tree _ _ _ _ Hi), (build_missing _ _ _ _ _ H).
    + reflexivity.
    + now split.
Qed.

Lemma C5_witness :
  prepareGeminiRequest (answering unauthorized) sample_image None None
  = Return (Wire.gemini "server-key" ANALYSIS_PROMPT (Some "AAAA"))
  /\ prepareOpenAIRequest sample_image None None
     = Throw "No OpenAI API key provided"
  /\ analyzeBloodTest (answering unauthorized) (sample_request "claude") None
     = (Failure "No Claude API key provided",
        [EvConsoleError "Analysis error:" "No Claude API key provided"]).
Proof.
  assert (Ha : Wire.absent None) by (left; reflexivity).
  pose proof (C5_credential_resolution (answering unauthorized)
                (sample_request "claude") sample_image None None Ha)
    as (Hg & _ & Ho & _ & Hc).
  split; [|split].
  - apply (Hg "server-key"). split; [reflexivity | discriminate].
  - exact Ho.
  - assert (Hrec : recognized (provider (sample_request "claude")))
      by (right; right; reflexivity).
    assert (Hng : provider (sample_request "claude") = "gemini" ->
                  Wire.absent (GOOGLE_GEMINI_API_KEY (answering unauthorized)))
      by (intros E; discriminate E).
    destruct (Hc Hrec Hng) as (_ & _ & Hi).
    apply (Hi sample_image). split; [reflexivity | discriminate].
Defined.

(** ** C6 *)

(** C6, as stated, fails: the image is checked before the provider, so a
    request with an unrecognized provider and no image gets the validation
    failure, not the unsupported-provider one. *)
Lemma C6_image_checked_before_provider :
  let request :=
    {| imageBase64 := None; contextText := None; provider := "mistral" |} in
  ~ recognized (provider request)
  /\ fst (analyzeBloodTest offline request (Some "k"))
     = Failure "No image provided"
  /\ fst (analyzeBloodTest offline request (Some "k"))
     <> Failure ("Unsupported provider: " ++ provider request).
Proof.
  cbv zeta. split; [|split].
  - intros [H|[H|H]]; discriminate H.
  - reflexivity.
  - discriminate.
Qed.

(** C6, amended: a request that has an image and whose provider is none of
    gemini, openai and claude gets the failure "Unsupported provider: "
    followed by the provider, and the trace holds no network call; the
    endpoint table throws the same error, and the route answers 400. *)
Theorem C6_unsupported_provider (w : World) (request : AnalysisRequest)
    (caller : option string) (img : string) :
  Wire.present (imageBase64 request) img ->
  ~ recognized (provider request) ->
  let message := "Unsupported provider: " ++ provider request in
  analyzeBloodTest w request caller
  = (Failure message, [EvConsoleError "Analysis error:" message])
  /\ network_calls (snd (analyzeBloodTest w request caller)) = 0
  /\ getApiEndpoint (provider request) = Throw message
  /\ forall get,
       POST w {| req_json := Return request; headers_get := get |}
       = ({| http_status := 400; payload := BodyError message |},
          [EvConsoleError "Analysis error:" message]).
Proof.
  intros Hi Hp message. apply as_truthy_Some in Hi.
  assert (E : forall k, analyzeBloodTest w request k
              = (Failure message, [EvConsoleError "Analysis error:" message])).
  { intros k. now rewrite (analyze_tree _ _ _ _ Hi), build_unsupported. }
  split; [apply E|]. split; [now rewrite E|]. split.
  - unfold getApiEndpoint, recognized in *.
    destruct (String.eqb_spec (provider request) "gemini"); [tauto|].
    destruct (String.eqb_spec (provider request) "openai"); [tauto|].
    destruct (String.eqb_spec (provider request) "claude"); [tauto|].
    reflexivity.
  - intros get.
    rewrite (POST_tree w {| req_json := Return request; headers_get := get |}
               request eq_refl).
    cbv zeta. now rewrite E.
Qed.

Lemma C6_witness :
  analyzeBloodTest (answering unauthorized) (sample_request "mistral")
    (Some "k")
  = (Failure "Unsupported provider: mistral",
     [EvConsoleError "Analysis error:" "Unsupported provider: mistral"]).
Proof.
  apply (C6_unsupported_provider (answering unauthorized)
           (sample_request "mistral") (Some "k") sample_image).
  - split; [reflexivity | discriminate].
  - intros [H|[H|H]]; discriminate H.
Defined.

(** ** C7 *)

(** C7: when the request was sent and the response has a status outside
    200-299, the adapter returns the failure whose error is "API Error ("
    followed by the status in decimal, "): " and the response body text as
    it is; the trace holds that one network call and no other.  No
    invocation makes more than one call. *)
Theorem C7_http_error_reported (w : World) (request : AnalysisRequest)
    (caller : option string) (img : string) (cfg : FetchConfig)
    (response : Response) :
  Wire.present (imageBase64 request) img ->
  build w (provider request) img (contextText request) caller = Return cfg ->
  fetch w (url cfg) (options cfg) = Return response ->
  (status response < 200 \/ 299 < status response)%N ->
  let message :=
    "API Error (" ++ N_to_string (status response) ++ "): "
      ++ resp_text response in
  analyzeBloodTest w request caller
  = (Failure message,
     [EvFetch (url cfg) (options cfg);
      EvConsoleError "Analysis error:" message])
  /\ network_calls (snd (analyzeBloodTest w request caller)) = 1
  /\ forall w' request' caller',
       network_calls (snd (analyzeBloodTest w' request' caller')) <= 1.
Proof.
  intros Hi Hb Hf Hs message. apply as_truthy_Some in Hi.
  assert (Hok : ok response = false).
  { unfold ok. apply andb_false_iff.
    destruct Hs; [left; apply N.leb_gt | right; apply N.leb_gt]; assumption. }
  assert (E : analyzeBloodTest w request caller
              = (Failure message,
                 [EvFetch (url cfg) (options cfg);
                  EvConsoleError "Analysis error:" message])).
  { rewrite (analyze_tree _ _ _ _ Hi), Hb. cbv zeta.
    now rewrite Hf, Hok. }
  split; [exact E|]. split; [now rewrite E|].
  intros. apply at_most_one_call.
Qed.

Lemma C7_witness :
  fst (analyzeBloodTest (answering unauthorized) (sample_request "openai")
         (Some "k"))
  = Failure "API Error (401): denied".
Proof.
  assert (Hi : Wire.present (imageBase64 (sample_request "openai"))
                 sample_image)
    by (split; [reflexivity | discriminate]).
  assert (Hs : (status unauthorized < 200 \/ 299 < status unauthorized)%N)
    by (right; reflexivity).
  pose proof (C7_http_error_reported (answering unauthorized)
                (sample_request "openai") (Some "k") sample_image
                (Wire.openai "k" ANALYSIS_PROMPT sample_image) unauthorized
                Hi eq_refl eq_refl Hs) as H.
  cbv zeta in H. destruct H as [H _].
  exact (f_equal fst H).
Defined.

(** ** C8 *)

(** C8, as stated, fails: a Gemini reply whose first part has no [text]
    misses the expected field, and the adapter returns a success whose
    text is [undefined], not a failure. *)
Lemma C8_missing_text_is_success :
  let w := answering (replying textless_reply) in
  walk [Field "candidates"; At 0; Field "content"; Field "parts"; At 0]
    textless_reply = Return (VObj [])
  /\ fst (analyzeBloodTest w (sample_request "gemini") (Some "k"))
     = Success {| text := VUndefined; result_provider := "gemini";
                  timestamp := 1700000000000 |}
  /\ forall e,
       fst (analyzeBloodTest w (sample_request "gemini") (Some "k"))
       <> Failure e.
Proof.
  cbv zeta. split; [reflexivity|]. split; [reflexivity|].
  intros e. vm_compute. discriminate.
Qed.

(** C8, amended: on a reply with a success status, the decode of each
    provider walks its documented path (gemini: candidates[0].content
    .parts[0].text; openai: choices[0].message.content; claude:
    content[0].text) and the value it reaches is the text of the result;
    when the walk reaches [undefined] or [null] before its last access, the
    adapter returns a failure whose error is the TypeError message, which
    is no HTTP-level error string; otherwise the adapter succeeds. *)
Theorem C8_decode_along_path (w : World) (request : AnalysisRequest)
    (caller : option string) (img : string) (cfg : FetchConfig)
    (response : Response) (data : value) :
  Wire.present (imageBase64 request) img ->
  build w (provider request) img (contextText request) caller = Return cfg ->
  fetch w (url cfg) (options cfg) = Return response ->
  ok response = true ->
  resp_json response = Return data ->
  let p := provider request in
  let sent := EvFetch (url cfg) (options cfg) in
  (path_of "gemini"
   = [Field "candidates"; At 0; Field "content"; Field "parts"; At 0;
      Field "text"]
   /\ path_of "openai"
      = [Field "choices"; At 0; Field "message"; Field "content"]
   /\ path_of "claude" = [Field "content"; At 0; Field "text"])
  /\ extractGemini data = walk (path_of "gemini") data
  /\ extractOpenAI data = walk (path_of "openai") data
  /\ extractClaude data = walk (path_of "claude") data
  /\ (forall t, walk (path_of p) data = Return t ->
      analyzeBloodTest w request caller
      = (Success {| text := t; result_provider := p;
                    timestamp := Date_now w |}, [sent]))
  /\ (breaks (path_of p) data ->
      exists m,
        analyzeBloodTest w request caller
        = (Failure m, [sent; EvConsoleError "Analysis error:" m])
        /\ is_http_error m = false)
  /\ (~ breaks (path_of p) data -> exists t, walk (path_of p) data = Return t)
  /\ (forall code text, is_http_error
                          ("API Error (" ++ code ++ "): " ++ text) = true).
Proof.
  intros Hi Hb Hf Hok Hj p sent. apply as_truthy_Some in Hi.
  destruct (build_inv _ _ _ _ _ _ Hb) as (Hrec & _).
  assert (Etree : analyzeBloodTest w request caller
                  = match walk (path_of p) data with
                    | Throw m => caught [sent] m
                    | Return t =>
                        (Success {| text := t; result_provider := p;
                                    timestamp := Date_now w |}, [sent])
                    end).
  { rewrite (analyze_tree _ _ _ _ Hi), Hb. cbv zeta.
    rewrite Hf, Hok, Hj, (extract_walk _ _ Hrec). reflexivity. }
  split; [now repeat split|].
  split; [apply (extract_walk "gemini"); now left|].
  split; [apply (extract_walk "openai"); now right; left|].
  split; [apply (extract_walk "claude"); now right; right|].
  split; [|split; [|split]].
  - intros t Ht. now rewrite Etree, Ht.
  - intros Hbr. destruct (walk_breaks _ _ Hbr) as [m Hm].
    exists m. rewrite Etree, Hm. split; [reflexivity|].
    destruct (walk_Throw _ _ _ Hm) as (_ & what & key & ->).
    apply type_error_not_http.
  - intros Hnb. destruct (walk (path_of p) data) as [m|t] eqn:E.
    + elim Hnb. now apply walk_Throw in E.
    + now exists t.
  - apply api_error_is_http.
Qed.

Lemma C8_witness :
  analyzeBloodTest (answering (replying (gemini_reply "All values normal.")))
    (sample_request "gemini") (Some "k")
  = (Success {| text := VStr "All values normal.";
                result_provider := "gemini";
                timestamp := 1700000000000 |},
     [EvFetch (url (Wire.gemini "k" ANALYSIS_PROMPT (Some "AAAA")))
        (options (Wire.gemini "k" ANALYSIS_PROMPT (Some "AAAA")))]).
Proof.
  assert (Hi : Wire.present (imageBase64 (sample_request "gemini"))
                 sample_image)
    by (split; [reflexivity | discriminate]).
  pose proof (C8_decode_along_path
                (answering (replying (gemini_reply "All values normal.")))
                (sample_request "gemini") (Some "k") sample_image
                (Wire.gemini "k" ANALYSIS_PROMPT (Some "AAAA"))
                (replying (gemini_reply "All values normal."))
                (gemini_reply "All values normal.")
                Hi eq_refl eq_refl eq_refl eq_refl) as H.
  cbv zeta in H. destruct H as (_ & _ & _ & _ & H & _).
  exact (H (VStr "All values normal.") eq_refl).
Defined.

(** ** C9 *)

Lemma as_truthy_idem (x : option string) :
  as_truthy (as_truthy x) = as_truthy x.
Proof.
  destruct (as_truthy x) as [s|] eqn:E; [|reflexivity].
  apply as_truthy_Some. apply as_truthy_Some in E as [_ Hs]. now split.
Qed.

Lemma resolves_truthy (p : string) (w : World) (x : option string)
    (key : string) :
  resolves p w (as_truthy x) key <-> resolves p w x key.
Proof.
  unfold resolves.
  rewrite <- !as_truthy_Some, <- !as_truthy_None, as_truthy_idem.
  reflexivity.
Qed.

(** Only gemini looks at the environment. *)
Lemma analyze_ignores_environment (w : World) (env : option string)
    (request : AnalysisRequest) (caller : option string) :
  provider request <> "gemini" ->
  analyzeBloodTest
    {| GOOGLE_GEMINI_API_KEY := env; fetch := fetch w;
       Date_now := Date_now w |} request caller
  = analyzeBloodTest w request caller.
Proof.
  intros Hp. unfold analyzeBloodTest.
  destruct (String.eqb_spec (provider request) "gemini"); [contradiction|].
  reflexivity.
Qed.

(** C9: when the route answers with a result, the request named one
    recognized provider, and everything in the call is that provider's:
    the key comes from that provider's header (or, for gemini, the
    server-side default), the one network call is that provider's wire
    request (endpoint, credential placement and body), the text is read
    along that provider's reply path, and the result names that provider.
    The other providers' headers are never read, and the server-side
    gemini key is ignored for openai and claude. *)
Theorem C9_one_provider_end_to_end (w : World) (request : NextRequest)
    (r : AnalysisResult) (trace : list event) :
  POST w request
  = ({| http_status := 200; payload := BodyResult r |}, trace) ->
  exists data img key response reply,
    req_json request = Return data
    /\ recognized (provider data)
    /\ result_provider r = provider data
    /\ Wire.present (imageBase64 data) img
    /\ resolves (provider data) w
         (headers_get request (key_header (provider data))) key
    /\ (let cfg := request_for (provider data) key
                     (prompt_of (contextText data)) img in
        trace = [EvFetch (url cfg) (options cfg)]
        /\ fetch w (url cfg) (options cfg) = Return response)
    /\ ok response = true
    /\ resp_json response = Return reply
    /\ walk (path_of (provider data)) reply = Return (text r)
    /\ (forall request',
          req_json request' = req_json request ->
          headers_get request' (key_header (provider data))
          = headers_get request (key_header (provider data)) ->
          POST w request' = POST w request)
    /\ (provider data <> "gemini" ->
        forall env,
          POST {| GOOGLE_GEMINI_API_KEY := env; fetch := fetch w;
                  Date_now := Date_now w |} request
          = POST w request).
Proof.
  intros H.
  destruct (req_json request) as [m|data] eqn:Ej.
  { unfold POST in H. rewrite Ej in H. cbn in H. discriminate H. }
  exists data.
  pose proof (POST_tree w request data Ej) as Et. cbv zeta in Et.
  set (caller := as_truthy (headers_get request (key_header (provider data))))
    in *.
  assert (Hfar : forall request',
             req_json request' = req_json request ->
             headers_get request' (key_header (provider data))
             = headers_get request (key_header (provider data)) ->
             POST w request' = POST w request).
  { intros request' Hj' Hh'. rewrite Ej in Hj'.
    rewrite (POST_tree w request' data Hj'), Et. cbv zeta.
    subst caller. now rewrite Hh'. }
  assert (Henv : provider data <> "gemini" ->
             forall env,
               POST {| GOOGLE_GEMINI_API_KEY := env; fetch := fetch w;
                       Date_now := Date_now w |} request
               = POST w request).
  { intros Hp env. rewrite (POST_tree _ request data Ej), Et. cbv zeta.
    fold caller. now rewrite (analyze_ignores_environment w env _ _ Hp). }
  rewrite Et in H. clear Et.
  destruct (as_truthy (imageBase64 data)) as [img|] eqn:Ei.
  2: { rewrite (analyze_no_image _ _ _ Ei) in H. cbn in H. discriminate H. }
  rewrite (analyze_tree _ _ _ _ Ei) in H.
  destruct (build w (provider data) img (contextText data) caller)
    as [m|cfg] eqn:Eb; [cbn in H; discriminate H|].
  destruct (build_inv _ _ _ _ _ _ Eb) as (Hrec & key & Hr & ->).
  cbv zeta in H.
  destruct (fetch w _ _) as [m|response] eqn:Ef; [cbn in H; discriminate H|].
  destruct (ok response) eqn:Eok; [|cbn in H; discriminate H].
  destruct (resp_json response) as [m|reply] eqn:Er;
    [cbn in H; discriminate H|].
  rewrite (extract_walk _ _ Hrec) in H.
  destruct (walk (path_of (provider data)) reply) as [m|t] eqn:Ew;
    [cbn in H; discriminate H|].
  cbn [fst snd] in H. injection H as <- <-.
  exists img, key, response, reply.
  split; [reflexivity|]. split; [assumption|]. split; [reflexivity|].
  split; [now apply as_truthy_Some|].
  split; [now apply resolves_truthy|].
  split; [split; [reflexivity | assumption]|].
  split; [assumption|]. split; [assumption|]. split; [assumption|].
  split; [|assumption].
  intros request' Hj' Hh'. apply Hfar; [now rewrite Ej | assumption].
Qed.

Lemma C9_witness :
  exists data,
    req_json (incoming (sample_request "gemini") [("x-gemini-key", "k")])
    = Return data
    /\ recognized (provider data)
    /\ provider data = "gemini".
Proof.
  destruct (C9_one_provider_end_to_end
              (answering (replying (gemini_reply "All values normal.")))
              (incoming (sample_request "gemini") [("x-gemini-key", "k")])
              {| text := VStr "All values normal.";
                 result_provider := "gemini";
                 timestamp := 1700000000000 |}
              [EvFetch (url (Wire.gemini "k" ANALYSIS_PROMPT (Some "AAAA")))
                 (options (Wire.gemini "k" ANALYSIS_PROMPT (Some "AAAA")))]
              eq_refl)
    as (data & img & key & response & reply & Hj & Hrec & Hp & _).
  exists data. split; [exact Hj|]. split; [exact Hrec|].
  symmetry. exact Hp.
Defined.

(** ** C10 *)

(** With the separator there are at least two pieces. *)
Lemma split_some (sep : ascii) (s : string) :
  occurs sep s = true -> exists a b rest, split sep s = a :: b :: rest.
Proof.
  induction s as [|c s IH]; simpl; [discriminate|].
  destruct (Ascii.eqb c sep); simpl.
  - intros _. destruct (split_cons sep s) as (p & ps & ->).
    now exists EmptyString, p, ps.
  - intros H. destruct (IH H) as (a & b & rest & ->).
    now exists (String c a), b, rest.
Qed.

Lemma second_piece_None (sep : ascii) (s : string) :
  nth_error (split sep s) 1 = None <-> occurs sep s = false.
Proof.
  split.
  - destruct (occurs sep s) eqn:E; [|reflexivity].
    destruct (split_some _ _ E) as (a & b & rest & ->). discriminate.
  - intros H. now rewrite (split_none _ _ H).
Qed.

(** C10, as stated, fails for claude's media type: an image string without
    a comma can still have a colon before its first semicolon, and then a
    media type is parsed and sent. *)
Lemma C10_media_type_without_comma :
  let image := "data:image/png;base64" in
  occurs "," image = false
  /\ prepareClaudeRequest image None (Some "k")
     = Return (Wire.claude "k" ANALYSIS_PROMPT (Some "image/png") None)
  /\ prepareClaudeRequest image None (Some "k")
     <> Return (Wire.claude "k" ANALYSIS_PROMPT None None).
Proof.
  cbv zeta. split; [reflexivity|]. split; [reflexivity|].
  intros H.
  apply (f_equal (fun o => match o with
                           | Return c => option_map String.length
                                           (body (options c))
                           | Throw _ => None
                           end)) in H.
  vm_compute in H. discriminate H.
Qed.

Lemma first_piece (sep : ascii) (s head : string) :
  before_first sep s head -> hd EmptyString (split sep s) = head.
Proof.
  intros [Hh [->|[rest ->]]].
  - now rewrite (split_none _ _ Hh).
  - change (head ++ String sep EmptyString ++ rest)
      with (head ++ String sep rest).
    now rewrite (split_app _ _ _ Hh).
Qed.

(** The second piece of a text with a separator in it. *)
Lemma second_piece (sep : ascii) (s a b : string) :
  occurs sep a = false -> occurs sep b = false ->
  s = a ++ String sep EmptyString ++ b
  \/ (exists more,
        s = a ++ String sep EmptyString ++ b
              ++ String sep EmptyString ++ more) ->
  nth_error (split sep s) 1 = Some b.
Proof.
  intros Ha Hb [->|[more ->]].
  - change (a ++ String sep EmptyString ++ b) with (a ++ String sep b).
    now rewrite (split_app _ _ _ Ha), (split_none _ _ Hb).
  - change (a ++ String sep EmptyString ++ b ++ String sep EmptyString ++ more)
      with (a ++ String sep (b ++ String sep more)).
    now rewrite (split_app _ _ _ Ha), (split_app _ _ _ Hb).
Qed.

(** C10, amended: a non-empty image string without a comma passes the
    validation of the image: what the adapter returns is decided by what
    comes after it.  With an unrecognized provider the failure is the
    unsupported-provider one, with no credential that resolves it is the
    missing-credential one, and otherwise the request is built and sent.
    The gemini and claude bodies then carry no [data] member and the
    openai body carries the string as it is.  The claude body carries no
    [media_type] member exactly when the text before the first semicolon
    has no colon; when it has one, the media type sent is the text between
    its first colon and its next colon, or its end. *)
Theorem C10_only_emptiness_validated (w : World) (request : AnalysisRequest)
    (caller : option string) (img key : string) :
  Wire.present (imageBase64 request) img ->
  occurs "," img = false ->
  let context := contextText request in
  let p := provider request in
  nth_error (split "," img) 1 = None
  /\ (resolves "gemini" w caller key ->
      prepareGeminiRequest w img context caller
      = Return (Wire.gemini key (prompt_of context) None))
  /\ (resolves "openai" w caller key ->
      prepareOpenAIRequest img context caller
      = Return (Wire.openai key (prompt_of context) img))
  /\ (resolves "claude" w caller key ->
      prepareClaudeRequest img context caller
      = Return (Wire.claude key (prompt_of context) (media_type_of img) None))
  /\ (media_type_of img = None
      <-> occurs ":" (hd EmptyString (split ";" img)) = false)
  /\ (recognized p ->
      resolves p w caller key ->
      let cfg := request_for p key (prompt_of context) img in
      exists out rest,
        analyzeBloodTest w request caller
        = (out, EvFetch (url cfg) (options cfg) :: rest)
        /\ network_calls (snd (analyzeBloodTest w request caller)) = 1)
  /\ (~ recognized p ->
      analyzeBloodTest w request caller
      = (Failure ("Unsupported provider: " ++ p),
         [EvConsoleError "Analysis error:" ("Unsupported provider: " ++ p)]))
  /\ (recognized p -> unresolvable p w caller ->
      analyzeBloodTest w request caller
      = (Failure (missing_credential p),
         [EvConsoleError "Analysis error:" (missing_credential p)]))
  /\ (forall head, before_first ";" img head ->
      (occurs ":" head = false ->
       resolves "claude" w caller key ->
       prepareClaudeRequest img context caller
       = Return (Wire.claude key (prompt_of context) None None))
      /\ (forall a b,
            occurs ":" a = false -> occurs ":" b = false ->
            head = a ++ ":" ++ b
            \/ (exists more, head = a ++ ":" ++ b ++ ":" ++ more) ->
            resolves "claude" w caller key ->
            prepareClaudeRequest img context caller
            = Return (Wire.claude key (prompt_of context) (Some b) None))).
Proof.
  intros Hi Hc context p. subst context p.
  assert (Epay : payload_of img = None) by now apply payload_of_no_comma.
  assert (Eclaude : forall k, resolves "claude" w caller k ->
            prepareClaudeRequest img (contextText request) caller
            = Return (Wire.claude k (prompt_of (contextText request))
                        (media_type_of img) None)).
  { intros k Hr. apply resolves_other in Hr; [|discriminate].
    now rewrite (prepareClaude_Return _ _ _ _ Hr), Epay. }
  assert (Emed : media_type_of img
                 = nth_error (split ":" (hd EmptyString (split ";" img))) 1).
  { unfold media_type_of.
    now destruct (split_cons ";" img) as (head & rest & ->). }
  pose proof Hi as Hi'. apply as_truthy_Some in Hi'.
  split; [exact Epay|].
  split; [|split; [|split; [|split; [|split; [|split; [|split]]]]]].
  - intros Hr. apply resolves_gemini in Hr.
    now rewrite (prepareGemini_Return _ _ _ _ _ Hr), Epay.
  - intros Hr. apply resolves_other in Hr; [|discriminate].
    now rewrite (prepareOpenAI_Return _ _ _ _ Hr).
  - apply Eclaude.
  - rewrite Emed. apply second_piece_None.
  - intros Hrec Hr cfg.
    pose proof (build_Return _ w img (contextText request) caller key
                  Hrec Hr) as Hb.
    destruct (analyze_sends w request caller img _ Hi' Hb)
      as (out & rest & E & Hn).
    exists out, rest. split; [exact E|]. now rewrite E.
  - intros Hn. now rewrite (analyze_tree _ _ _ _ Hi'), build_unsupported.
  - intros Hrec Hu.
    now rewrite (analyze_tree _ _ _ _ Hi'), (build_missing _ _ _ _ _ Hrec Hu).
  - intros head Hh. rewrite (first_piece _ _ _ Hh) in Emed. split.
    + intros Hcol Hr. rewrite (Eclaude _ Hr), Emed.
      now rewrite (split_none _ _ Hcol).
    + intros a b Ha Hb Hd Hr. rewrite (Eclaude _ Hr), Emed.
      now rewrite (second_piece ":" head a b Ha Hb Hd).
Qed.

Lemma C10_witness :
  prepareGeminiRequest offline "AAAA" None (Some "k")
  = Return (Wire.gemini "k" ANALYSIS_PROMPT None)
  /\ prepareClaudeRequest "AAAA" None (Some "k")
     = Return (Wire.claude "k" ANALYSIS_PROMPT None None)
  /\ prepareClaudeRequest "blob:image:png;x" None (Some "k")
     = Return (Wire.claude "k" ANALYSIS_PROMPT (Some "image") None).
Proof.
  assert (Hr : forall p, resolves p offline (Some "k") "k")
    by (intros p; left; split; [reflexivity | discriminate]).
  assert (Hi : forall img, img <> EmptyString ->
            Wire.present
              (imageBase64 {| imageBase64 := Some img; contextText := None;
                              provider := "claude" |}) img)
    by (intros img Hne; split; [reflexivity | exact Hne]).
  assert (Hne1 : "AAAA" <> EmptyString) by discriminate.
  assert (Hne2 : "blob:image:png;x" <> EmptyString) by discriminate.
  pose proof (C10_only_emptiness_validated offline
                {| imageBase64 := Some "AAAA"; contextText := None;
                   provider := "claude" |}
                (Some "k") "AAAA" "k" (Hi _ Hne1) eq_refl) as H1.
  pose proof (C10_only_emptiness_validated offline
                {| imageBase64 := Some "blob:image:png;x"; contextText := None;
                   provider := "claude" |}
                (Some "k") "blob:image:png;x" "k" (Hi _ Hne2) eq_refl) as H2.
  cbv zeta in H1, H2.
  destruct H1 as (_ & Hg & _ & Hc & _).
  destruct H2 as (_ & _ & _ & _ & _ & _ & _ & _ & Hm).
  split; [exact (Hg (Hr "gemini"))|]. split; [exact (Hc (Hr "claude"))|].
  assert (Hb : before_first ";" "blob:image:png;x" "blob:image:png").
  { split; [reflexivity|]. right. now exists "x". }
  apply (proj2 (Hm "blob:image:png" Hb) "blob" "image");
    [reflexivity | reflexivity | | exact (Hr "claude")].
  right. now exists "png".
Defined.

(** * Further properties *)

(** ** The route *)

(** X1: when reading the request body throws, the route answers 500
    with the thrown message, logs it and makes no network call.  When the
    body parses to a request object, the route answers 200 with the
    adapter's result or 400 with the adapter's error, never 500, and its
    trace is the adapter's.  In every case the status is 200 exactly when
    the answer carries a result, an answer of 500 comes with no network
    call, and there is at most one network call. *)
Theorem POST_status_classification (w : World) (request : NextRequest) :
  let answer := fst (POST w request) in
  (forall m, req_json request = Throw m ->
     POST w request
     = ({| http_status := 500; payload := BodyError m |},
        [EvConsoleError "API route error:" m]))
  /\ (forall data, req_json request = Return data ->
       let run :=
         analyzeBloodTest w data
           (as_truthy (headers_get request (key_header (provider data)))) in
       snd (POST w request) = snd run
       /\ (forall res, fst run = Success res ->
             answer = {| http_status := 200; payload := BodyResult res |})
       /\ (forall e, fst run = Failure e ->
             answer = {| http_status := 400; payload := BodyError e |})
       /\ (http_status answer = 200 \/ http_status answer = 400)%N)
  /\ (http_status answer = 200%N
      <-> exists res, payload answer = BodyResult res)
  /\ network_calls (snd (POST w request)) <= 1
  /\ (http_status answer = 500%N -> network_calls (snd (POST w request)) = 0).
Proof.
  cbv zeta. destruct (req_json request) as [m|data] eqn:Ej.
  - assert (E : POST w request
                = ({| http_status := 500; payload := BodyError m |},
                   [EvConsoleError "API route error:" m]))
      by (unfold POST; now rewrite Ej).
    rewrite E. cbn. repeat split; auto; try discriminate.
    + now intros m' [= <-].
    + intros [res H]. discriminate H.
  - rewrite (POST_tree w request data Ej). cbv zeta. cbn [fst snd].
    pose proof (at_most_one_call w data
      (as_truthy (headers_get request (key_header (provider data)))))
      as Hc.
    split; [discriminate|].
    split.
    { intros data' [= <-].
      destruct (analyzeBloodTest w data _) as [[res|e] t]; cbn [fst snd].
      - repeat split; try discriminate; auto.
        now intros res' [= <-].
      - repeat split; try discriminate; auto.
        now intros e' [= <-]. }
    destruct (analyzeBloodTest w data _) as [[res|e] t]; cbn in *.
    + repeat split; auto; try discriminate.
      intros _. now exists res.
    + repeat split; auto; try discriminate.
      intros [res H]. discriminate H.
Qed.

Lemma POST_status_classification_witness :
  POST offline {| req_json := Throw "Unexpected end of JSON input";
                  headers_get := fun _ => None |}
  = ({| http_status := 500;
        payload := BodyError "Unexpected end of JSON input" |},
     [EvConsoleError "API route error:" "Unexpected end of JSON input"]).
Proof.
  apply (proj1 (POST_status_classification offline
                  {| req_json := Throw "Unexpected end of JSON input";
                     headers_get := fun _ => None |})).
  reflexivity.
Defined.

(** X2: once the request is built, a network call that throws, or a
    success reply whose body is not JSON, gives the failure that carries
    the thrown message, after exactly one network call. *)
Theorem network_fault_reported (w : World) (request : AnalysisRequest)
    (caller : option string) (img : string) (cfg : FetchConfig) :
  Wire.present (Route.imageBase64 request) img ->
  build w (Route.provider request) img (Route.contextText request) caller
  = Return cfg ->
  let sent := EvFetch (url cfg) (options cfg) in
  (forall m, Route.fetch w (url cfg) (options cfg) = Throw m ->
     analyzeBloodTest w request caller
     = (Failure m, [sent; EvConsoleError "Analysis error:" m]))
  /\ (forall response m,
        Route.fetch w (url cfg) (options cfg) = Return response ->
        ok response = true ->
        resp_json response = Throw m ->
        analyzeBloodTest w request caller
        = (Failure m, [sent; EvConsoleError "Analysis error:" m])).
Proof.
  intros Hi Hb sent. apply as_truthy_Some in Hi.
  split.
  - intros m Hf. rewrite (analyze_tree _ _ _ _ Hi), Hb. cbv zeta.
    now rewrite Hf.
  - intros response m Hf Hok Hj.
    rewrite (analyze_tree _ _ _ _ Hi), Hb. cbv zeta.
    now rewrite Hf, Hok, Hj.
Qed.

Lemma network_fault_reported_witness :
  analyzeBloodTest offline (sample_request "claude") (Some "k")
  = (Failure "fetch failed",
     [EvFetch (url (Wire.claude "k" ANALYSIS_PROMPT (Some "image/jpeg")
                      (Some "AAAA")))
        (options (Wire.claude "k" ANALYSIS_PROMPT (Some "image/jpeg")
                    (Some "AAAA")));
      EvConsoleError "Analysis error:" "fetch failed"]).
Proof.
  assert (Hi : Wire.present (Route.imageBase64 (sample_request "claude"))
                 sample_image)
    by (split; [reflexivity | discriminate]).
  pose proof (network_fault_reported offline (sample_request "claude")
                (Some "k") sample_image
                (Wire.claude "k" ANALYSIS_PROMPT (Some "image/jpeg")
                   (Some "AAAA"))
                Hi eq_refl) as H.
  cbv zeta in H. exact (proj1 H "fetch failed" eq_refl).
Defined.

(** X3: the payload that gemini and claude send is the text between the
    first and the second comma of the image string: what follows a second
    comma is dropped, while openai sends the string whole. *)
Theorem payload_stops_at_second_comma (w : World) (head data tail : string)
    (ctx caller : option string) (key : string) :
  occurs "," head = false ->
  occurs "," data = false ->
  let image := head ++ "," ++ data ++ "," ++ tail in
  (resolves "gemini" w caller key ->
   prepareGeminiRequest w image ctx caller
   = Return (Wire.gemini key (prompt_of ctx) (Some data)))
  /\ (resolves "claude" w caller key ->
      prepareClaudeRequest image ctx caller
      = Return (Wire.claude key (prompt_of ctx) (media_type_of image)
                  (Some data)))
  /\ (resolves "openai" w caller key ->
      prepareOpenAIRequest image ctx caller
      = Return (Wire.openai key (prompt_of ctx) image)).
Proof.
  intros Hh Hd image.
  assert (Epay : payload_of image = Some data).
  { unfold payload_of, image.
    change (head ++ "," ++ data ++ "," ++ tail)
      with (head ++ String "," (data ++ String "," tail)).
    rewrite (split_app _ _ _ Hh), (split_app _ _ _ Hd). reflexivity. }
  split; [|split].
  - intros Hr. apply resolves_gemini in Hr.
    now rewrite (prepareGemini_Return _ _ _ _ _ Hr), Epay.
  - intros Hr. apply resolves_other in Hr; [|discriminate].
    now rewrite (prepareClaude_Return _ _ _ _ Hr), Epay.
  - intros Hr. apply resolves_other in Hr; [|discriminate].
    now rewrite (prepareOpenAI_Return _ _ _ _ Hr).
Qed.

Lemma payload_stops_at_second_comma_witness :
  prepareGeminiRequest offline "data:image/png;base64,AAAA,BBBB" None
    (Some "k")
  = Return (Wire.gemini "k" ANALYSIS_PROMPT (Some "AAAA")).
Proof.
  assert (Hr : resolves "gemini" offline (Some "k") "k")
    by (left; split; [reflexivity | discriminate]).
  exact (proj1 (payload_stops_at_second_comma offline
                  "data:image/png;base64" "AAAA" "BBBB" None (Some "k") "k"
                  eq_refl eq_refl) Hr).
Defined.

(** ** The client store *)

Import Client Page.

Lemma set_console_same (b : Browser) : set_console (console b) b = b.
Proof. now destruct b. Qed.

Lemma truthy_text (text : string) :
  text <> EmptyString -> as_truthy (Some text) = Some text.
Proof. intros H. apply as_truthy_Some. now split. Qed.

Lemma loadSettings_stored (b : Browser) (s : UserSettings) :
  stores_settings b s -> loadSettings b = (Fresh, s, b).
Proof.
  intros (Hw & Hg & text & Hi & Hne & Hp).
  unfold loadSettings. rewrite Hw. unfold bindB, getItem.
  rewrite Hg, Hi, (truthy_text _ Hne), Hp. reflexivity.
Qed.

(** [loadSettings] gives back what the store holds, or else the shared
    default; it changes nothing but the console. *)
Lemma loadSettings_cases (b : Browser) :
  (exists s, stores_settings b s /\ loadSettings b = (Fresh, s, b))
  \/ (exists c, loadSettings b = (Shared, defaultSettings b, set_console c b)).
Proof.
  unfold loadSettings, stores_settings, bindB, getItem, console_error, retB.
  destruct (window_defined b) eqn:Hw.
  2: { right. exists (console b). now rewrite set_console_same. }
  destruct (getItem_throws b) as [m|] eqn:Hg.
  { right. now eexists. }
  destruct (item SETTINGS_KEY (storage b)) as [text|] eqn:Hi.
  2: { right. exists (console b). cbn. now rewrite set_console_same. }
  destruct (as_truthy (Some text)) as [t|] eqn:Ht.
  2: { right. exists (console b). now rewrite set_console_same. }
  apply as_truthy_Some in Ht as [Ht Hne]. injection Ht as <-.
  destruct (parse_settings b text) as [m|s] eqn:Hp.
  { right. now eexists. }
  left. exists s. repeat split. exists text. now repeat split.
Qed.

(** The settings that a caller of [loadSettings] sees. *)
Lemma loadSettings_agree (b1 b2 : Browser) :
  window_defined b1 = window_defined b2 ->
  getItem_throws b1 = getItem_throws b2 ->
  item SETTINGS_KEY (storage b1) = item SETTINGS_KEY (storage b2) ->
  parse_settings b1 = parse_settings b2 ->
  defaultSettings b1 = defaultSettings b2 ->
  fst (loadSettings b1) = fst (loadSettings b2).
Proof.
  intros Hw Hg Hi Hp Hd.
  unfold loadSettings, bindB, getItem, console_error, retB.
  rewrite Hw, Hg, Hi, Hp, Hd.
  destruct (window_defined b2); [|reflexivity].
  destruct (getItem_throws b2); [reflexivity|].
  destruct (item SETTINGS_KEY (storage b2)) as [text|]; [|reflexivity].
  destruct (as_truthy (Some text)) as [t|]; [|reflexivity].
  now destruct (parse_settings b2 t).
Qed.

Lemma loadSettings_after_console (c : list (string * string)) (b : Browser) :
  fst (loadSettings (set_console c b)) = fst (loadSettings b).
Proof. now apply loadSettings_agree. Qed.

Lemma item_assign_same (p k : string) (l : list (string * string)) :
  item p (assign p k l) = Some k.
Proof.
  induction l as [|[q v] l IH]; cbn.
  - now rewrite String.eqb_refl.
  - destruct (String.eqb_spec q p) as [->|Hq]; cbn.
    + now rewrite String.eqb_refl.
    + apply String.eqb_neq in Hq. now rewrite Hq.
Qed.

Lemma item_assign_other (p q k : string) (l : list (string * string)) :
  q <> p -> item q (assign p k l) = item q l.
Proof.
  intros Hne. induction l as [|[r v] l IH]; cbn.
  - destruct (String.eqb_spec p q) as [->|]; [contradiction|reflexivity].
  - destruct (String.eqb_spec r p) as [->|Hr]; cbn.
    + destruct (String.eqb_spec p q) as [->|]; [contradiction|reflexivity].
    + now rewrite IH.
Qed.

Lemma settings_text_filled (s : UserSettings) : settings_text s <> EmptyString.
Proof. unfold settings_text, JSON_text. cbn. discriminate. Qed.


Lemma saveSettings_writable (s : UserSettings) (b : Browser) :
  writable b ->
  saveSettings s b
  = (tt, set_storage (assign SETTINGS_KEY (settings_text s) (storage b)) b).
Proof.
  intros [Hw Hs]. unfold saveSettings, bindB, setItem. now rewrite Hw, Hs.
Qed.

Lemma saveSettings_unwritable (s : UserSettings) (b : Browser) :
  unwritable b -> exists c, saveSettings s b = (tt, set_console c b).
Proof.
  intros Hu. unfold saveSettings, bindB, setItem, console_error, retB.
  destruct (window_defined b) eqn:Hw.
  - destruct (setItem_throws b) as [m|] eqn:Hs.
    + now eexists.
    + destruct Hu as [Hu|Hu]; [congruence | now elim Hu].
  - exists (console b). now rewrite set_console_same.
Qed.

(** X4: the reading functions of the store never write: after any of
    them the browser is what it was, but for the console. *)
Theorem readers_leave_the_store_alone (b : Browser) (p : string) :
  (exists c, snd (loadSettings b) = set_console c b)
  /\ (exists c, snd (getApiKey p b) = set_console c b)
  /\ (exists c, snd (getPreferredProvider b) = set_console c b)
  /\ (exists c, snd (hasAnyApiKey b) = set_console c b)
  /\ (exists c, snd (hasProviderApiKey p b) = set_console c b)
  /\ (exists c, snd (getAvailableProviders b) = set_console c b).
Proof.
  assert (H : exists c, snd (loadSettings b) = set_console c b).
  { destruct (loadSettings_cases b) as [(s & _ & E)|(c & E)]; rewrite E.
    - exists (console b). cbn. now rewrite set_console_same.
    - now exists c. }
  destruct H as [c H].
  unfold getApiKey, getPreferredProvider, hasAnyApiKey, hasProviderApiKey,
    getAvailableProviders, bindB, retB.
  destruct (loadSettings b) as [loaded b']. cbn in H. subst b'.
  repeat split; now exists c.
Qed.

Lemma loadSettings_shared_default (b : Browser) (d : UserSettings) :
  fst (fst (loadSettings b)) = Shared ->
  fst (loadSettings (set_defaultSettings d b)) = (Shared, d).
Proof.
  unfold loadSettings, bindB, getItem, console_error, retB. cbn.
  destruct (window_defined b); [|reflexivity].
  destruct (getItem_throws b); [reflexivity|].
  destruct (item SETTINGS_KEY (storage b)) as [text|]; [|reflexivity].
  destruct (as_truthy (Some text)) as [t|]; [|reflexivity].
  destruct (parse_settings b t); [reflexivity | discriminate].
Qed.

Lemma getApiKey_reads (p : string) (b : Browser) :
  fst (getApiKey p b) = item p (apiKeys (snd (fst (loadSettings b)))).
Proof.
  unfold getApiKey, bindB, retB. now destruct (loadSettings b).
Qed.

Lemma hasProviderApiKey_reads (p : string) (b : Browser) :
  fst (hasProviderApiKey p b)
  = match item p (apiKeys (snd (fst (loadSettings b)))) with
    | Some apiKey => negb (trim apiKey =? EmptyString)
    | None => false
    end.
Proof.
  unfold hasProviderApiKey, bindB, retB. now destruct (loadSettings b).
Qed.

(** What [saveApiKey] and [setPreferredProvider] do: load, change the
    loaded object (the shared default when that was loaded), save. *)
Lemma saveApiKey_steps (p k : string) (b : Browser) :
  saveApiKey p k b
  = let (loaded, b1) := loadSettings b in
    let s' := with_key p k (snd loaded) in
    saveSettings s' (snd (write_settings (fst loaded) s' b1)).
Proof.
  unfold saveApiKey, bindB. destruct (loadSettings b) as [[o s] b1].
  cbn [fst snd]. unfold with_key.
  now destruct o.
Qed.

Lemma setPreferredProvider_steps (q : string) (b : Browser) :
  setPreferredProvider q b
  = let (loaded, b1) := loadSettings b in
    let s' := with_preferred q (snd loaded) in
    saveSettings s' (snd (write_settings (fst loaded) s' b1)).
Proof.
  unfold setPreferredProvider, bindB. destruct (loadSettings b) as [[o s] b1].
  cbn [fst snd]. unfold with_preferred.
  now destruct o.
Qed.

(** After a change of the settings that is written and read back, the
    store holds the changed settings. *)
Lemma stored_after_save (b : Browser) (o : origin) (c : list (string * string))
    (s' : UserSettings) :
  writable b -> getItem_throws b = None ->
  parse_settings b (settings_text s') = Return s' ->
  stores_settings
    (snd (saveSettings s' (snd (write_settings o s' (set_console c b))))) s'.
Proof.
  intros [Hw Hs] Hg Hp.
  rewrite saveSettings_writable by (now destruct o).
  cbn [snd]. unfold stores_settings.
  destruct o; cbn; (split; [assumption|]); (split; [assumption|]);
    exists (settings_text s'); rewrite item_assign_same;
    (split; [reflexivity|]); (split; [apply settings_text_filled|assumption]).
Qed.

(** X5: a key saved with [saveApiKey] is the key that [getApiKey] reads
    back, the keys of the other providers and the preferred provider being
    what they were, when the store takes the write and the new text parses
    to the new settings. *)
Theorem saved_key_is_read_back (b : Browser) (p k : string) :
  writable b ->
  getItem_throws b = None ->
  let s' := with_key p k (snd (fst (loadSettings b))) in
  parse_settings b (settings_text s') = Return s' ->
  let b' := snd (saveApiKey p k b) in
  stores_settings b' s'
  /\ fst (getApiKey p b') = Some k
  /\ (forall q, q <> p -> fst (getApiKey q b') = fst (getApiKey q b))
  /\ fst (getPreferredProvider b') = fst (getPreferredProvider b).
Proof.
  intros Hw Hg s' Hp b'.
  assert (Hst : stores_settings b' s').
  { subst b' s'. rewrite saveApiKey_steps.
    destruct (loadSettings_cases b) as [(s & _ & E)|(c & E)];
      rewrite E in *; cbn [fst snd] in *.
    - rewrite <- (set_console_same b) at 1. now apply stored_after_save.
    - now apply stored_after_save. }
  split; [exact Hst|].
  unfold getApiKey, getPreferredProvider, bindB, retB.
  rewrite (loadSettings_stored _ _ Hst). cbn [fst snd].
  destruct (loadSettings b) as [[o s] b1]. cbn [fst snd] in *.
  subst s'. cbn [with_key apiKeys preferredProvider].
  split; [apply item_assign_same|]. split; [|reflexivity].
  intros q Hq. now apply item_assign_other.
Qed.

Lemma saved_key_is_read_back_witness :
  fst (getApiKey "openai"
         (snd (saveApiKey "openai" "sk-1"
                 (keeping no_keys [with_key "openai" "sk-1" no_keys]))))
  = Some "sk-1".
Proof.
  assert (Hw : writable (keeping no_keys [with_key "openai" "sk-1" no_keys]))
    by (split; reflexivity).
  pose proof (saved_key_is_read_back
                (keeping no_keys [with_key "openai" "sk-1" no_keys])
                "openai" "sk-1" Hw eq_refl eq_refl) as H.
  cbv zeta in H. exact (proj1 (proj2 H)).
Defined.

(** X6: the preferred provider set with [setPreferredProvider] is the one
    that [getPreferredProvider] reads back, and no key changes, under the
    same conditions. *)
Theorem preferred_provider_is_read_back (b : Browser) (q : string) :
  writable b ->
  getItem_throws b = None ->
  let s' := with_preferred q (snd (fst (loadSettings b))) in
  parse_settings b (settings_text s') = Return s' ->
  let b' := snd (setPreferredProvider q b) in
  stores_settings b' s'
  /\ fst (getPreferredProvider b') = q
  /\ forall p, fst (getApiKey p b') = fst (getApiKey p b).
Proof.
  intros Hw Hg s' Hp b'.
  assert (Hst : stores_settings b' s').
  { subst b' s'. rewrite setPreferredProvider_steps.
    destruct (loadSettings_cases b) as [(s & _ & E)|(c & E)];
      rewrite E in *; cbn [fst snd] in *.
    - rewrite <- (set_console_same b) at 1. now apply stored_after_save.
    - now apply stored_after_save. }
  split; [exact Hst|].
  unfold getApiKey, getPreferredProvider, bindB, retB.
  rewrite (loadSettings_stored _ _ Hst). cbn [fst snd].
  destruct (loadSettings b) as [[o s] b1]. cbn [fst snd] in *.
  subst s'. now split.
Qed.

Lemma preferred_provider_is_read_back_witness :
  fst (getPreferredProvider
         (snd (setPreferredProvider "claude"
                 (keeping no_keys [with_preferred "claude" no_keys]))))
  = "claude".
Proof.
  assert (Hw : writable (keeping no_keys [with_preferred "claude" no_keys]))
    by (split; reflexivity).
  pose proof (preferred_provider_is_read_back
                (keeping no_keys [with_preferred "claude" no_keys])
                "claude" Hw eq_refl eq_refl) as H.
  cbv zeta in H. exact (proj1 (proj2 H)).
Defined.

(** X7: when the store holds no settings that can be read, [saveApiKey]
    writes the key into the default settings that the module shares; so
    even when nothing can be written, the key is read back for as long as
    the page lives. *)
Theorem unsaved_key_lives_in_the_default (b : Browser) (p k : string) :
  fst (fst (loadSettings b)) = Shared ->
  let b' := snd (saveApiKey p k b) in
  defaultSettings b' = with_key p k (defaultSettings b)
  /\ (unwritable b -> fst (getApiKey p b') = Some k).
Proof.
  intros Ho b'. subst b'. rewrite saveApiKey_steps.
  destruct (loadSettings_cases b) as [(s & _ & E)|(c & E)].
  { rewrite E in Ho. discriminate Ho. }
  rewrite E. cbn [fst snd write_settings].
  set (s' := with_key p k (defaultSettings b)).
  split.
  - unfold saveSettings, bindB, setItem, console_error, retB. cbn.
    destruct (window_defined b); [|reflexivity].
    now destruct (setItem_throws b).
  - intros Hu.
    destruct (saveSettings_unwritable s'
                (set_defaultSettings s' (set_console c b))) as [c' E'].
    { destruct Hu as [Hu|Hu]; [now left | now right]. }
    rewrite E'. cbn [snd]. rewrite getApiKey_reads.
    assert (El : fst (loadSettings
                        (set_console c'
                           (set_defaultSettings s' (set_console c b))))
                 = (Shared, s')).
    { rewrite loadSettings_after_console.
      rewrite <- (loadSettings_shared_default b s' Ho).
      now apply loadSettings_agree. }
    rewrite El. cbn [snd]. apply item_assign_same.
Qed.

Lemma unsaved_key_lives_in_the_default_witness :
  fst (getApiKey "claude"
         (snd (saveApiKey "claude" "sk-ant" (locked_browser 0))))
  = Some "sk-ant".
Proof.
  apply (unsaved_key_lives_in_the_default (locked_browser 0) "claude"
           "sk-ant" eq_refl).
  right. discriminate.
Defined.

(** *** Blank keys *)

Lemma blank_cons (c : ascii) (s : string) :
  blank (String c s) <-> is_space c = true /\ blank s.
Proof.
  unfold blank. cbn [occurs]. split.
  - intros H. split.
    + apply H. now rewrite Ascii.eqb_refl.
    + intros d Hd. apply H. rewrite Hd. apply orb_true_r.
  - intros [Hc Hs] d Hd. apply orb_true_iff in Hd as [Hd|Hd].
    + apply Ascii.eqb_eq in Hd. now subst d.
    + now apply Hs.
Qed.

Lemma blank_empty : blank EmptyString.
Proof. intros c H. discriminate H. Qed.

Lemma trimStart_empty (s : string) : trimStart s = EmptyString <-> blank s.
Proof.
  induction s as [|c s IH]; cbn [trimStart].
  - split; [intros _; apply blank_empty | reflexivity].
  - rewrite blank_cons. destruct (is_space c).
    + rewrite IH. tauto.
    + split; [discriminate | intros [H _]; discriminate H].
Qed.

Lemma trimEnd_empty (s : string) : trimEnd s = EmptyString <-> blank s.
Proof.
  induction s as [|c s IH]; cbn [trimEnd].
  - split; [intros _; apply blank_empty | reflexivity].
  - rewrite blank_cons, <- IH. destruct (trimEnd s) as [|d kept].
    + destruct (is_space c).
      * tauto.
      * split; [discriminate | intros [H _]; discriminate H].
    + split; [discriminate | intros [_ H]; discriminate H].
Qed.

Lemma blank_trimStart (s : string) : blank (trimStart s) <-> blank s.
Proof.
  induction s as [|c s IH]; cbn [trimStart]; [tauto|].
  destruct (is_space c) eqn:E; [|tauto].
  rewrite IH, blank_cons. tauto.
Qed.

Lemma trim_empty (s : string) : trim s = EmptyString <-> blank s.
Proof. unfold trim. now rewrite trimEnd_empty, blank_trimStart. Qed.

Lemma filled_trim (k : string) : filled k = negb (trim k =? EmptyString).
Proof.
  unfold filled, as_truthy.
  destruct (String.eqb_spec k EmptyString) as [->|]; reflexivity.
Qed.

Lemma filled_false (k : string) : filled k = false <-> blank k.
Proof.
  rewrite filled_trim, negb_false_iff, String.eqb_eq. apply trim_empty.
Qed.

Lemma item_In (p k : string) (l : list (string * string)) :
  NoDup (map fst l) -> (item p l = Some k <-> In (p, k) l).
Proof.
  induction l as [|[q v] l IH]; cbn [item map fst In].
  - intros _. split; [discriminate | contradiction].
  - intros Hn. inversion Hn as [|? ? Hq Hl]; subst.
    destruct (String.eqb_spec q p) as [->|Hne].
    + split.
      * intros [= ->]. now left.
      * intros [[= ->]|Hin]; [reflexivity|].
        elim Hq. now apply (in_map fst) in Hin.
    + rewrite (IH Hl). split; [now right|].
      intros [[= -> _]|Hin]; [contradiction | assumption].
Qed.

(** X8: the three views of the saved keys agree: a provider has a key
    exactly when it is among the available providers, there is some key
    exactly when some provider is available, and a key made of white space
    only counts as no key. *)
Theorem availability_is_consistent (b : Browser) (p : string) :
  let keys := apiKeys (snd (fst (loadSettings b))) in
  NoDup (map fst keys) ->
  (fst (hasProviderApiKey p b) = true
   <-> In p (fst (getAvailableProviders b)))
  /\ (fst (hasAnyApiKey b) = true
      <-> fst (getAvailableProviders b) <> [])
  /\ (forall k, item p keys = Some k -> blank k ->
      fst (hasProviderApiKey p b) = false
      /\ ~ In p (fst (getAvailableProviders b))).
Proof.
  intros keys Hn.
  assert (Ea : fst (getAvailableProviders b)
               = map fst (filter (fun kv => filled (snd kv)) keys)).
  { unfold getAvailableProviders, bindB, retB. subst keys.
    now destruct (loadSettings b). }
  assert (Eh : fst (hasAnyApiKey b)
               = existsb (fun kv => filled (snd kv)) keys).
  { unfold hasAnyApiKey, bindB, retB. subst keys.
    now destruct (loadSettings b). }
  assert (Hin : forall q, In q (fst (getAvailableProviders b))
                <-> exists k, item q keys = Some k /\ filled k = true).
  { intros q. rewrite Ea, in_map_iff. split.
    - intros ([q' k] & Hq & Hf). cbn in Hq. subst q'.
      apply filter_In in Hf as [Hf1 Hf2]. exists k.
      split; [now apply item_In | exact Hf2].
    - intros (k & Hk & Hf). exists (q, k). split; [reflexivity|].
      apply filter_In. split; [now apply item_In | exact Hf]. }
  rewrite hasProviderApiKey_reads. fold keys.
  split; [|split].
  - rewrite Hin. destruct (item p keys) as [k|].
    + rewrite <- filled_trim. split.
      * intros H. now exists k.
      * now intros (k' & [= <-] & H).
    + split; [discriminate | now intros (k' & H & _)].
  - rewrite Eh, Ea. rewrite existsb_exists. split.
    + intros ([q k] & Hq & Hf) E.
      assert (Hi : In (q, k) (filter (fun kv => filled (snd kv)) keys))
        by (apply filter_In; now split).
      apply (in_map fst) in Hi. rewrite E in Hi. contradiction.
    + destruct (filter _ keys) as [|[q k] rest] eqn:E; [now intros H|].
      intros _. exists (q, k).
      apply (filter_In (fun kv => filled (snd kv))). rewrite E. now left.
  - intros k Hk Hb. rewrite Hk, <- filled_trim.
    apply filled_false in Hb. split; [now rewrite Hb|].
    rewrite Hin. intros (k' & Hk' & Hf). congruence.
Qed.

Lemma availability_is_consistent_witness :
  fst (hasProviderApiKey "openai"
         (keeping {| apiKeys := [("gemini", "g-1"); ("openai", "  ")];
                     preferredProvider := "gemini" |} []))
  = false.
Proof.
  assert (Hn : NoDup (map fst [("gemini", "g-1"); ("openai", "  ")])).
  { cbn. repeat constructor; cbn; intuition discriminate. }
  pose proof (availability_is_consistent
                (keeping {| apiKeys := [("gemini", "g-1"); ("openai", "  ")];
                            preferredProvider := "gemini" |} [])
                "openai" Hn) as (_ & _ & H).
  apply (H "  " eq_refl).
  apply blank_cons. split; [reflexivity|].
  apply blank_cons. split; [reflexivity|].
  apply blank_empty.
Defined.

(** ** The usage counter *)

Lemma hasProviderApiKey_frame (p : string) (b : Browser) :
  exists c,
    hasProviderApiKey p b = (fst (hasProviderApiKey p b), set_console c b).
Proof.
  unfold hasProviderApiKey, bindB, retB.
  destruct (loadSettings_cases b) as [(s & _ & E)|(c & E)]; rewrite E.
  - exists (console b). cbn. now rewrite set_console_same.
  - now exists c.
Qed.

Lemma stores_limits_console (c : list (string * string)) (b : Browser)
    (l : UsageLimits) :
  stores_limits b l -> stores_limits (set_console c b) l.
Proof. intros H. exact H. Qed.

Lemma saveUsageLimits_writable (l : UsageLimits) (b : Browser) :
  writable b ->
  saveUsageLimits l b
  = (tt, set_storage (assign USAGE_LIMITS_KEY (limits_text l) (storage b)) b).
Proof.
  intros [Hw Hs]. unfold saveUsageLimits, bindB, setItem. now rewrite Hw, Hs.
Qed.


Lemma loadUsageLimits_expired (b : Browser) (l : UsageLimits) :
  stores_limits b l ->
  (HOURS_24 < clock b (reads b) - lastResetTime (processedImages l))%Z ->
  loadUsageLimits b
  = (Fresh, limits_of 0 (clock b (S (reads b))),
     snd (saveUsageLimits (limits_of 0 (clock b (S (reads b))))
            (set_reads (S (S (reads b))) b))).
Proof.
  intros (Hw & Hg & text & Hi & Hne & Hp) Ht.
  unfold loadUsageLimits. rewrite Hw. unfold bindB, getItem, Date_now, retB.
  rewrite Hg, Hi, (truthy_text _ Hne), Hp.
  cbn [clock reads set_reads].
  assert (E : (clock b (reads b) - lastResetTime (processedImages l)
                 >? HOURS_24)%Z = true)
    by (rewrite Z.gtb_ltb; now apply Z.ltb_lt).
  rewrite E. unfold limits_of.
  now destruct (saveUsageLimits _ _) as [[] b'].
Qed.

(** X9: a provider with a key of the user's is never counted:
    [trackImageProcessed] succeeds with the maximum as remaining count and
    [getRemainingImageCount] gives the maximum, and neither touches the
    store, the defaults or the clock. *)
Theorem own_key_is_never_counted (b : Browser) (p : string) :
  fst (hasProviderApiKey p b) = true ->
  fst (trackImageProcessed p b)
  = {| success := true; remaining := MAX_IMAGES_PER_DAY |}
  /\ (exists c, snd (trackImageProcessed p b) = set_console c b)
  /\ fst (getRemainingImageCount p b) = MAX_IMAGES_PER_DAY
  /\ (exists c, snd (getRemainingImageCount p b) = set_console c b).
Proof.
  intros Ho. destruct (hasProviderApiKey_frame p b) as [c E].
  rewrite Ho in E.
  unfold trackImageProcessed, getRemainingImageCount, bindB, retB.
  rewrite E. cbn [fst snd]. repeat split; now exists c.
Qed.

Lemma own_key_is_never_counted_witness :
  fst (trackImageProcessed "gemini"
         (holding {| apiKeys := [("gemini", "g-1")];
                     preferredProvider := "gemini" |}
            (limits_of 2 0) [] 1000))
  = {| success := true; remaining := 2 |}.
Proof.
  apply (own_key_is_never_counted
           (holding {| apiKeys := [("gemini", "g-1")];
                       preferredProvider := "gemini" |}
              (limits_of 2 0) [] 1000) "gemini").
  reflexivity.
Defined.



(** X11: more than 24 hours after the last reset the counter starts
    again, whatever it had reached: the call succeeds with one image left,
    and the store holds a count of one with the time of the reset. *)
Theorem counter_resets_after_a_day (b : Browser) (p : string)
    (l : UsageLimits) :
  fst (hasProviderApiKey p b) = false ->
  stores_limits b l ->
  (HOURS_24 < clock b (reads b) - lastResetTime (processedImages l))%Z ->
  writable b ->
  let b' := snd (trackImageProcessed p b) in
  fst (trackImageProcessed p b) = {| success := true; remaining := 1 |}
  /\ item USAGE_LIMITS_KEY (storage b')
     = Some (limits_text (limits_of 1 (clock b (S (reads b)))))
  /\ defaultUsageLimits b' = defaultUsageLimits b.
Proof.
  intros Ho Hs Ht Hw b'. subst b'.
  destruct (hasProviderApiKey_frame p b) as [c E]. rewrite Ho in E.
  unfold trackImageProcessed, bindB, retB. rewrite E.
  rewrite (loadUsageLimits_expired (set_console c b) l Hs Ht).
  cbn [clock reads set_console].
  rewrite !saveUsageLimits_writable by exact Hw.
  cbn [snd limits_of count processedImages lastResetTime write_limits].
  change (0 >=? MAX_IMAGES_PER_DAY)%Z with false. cbv beta iota.
  rewrite saveUsageLimits_writable by exact Hw.
  cbn [fst snd storage defaultUsageLimits set_storage set_reads set_console].
  rewrite item_assign_same. now repeat split.
Qed.

Lemma counter_resets_after_a_day_witness :
  fst (trackImageProcessed "gemini"
         (holding no_keys (limits_of 2 0) [] 86400001))
  = {| success := true; remaining := 1 |}.
Proof.
  assert (Hs : stores_limits (holding no_keys (limits_of 2 0) [] 86400001)
                 (limits_of 2 0)).
  { split; [reflexivity|]. split; [reflexivity|].
    exists (limits_text (limits_of 2 0)).
    split; [reflexivity|]. split; [discriminate | reflexivity]. }
  assert (Hw : writable (holding no_keys (limits_of 2 0) [] 86400001))
    by (split; reflexivity).
  apply (counter_resets_after_a_day
           (holding no_keys (limits_of 2 0) [] 86400001) "gemini"
           (limits_of 2 0) eq_refl Hs eq_refl Hw).
Defined.



Lemma loadUsageLimits_shared (b : Browser) (c : list (string * string)) :
  fst (fst (loadUsageLimits b)) = Shared ->
  exists c',
    loadUsageLimits (set_console c b)
    = (Shared, defaultUsageLimits b, set_console c' b).
Proof.
  unfold loadUsageLimits, bindB, getItem, console_error, Date_now, retB.
  cbn [window_defined getItem_throws storage parse_limits set_console
       defaultUsageLimits console].
  destruct (window_defined b); [|intros _; now exists c].
  destruct (getItem_throws b); [intros _; now eexists|].
  destruct (item USAGE_LIMITS_KEY (storage b)) as [text|];
    [|intros _; now exists c].
  destruct (as_truthy (Some text)) as [t|]; [|intros _; now exists c].
  destruct (parse_limits b t) as [m|l]; [intros _; now eexists|].
  cbn [clock reads set_reads].
  destruct (_ >? HOURS_24)%Z.
  - destruct (saveUsageLimits _ _) as [[] b1]. discriminate.
  - discriminate.
Qed.

(** X13: when the store holds no limits that can be read, the count is
    kept in the default limits that the module shares: below the limit
    [trackImageProcessed] succeeds and leaves the shared count one up, at
    the limit it refuses. *)
Theorem counter_lives_in_the_default (b : Browser) (p : string) :
  fst (hasProviderApiKey p b) = false ->
  fst (fst (loadUsageLimits b)) = Shared ->
  let d := processedImages (defaultUsageLimits b) in
  let b' := snd (trackImageProcessed p b) in
  ((count d < MAX_IMAGES_PER_DAY)%Z ->
     fst (trackImageProcessed p b)
     = {| success := true;
          remaining := MAX_IMAGES_PER_DAY - (count d + 1) |}
     /\ defaultUsageLimits b' = limits_of (count d + 1) (lastResetTime d))
  /\ ((MAX_IMAGES_PER_DAY <= count d)%Z ->
      fst (trackImageProcessed p b) = {| success := false; remaining := 0 |}
      /\ defaultUsageLimits b' = defaultUsageLimits b).
Proof.
  intros Ho Hsh d b'. subst b'.
  destruct (hasProviderApiKey_frame p b) as [c E]. rewrite Ho in E.
  destruct (loadUsageLimits_shared b c Hsh) as [c' El].
  unfold trackImageProcessed, bindB, retB. rewrite E, El. fold d.
  split; intros Hn.
  - assert (En : (count d >=? MAX_IMAGES_PER_DAY)%Z = false)
      by (rewrite Z.geb_leb; now apply Z.leb_gt).
    rewrite En. cbn [write_limits].
    unfold saveUsageLimits, bindB, setItem, console_error, retB.
    cbn [window_defined setItem_throws set_defaultUsageLimits set_console].
    destruct (window_defined b); [|now split].
    destruct (setItem_throws b); now split.
  - assert (En : (count d >=? MAX_IMAGES_PER_DAY)%Z = true)
      by (rewrite Z.geb_leb; now apply Z.leb_le).
    rewrite En. now split.
Qed.

Lemma counter_lives_in_the_default_witness :
  defaultUsageLimits
    (snd (trackImageProcessed "gemini" (locked_browser 1000)))
  = limits_of 1 1000.
Proof.
  pose proof (counter_lives_in_the_default (locked_browser 1000) "gemini"
                eq_refl eq_refl) as H.
  cbv zeta in H. destruct H as [H _].
  apply H. reflexivity.
Defined.

Lemma track_headless (b : Browser) (p : string) :
  window_defined b = false ->
  trackImageProcessed p b
  = let d := processedImages (defaultUsageLimits b) in
    match item p (apiKeys (defaultSettings b)) with
    | Some k =>
        if negb (trim k =? EmptyString) then
          ({| success := true; remaining := MAX_IMAGES_PER_DAY |}, b)
        else if (count d >=? MAX_IMAGES_PER_DAY)%Z then
          ({| success := false; remaining := 0 |}, b)
        else
          ({| success := true;
              remaining := MAX_IMAGES_PER_DAY - (count d + 1) |},
           set_defaultUsageLimits
             (limits_of (count d + 1) (lastResetTime d)) b)
    | None =>
        if (count d >=? MAX_IMAGES_PER_DAY)%Z then
          ({| success := false; remaining := 0 |}, b)
        else
          ({| success := true;
              remaining := MAX_IMAGES_PER_DAY - (count d + 1) |},
           set_defaultUsageLimits
             (limits_of (count d + 1) (lastResetTime d)) b)
    end.
Proof.
  intros Hw.
  unfold trackImageProcessed, hasProviderApiKey, loadSettings,
    loadUsageLimits, saveUsageLimits, write_limits, bindB, retB.
  rewrite Hw. cbn [fst snd].
  destruct (item p (apiKeys (defaultSettings b))) as [k|].
  - destruct (negb (trim k =? EmptyString)); [reflexivity|].
    rewrite Hw.
    destruct (_ >=? MAX_IMAGES_PER_DAY)%Z; [reflexivity|].
    cbn [window_defined set_defaultUsageLimits]. now rewrite Hw.
  - rewrite Hw.
    destruct (_ >=? MAX_IMAGES_PER_DAY)%Z; [reflexivity|].
    cbn [window_defined set_defaultUsageLimits]. now rewrite Hw.
Qed.

(** X14: without [window] there is no store, and yet the limit holds for
    as long as the module lives: from a count of zero, for a provider
    without a key, the first two calls succeed (one image left, then none)
    and the third is refused, whatever the clock says. *)
Theorem limit_holds_without_a_store (b : Browser) (p : string) :
  window_defined b = false ->
  fst (hasProviderApiKey p b) = false ->
  count (processedImages (defaultUsageLimits b)) = 0%Z ->
  let first := trackImageProcessed p b in
  let second := trackImageProcessed p (snd first) in
  let third := trackImageProcessed p (snd second) in
  fst first = {| success := true; remaining := 1 |}
  /\ fst second = {| success := true; remaining := 0 |}
  /\ fst third = {| success := false; remaining := 0 |}
  /\ count (processedImages (defaultUsageLimits (snd third))) = 2%Z.
Proof.
  intros Hw Ho Hc. cbv zeta.
  rewrite hasProviderApiKey_reads in Ho.
  unfold loadSettings in Ho. rewrite Hw in Ho. cbn [fst snd] in Ho.
  rewrite (track_headless b p Hw). cbv zeta. rewrite Hc.
  destruct (item p (apiKeys (defaultSettings b))) as [k|] eqn:Ek.
  - rewrite Ho.
    change (0 >=? MAX_IMAGES_PER_DAY)%Z with false. cbv iota. cbn [fst snd].
    rewrite track_headless by exact Hw. cbv zeta.
    cbn [defaultUsageLimits defaultSettings set_defaultUsageLimits limits_of
         processedImages count lastResetTime].
    rewrite Ek, Ho.
    change (0 + 1 >=? MAX_IMAGES_PER_DAY)%Z with false. cbv iota. cbn [fst snd].
    rewrite track_headless by exact Hw. cbv zeta.
    cbn [defaultUsageLimits defaultSettings set_defaultUsageLimits limits_of
         processedImages count lastResetTime].
    rewrite Ek, Ho.
    change (0 + 1 + 1 >=? MAX_IMAGES_PER_DAY)%Z with true. cbv iota.
    now repeat split.
  - change (0 >=? MAX_IMAGES_PER_DAY)%Z with false. cbv iota. cbn [fst snd].
    rewrite track_headless by exact Hw. cbv zeta.
    cbn [defaultUsageLimits defaultSettings set_defaultUsageLimits limits_of
         processedImages count lastResetTime].
    rewrite Ek.
    change (0 + 1 >=? MAX_IMAGES_PER_DAY)%Z with false. cbv iota. cbn [fst snd].
    rewrite track_headless by exact Hw. cbv zeta.
    cbn [defaultUsageLimits defaultSettings set_defaultUsageLimits limits_of
         processedImages count lastResetTime].
    rewrite Ek.
    change (0 + 1 + 1 >=? MAX_IMAGES_PER_DAY)%Z with true. cbv iota.
    now repeat split.
Qed.

Lemma limit_holds_without_a_store_witness :
  fst (trackImageProcessed "openai"
         (snd (trackImageProcessed "openai"
                 (snd (trackImageProcessed "openai"
                         (headless (limits_of 0 5)))))))
  = {| success := false; remaining := 0 |}.
Proof.
  pose proof (limit_holds_without_a_store (headless (limits_of 0 5)) "openai"
                eq_refl eq_refl eq_refl) as H.
  cbv zeta in H. exact (proj1 (proj2 (proj2 H))).
Defined.

(** ** The page *)

(** X15: for a whole number of milliseconds from 0 to
    [MAX_SAFE_INTEGER], [formatTimeRemaining] prints the whole hours and the
    whole minutes of the rest, the minutes below 60; at most 24 hours are
    printed for a time within 24 hours.  The time that
    [getResetTimeRemaining] gives is never negative, and it is within 24
    hours, hence within the bound, when the clock is not before the stored
    start of the window. *)
Theorem time_left_is_well_formed (ms : Z) :
  (0 <= ms <= MAX_SAFE_INTEGER)%Z ->
  (exists h m,
     formatTimeRemaining ms = Z_to_string h ++ "h " ++ Z_to_string m ++ "m"
     /\ (0 <= h <= 2501999792)%Z /\ (0 <= m < 60)%Z
     /\ (h * 3600000 + m * 60000 <= ms < h * 3600000 + m * 60000 + 60000)%Z
     /\ (ms <= HOURS_24 -> h <= 24)%Z)
  /\ (forall b, (0 <= fst (getResetTimeRemaining b))%Z)
  /\ (forall b,
        (lastResetTime (processedImages (snd (fst (loadUsageLimits b))))
         <= fst (Date_now (snd (loadUsageLimits b))))%Z ->
        (fst (getResetTimeRemaining b) <= HOURS_24 <= MAX_SAFE_INTEGER)%Z).
Proof.
  intros Hms. unfold MAX_SAFE_INTEGER in *. split; [|split].
  - exists (ms / 3600000)%Z, (ms mod 3600000 / 60000)%Z.
    split.
    { unfold formatTimeRemaining.
      change (60 * 60 * 1000)%Z with 3600000%Z.
      change (60 * 1000)%Z with 60000%Z.
      rewrite Z.rem_mod_nonneg by lia. reflexivity. }
    pose proof (Z.div_mod ms 3600000 ltac:(lia)) as E1.
    pose proof (Z.mod_pos_bound ms 3600000 ltac:(lia)) as B1.
    pose proof (Z.div_mod (ms mod 3600000) 60000 ltac:(lia)) as E2.
    pose proof (Z.mod_pos_bound (ms mod 3600000) 60000 ltac:(lia)) as B2.
    assert (0 <= ms / 3600000)%Z by (apply Z.div_pos; lia).
    assert (0 <= ms mod 3600000 / 60000)%Z by (apply Z.div_pos; lia).
    unfold HOURS_24. repeat split; lia.
  - intros b. unfold getResetTimeRemaining, bindB, Date_now, retB.
    destruct (loadUsageLimits b) as [[o l] b1]. cbn [fst snd].
    apply Z.le_max_l.
  - intros b. unfold getResetTimeRemaining, bindB, Date_now, retB.
    destruct (loadUsageLimits b) as [[o l] b1]. cbn [fst snd].
    unfold HOURS_24. lia.
Qed.

Lemma time_left_is_well_formed_witness :
  exists h m,
    formatTimeRemaining 3725000
    = Z_to_string h ++ "h " ++ Z_to_string m ++ "m"
    /\ (0 <= h <= 2501999792)%Z /\ (0 <= m < 60)%Z
    /\ (h * 3600000 + m * 60000 <= 3725000
        < h * 3600000 + m * 60000 + 60000)%Z
    /\ (3725000 <= HOURS_24 -> h <= 24)%Z.
Proof.
  assert (H : (0 <= 3725000 <= MAX_SAFE_INTEGER)%Z)
    by (split; vm_compute; discriminate).
  exact (proj1 (time_left_is_well_formed 3725000 H)).
Defined.

(** *** What the counter leaves alone *)

Lemma counter_refl (b : Browser) : only_counter_changed b b.
Proof. now repeat split. Qed.

Lemma counter_trans (b1 b2 b3 : Browser) :
  only_counter_changed b1 b2 -> only_counter_changed b2 b3 ->
  only_counter_changed b1 b3.
Proof.
  unfold only_counter_changed. intros H1 H2.
  decompose [and] H1. decompose [and] H2.
  repeat split; congruence.
Qed.

Lemma counter_console (c : list (string * string)) (b : Browser) :
  only_counter_changed b (set_console c b).
Proof. now repeat split. Qed.

Lemma counter_reads (n : nat) (b : Browser) :
  only_counter_changed b (set_reads n b).
Proof. now repeat split. Qed.

Lemma counter_default (l : UsageLimits) (b : Browser) :
  only_counter_changed b (set_defaultUsageLimits l b).
Proof. now repeat split. Qed.

Lemma counter_item (text : string) (b : Browser) :
  only_counter_changed b
    (set_storage (assign USAGE_LIMITS_KEY text (storage b)) b).
Proof.
  repeat split. cbn [storage set_storage].
  apply item_assign_other. discriminate.
Qed.

Lemma saveUsageLimits_counter (l : UsageLimits) (b : Browser) :
  only_counter_changed b (snd (saveUsageLimits l b)).
Proof.
  unfold saveUsageLimits, bindB, setItem, console_error, retB.
  destruct (window_defined b); [|apply counter_refl].
  destruct (setItem_throws b).
  - apply counter_console.
  - apply counter_item.
Qed.

Lemma loadUsageLimits_counter (b : Browser) :
  only_counter_changed b (snd (loadUsageLimits b)).
Proof.
  unfold loadUsageLimits, bindB, getItem, console_error, Date_now, retB.
  destruct (window_defined b); [|apply counter_refl].
  destruct (getItem_throws b); [apply counter_console|].
  destruct (item USAGE_LIMITS_KEY (storage b)) as [text|];
    [|apply counter_refl].
  destruct (as_truthy (Some text)) as [t|]; [|apply counter_refl].
  destruct (parse_limits b t) as [m|l]; [apply counter_console|].
  cbn [clock reads set_reads].
  destruct (_ >? HOURS_24)%Z; [|apply counter_reads].
  match goal with
  | |- context [saveUsageLimits ?x ?y] =>
      pose proof (saveUsageLimits_counter x y) as H;
      destruct (saveUsageLimits x y) as [[] b1]
  end.
  cbn [snd] in *.
  eapply counter_trans; [|exact H].
  eapply counter_trans; apply counter_reads.
Qed.

Lemma loadSettings_counter (b : Browser) :
  only_counter_changed b (snd (loadSettings b)).
Proof.
  destruct (loadSettings_cases b) as [(s & _ & E)|(c & E)]; rewrite E.
  - apply counter_refl.
  - apply counter_console.
Qed.

Lemma hasProviderApiKey_counter (p : string) (b : Browser) :
  only_counter_changed b (snd (hasProviderApiKey p b)).
Proof.
  destruct (hasProviderApiKey_frame p b) as [c E]. rewrite E.
  apply counter_console.
Qed.

Lemma getApiKey_counter (p : string) (b : Browser) :
  only_counter_changed b (snd (getApiKey p b)).
Proof.
  unfold getApiKey, bindB, retB.
  pose proof (loadSettings_counter b) as H.
  now destruct (loadSettings b).
Qed.

Lemma track_counter (p : string) (b : Browser) :
  only_counter_changed b (snd (trackImageProcessed p b)).
Proof.
  unfold trackImageProcessed, bindB, retB.
  pose proof (hasProviderApiKey_counter p b) as H1.
  destruct (hasProviderApiKey p b) as [own b1]. cbn [snd] in H1.
  destruct own; [exact H1|].
  pose proof (loadUsageLimits_counter b1) as H2.
  destruct (loadUsageLimits b1) as [[o l] b2]. cbn [snd] in H2.
  destruct (_ >=? _)%Z; [now apply (counter_trans b b1 b2)|].
  destruct o; cbn [write_limits];
    match goal with
    | |- context [saveUsageLimits ?x ?y] =>
        pose proof (saveUsageLimits_counter x y) as H3;
        destruct (saveUsageLimits x y) as [[] b3]
    end;
    cbn [snd] in *;
    (apply (counter_trans b b1 b3); [exact H1|]);
    (apply (counter_trans b1 b2 b3); [exact H2|]).
  - exact H3.
  - eapply counter_trans; [apply counter_default | exact H3].
Qed.

Lemma getRemainingImageCount_counter (p : string) (b : Browser) :
  only_counter_changed b (snd (getRemainingImageCount p b)).
Proof.
  unfold getRemainingImageCount, bindB, retB.
  pose proof (hasProviderApiKey_counter p b) as H1.
  destruct (hasProviderApiKey p b) as [own b1]. cbn [snd] in H1.
  destruct own; [exact H1|].
  pose proof (loadUsageLimits_counter b1) as H2.
  destruct (loadUsageLimits b1) as [[o l] b2]. cbn [snd] in *.
  now apply (counter_trans b b1 b2).
Qed.

Lemma getResetTimeRemaining_counter (b : Browser) :
  only_counter_changed b (snd (getResetTimeRemaining b)).
Proof.
  unfold getResetTimeRemaining, bindB, Date_now, retB.
  pose proof (loadUsageLimits_counter b) as H.
  destruct (loadUsageLimits b) as [[o l] b1]. cbn [snd] in *.
  eapply counter_trans; [exact H | apply counter_reads].
Qed.

Lemma updateRemainingImages_counter (h0 h : Home) (b : Browser) :
  only_counter_changed b (snd (updateRemainingImages h0 h b)).
Proof.
  unfold updateRemainingImages, bindB, retB.
  pose proof (getRemainingImageCount_counter (provider h0) b) as H1.
  destruct (getRemainingImageCount (provider h0) b) as [n b1].
  pose proof (getResetTimeRemaining_counter b1) as H2.
  destruct (getResetTimeRemaining b1) as [t b2]. cbn [snd] in *.
  now apply (counter_trans b b1 b2).
Qed.

(** The settings that the browser gives are the same after the counter
    has changed. *)
Lemma settings_after_counter (b b' : Browser) :
  only_counter_changed b b' -> fst (loadSettings b') = fst (loadSettings b).
Proof.
  intros H. unfold only_counter_changed in H. decompose [and] H.
  now apply loadSettings_agree.
Qed.

(** X16: the counter never touches the settings: after
    [trackImageProcessed], [getRemainingImageCount] or
    [getResetTimeRemaining] every key and the preferred provider read as
    before, and no request has been made. *)
Theorem counter_leaves_settings_alone (b : Browser) (p q : string) :
  let after_track := snd (trackImageProcessed p b) in
  let after_count := snd (getRemainingImageCount p b) in
  let after_time := snd (getResetTimeRemaining b) in
  (fst (getApiKey q after_track) = fst (getApiKey q b)
   /\ fst (getPreferredProvider after_track) = fst (getPreferredProvider b)
   /\ requests after_track = requests b)
  /\ (fst (getApiKey q after_count) = fst (getApiKey q b)
      /\ fst (getPreferredProvider after_count)
         = fst (getPreferredProvider b)
      /\ requests after_count = requests b)
  /\ (fst (getApiKey q after_time) = fst (getApiKey q b)
      /\ fst (getPreferredProvider after_time) = fst (getPreferredProvider b)
      /\ requests after_time = requests b).
Proof.
  assert (K : forall b', only_counter_changed b b' ->
              fst (getApiKey q b') = fst (getApiKey q b)
              /\ fst (getPreferredProvider b') = fst (getPreferredProvider b)
              /\ requests b' = requests b).
  { intros b' H. pose proof (settings_after_counter b b' H) as E.
    rewrite !getApiKey_reads, E.
    unfold getPreferredProvider, bindB, retB.
    destruct (loadSettings b') as [l' b1'], (loadSettings b) as [l b1].
    cbn [fst snd] in *. subst l'.
    repeat split. unfold only_counter_changed in H. now decompose [and] H. }
  cbv zeta. split; [|split]; apply K.
  - apply track_counter.
  - apply getRemainingImageCount_counter.
  - apply getResetTimeRemaining_counter.
Qed.

(** *** [handleAnalyze] *)

Lemma image_truthy (h0 : Home) :
  imageBase64 h0 <> EmptyString ->
  as_truthy (Some (imageBase64 h0)) = Some (imageBase64 h0).
Proof. apply truthy_text. Qed.

(** The course of [handleAnalyze] once the image is there and the image
    has been counted. *)
Lemma handleAnalyze_passed (h0 : Home) (b : Browser) :
  imageBase64 h0 <> EmptyString ->
  success (fst (trackImageProcessed (provider h0) b)) = true ->
  let b1 := snd (trackImageProcessed (provider h0) b) in
  let key := fst (getApiKey (provider h0) b1) in
  let b2 := snd (getApiKey (provider h0) b1) in
  let req := analyze_request h0 key in
  let b3 := set_requests (requests b2 ++ [("/api/analyze", req)])%list b2 in
  handleAnalyze h0 b
  = match Client.fetch b2 "/api/analyze" req with
    | Throw m => failed m (loading h0) b3
    | Return response =>
        match resp_json response with
        | Throw m => failed m (loading h0) b3
        | Return data =>
            if ok response then
              match get_prop data "result" with
              | Throw m => failed m (loading h0) b3
              | Return r =>
                  let (h', b4) :=
                    updateRemainingImages h0
                      (setResult (Some r) (loading h0)) b3 in
                  (setIsLoading false h', b4)
              end
            else
              match get_prop data "error" with
              | Throw m => failed m (loading h0) b3
              | Return e =>
                  failed (if truthy e then to_string e
                          else "Failed to analyze blood test")
                    (loading h0) b3
              end
        end
    end.
Proof.
  intros Hi Hs. cbv zeta.
  unfold handleAnalyze. rewrite (image_truthy h0 Hi).
  unfold bindB at 1.
  destruct (trackImageProcessed (provider h0) b) as [tr b1].
  cbn [fst snd] in *. rewrite Hs. cbn [negb].
  unfold try_analyze, page_fetch, console_error, failed, loading,
    bindB, retB.
  destruct (getApiKey (provider h0) b1) as [key b2]. cbn [fst snd].
  destruct (Client.fetch b2 "/api/analyze" (analyze_request h0 key))
    as [m|response]; [reflexivity|].
  destruct (resp_json response) as [m|data]; [reflexivity|].
  destruct (ok response); cbn [negb].
  - destruct (get_prop data "result") as [m|r]; [reflexivity|].
    now destruct (updateRemainingImages _ _ _).
  - now destruct (get_prop data "error").
Qed.

(** X17: [handleAnalyze] makes no request without an image or beyond
    the limit: without an image it only sets the error and leaves the
    browser as it is, the counter included; when the image is refused it
    sets the error that names the limit and the time left, as of the last
    refresh, and the browser is as the counter left it. *)
Theorem no_request_without_image_or_quota (h0 : Home) (b : Browser) :
  (imageBase64 h0 = EmptyString ->
   handleAnalyze h0 b
   = (setError (Some "Please upload an image first") h0, b))
  /\ (imageBase64 h0 <> EmptyString ->
      success (fst (trackImageProcessed (provider h0) b)) = false ->
      handleAnalyze h0 b
      = (setError (Some (limit_message h0)) h0,
         snd (trackImageProcessed (provider h0) b))
      /\ requests (snd (handleAnalyze h0 b)) = requests b).
Proof.
  split.
  - intros E. unfold handleAnalyze. now rewrite E.
  - intros Hi Hs.
    assert (E : handleAnalyze h0 b
                = (setError (Some (limit_message h0)) h0,
                   snd (trackImageProcessed (provider h0) b))).
    { unfold handleAnalyze. rewrite (image_truthy h0 Hi).
      unfold bindB at 1.
      destruct (trackImageProcessed (provider h0) b) as [tr b1].
      cbn [fst snd] in *. now rewrite Hs. }
    split; [exact E|]. rewrite E. cbn [snd].
    pose proof (track_counter (provider h0) b) as H.
    unfold only_counter_changed in H. now decompose [and] H.
Qed.

(** X18: with an image that has been counted, [handleAnalyze] makes
    exactly one request, to "/api/analyze", with the key that the settings
    hold for the provider of the page; it ends with the loading flag down
    and the results shown. *)
Theorem one_request_per_analysis (h0 : Home) (b : Browser) :
  imageBase64 h0 <> EmptyString ->
  success (fst (trackImageProcessed (provider h0) b)) = true ->
  let done := handleAnalyze h0 b in
  requests (snd done)
  = (requests b
       ++ [("/api/analyze",
            analyze_request h0 (fst (getApiKey (provider h0) b)))])%list
  /\ isLoading (fst done) = false
  /\ showResults (fst done) = true.
Proof.
  intros Hi Hs. cbv zeta.
  rewrite (handleAnalyze_passed h0 b Hi Hs). cbv zeta.
  pose proof (track_counter (provider h0) b) as H1.
  set (b1 := snd (trackImageProcessed (provider h0) b)) in *.
  pose proof (getApiKey_counter (provider h0) b1) as H2.
  assert (Ek : fst (getApiKey (provider h0) b1)
               = fst (getApiKey (provider h0) b))
    by (rewrite !getApiKey_reads; now rewrite (settings_after_counter b b1 H1)).
  rewrite Ek.
  set (b2 := snd (getApiKey (provider h0) b1)) in *.
  assert (Er : requests b2 = requests b).
  { unfold only_counter_changed in H1, H2.
    decompose [and] H1. decompose [and] H2. congruence. }
  rewrite Er.
  set (req := analyze_request h0 (fst (getApiKey (provider h0) b))).
  set (b3 := set_requests (requests b ++ [("/api/analyze", req)])%list b2).
  assert (Hb3 : requests b3 = (requests b ++ [("/api/analyze", req)])%list)
    by reflexivity.
  assert (F : forall m,
             requests (snd (failed m (loading h0) b3))
             = (requests b ++ [("/api/analyze", req)])%list
             /\ isLoading (fst (failed m (loading h0) b3)) = false
             /\ showResults (fst (failed m (loading h0) b3)) = true)
    by (intros m; now repeat split).
  destruct (Client.fetch b2 "/api/analyze" req) as [m|response]; [apply F|].
  destruct (resp_json response) as [m|data]; [apply F|].
  destruct (ok response).
  - destruct (get_prop data "result") as [m|r]; [apply F|].
    pose proof (updateRemainingImages_counter h0
                  (setResult (Some r) (loading h0)) b3) as H3.
    unfold updateRemainingImages, bindB, retB in *.
    destruct (getRemainingImageCount (provider h0) b3) as [n b4].
    destruct (getResetTimeRemaining b4) as [t b5]. cbn [fst snd] in *.
    unfold only_counter_changed in H3. decompose [and] H3.
    repeat split. congruence.
  - destruct (get_prop data "error") as [m|e]; apply F.
Qed.

Lemma one_request_per_analysis_witness :
  requests (snd (handleAnalyze sample_home (Page.fresh_browser 1000)))
  = [("/api/analyze", analyze_request sample_home None)].
Proof.
  assert (Hi : imageBase64 sample_home <> EmptyString) by discriminate.
  exact (proj1 (one_request_per_analysis sample_home
                  (Page.fresh_browser 1000) Hi eq_refl)).
Defined.





(** *** The page and the route *)

Lemma key_headers_recognized (p : string) (key : option string) :
  recognized p ->
  key_headers p key
  = match as_truthy key with
    | Some k => [(key_header p, k)]
    | None => []
    end.
Proof.
  intros Hp. by_provider Hp; unfold key_headers, key_header;
    cbn [String.eqb Ascii.eqb Bool.eqb]; now destruct (as_truthy key).
Qed.

Lemma key_headers_unrecognized (p : string) (key : option string) :
  ~ recognized p -> key_headers p key = [].
Proof.
  intros Hp. unfold key_headers, recognized in *.
  destruct (String.eqb_spec p "gemini"); [tauto|].
  destruct (String.eqb_spec p "openai"); [tauto|].
  destruct (String.eqb_spec p "claude"); [tauto|].
  reflexivity.
Qed.

Lemma key_header_not_content_type (p : string) :
  ("Content-Type" =? key_header p) = false.
Proof.
  unfold key_header.
  destruct (p =? "gemini"); [reflexivity|].
  now destruct (p =? "openai").
Qed.

Lemma strip_start_spaces (s : string) :
  (forall c, occurs c s = true -> http_space c = true) ->
  strip_start s = EmptyString.
Proof.
  induction s as [|d s IH]; cbn [strip_start occurs]; [reflexivity|].
  intros H. rewrite (H d) by now rewrite Ascii.eqb_refl.
  apply IH. intros c Hc. apply H. rewrite Hc. apply orb_true_r.
Qed.

Lemma strip_value_spaces (s : string) :
  (forall c, occurs c s = true -> http_space c = true) ->
  strip_value s = EmptyString.
Proof.
  intros H. unfold strip_value. now rewrite (strip_start_spaces _ H).
Qed.

(** The only white space that is printable is the space. *)
Lemma printable_space (c : ascii) :
  32 <= nat_of_ascii c <= 126 -> is_space c = true -> http_space c = true.
Proof.
  unfold is_space, http_space. cbv zeta. intros Hn H.
  assert (E : nat_of_ascii c = 32).
  { apply orb_true_iff in H as [H|H]; [apply orb_true_iff in H as [H|H]|].
    - apply andb_true_iff in H as [_ H]. apply Nat.leb_le in H. lia.
    - now apply Nat.eqb_eq in H.
    - apply Nat.eqb_eq in H. lia. }
  rewrite E. reflexivity.
Qed.

Lemma blank_printable_strips (k : string) :
  blank k -> printable k -> strip_value k = EmptyString.
Proof.
  intros Hb Hp. apply strip_value_spaces. intros c Hc.
  apply printable_space; [now apply Hp | now apply Hb].
Qed.

Lemma as_truthy_stripped (key : option string) :
  as_truthy (option_map strip_value (as_truthy key))
  = as_truthy (option_map strip_value key).
Proof. now destruct key as [[|c k]|]. Qed.

Lemma arriving_key (h0 : Home) (key : option string)
    (data : outcome AnalysisRequest) :
  recognized (provider h0) ->
  headers_get (arriving (analyze_request h0 key) data)
    (key_header (provider h0))
  = option_map strip_value (as_truthy key).
Proof.
  intros Hrec. cbn [headers_get arriving headers analyze_request item].
  rewrite key_header_not_content_type, (key_headers_recognized _ _ Hrec).
  destruct (as_truthy key) as [k|]; cbn [item option_map]; [|reflexivity].
  now rewrite String.eqb_refl.
Qed.

(** X20: the header in which the page sends the user's key is the header
    from which the route reads it, and the key arrives without the white
    space at its ends: for a recognized provider and a key of printable
    ASCII, the adapter runs with the stripped key when that is a non-empty
    string, and without a key otherwise; a key with no white space at its
    ends arrives as it is.  For any other provider the page sends no key at
    all and the adapter runs without one. *)
Theorem page_key_reaches_the_adapter (h0 : Home) (key : option string)
    (w : World) (data : AnalysisRequest) :
  Route.provider data = provider h0 ->
  (forall k, key = Some k -> printable k) ->
  let request := arriving (analyze_request h0 key) (Return data) in
  let arrived := as_truthy (option_map strip_value key) in
  let answer (run : AnalyzeOutput * list event) :=
    (match fst run with
     | Failure e => {| http_status := 400; payload := BodyError e |}
     | Success res => {| http_status := 200; payload := BodyResult res |}
     end, snd run) in
  (recognized (provider h0) ->
   headers_get request (key_header (provider h0))
   = option_map strip_value (as_truthy key)
   /\ POST w request = answer (analyzeBloodTest w data arrived))
  /\ (~ recognized (provider h0) ->
      headers (analyze_request h0 key)
      = [("Content-Type", "application/json")]
      /\ POST w request = answer (analyzeBloodTest w data None))
  /\ (forall k, key = Some k -> strip_value k = k -> arrived = as_truthy key).
Proof.
  intros Hp _ request arrived answer. split; [|split].
  - intros Hrec.
    pose proof (arriving_key h0 key (Return data) Hrec) as Eh.
    fold request in Eh. split; [exact Eh|].
    rewrite (POST_tree w request data eq_refl). cbv zeta.
    rewrite Hp, Eh, as_truthy_stripped. reflexivity.
  - intros Hn.
    assert (Eh : headers (analyze_request h0 key)
                 = [("Content-Type", "application/json")]).
    { cbn [headers analyze_request].
      now rewrite (key_headers_unrecognized _ _ Hn). }
    split; [exact Eh|].
    rewrite (POST_tree w request data eq_refl). cbv zeta.
    subst request. cbn [headers_get arriving]. rewrite Eh, Hp.
    cbn [item]. rewrite key_header_not_content_type. reflexivity.
  - intros k -> Hk. subst arrived. cbn [option_map]. now rewrite Hk.
Qed.

Lemma page_key_reaches_the_adapter_witness :
  headers_get
    (arriving (analyze_request sample_home (Some " g-1 "))
       (Return (sample_request "gemini")))
    "x-gemini-key"
  = Some "g-1".
Proof.
  assert (Hk : forall k, Some " g-1 " = Some k -> printable k).
  { intros k [= <-] c Hc. cbn [occurs] in Hc.
    repeat (apply orb_true_iff in Hc as [Hc|Hc];
            [apply Ascii.eqb_eq in Hc; subst c; cbn; lia|]).
    discriminate Hc. }
  pose proof (page_key_reaches_the_adapter sample_home (Some " g-1 ") offline
                (sample_request "gemini") eq_refl Hk) as H.
  cbv zeta in H. destruct H as [H _].
  assert (Hrec : recognized (provider sample_home)) by (left; reflexivity).
  exact (proj1 (H Hrec)).
Defined.

(** X21: a saved key of spaces only is no key anywhere.  It is no key for
    the counter, which counts the image; the page sends it in the
    provider's header, where it arrives as the empty string, so the route
    runs the adapter without a key: gemini is then asked with the
    server-side default key when there is one, and every other case fails
    for the missing credential. *)
Theorem blank_key_arrives_empty (h0 : Home) (b : Browser)
    (k : string) (w : World) (data : AnalysisRequest) (img : string) :
  recognized (provider h0) ->
  Route.provider data = provider h0 ->
  fst (getApiKey (provider h0) b) = Some k ->
  k <> EmptyString ->
  blank k ->
  printable k ->
  Wire.present (Route.imageBase64 data) img ->
  let request :=
    arriving (analyze_request h0 (fst (getApiKey (provider h0) b)))
      (Return data) in
  let run := analyzeBloodTest w data None in
  fst (hasProviderApiKey (provider h0) b) = false
  /\ fst (isLimitApplied h0 b) = true
  /\ headers (analyze_request h0 (fst (getApiKey (provider h0) b)))
     = [("Content-Type", "application/json");
        (key_header (provider h0), k)]
  /\ headers_get request (key_header (provider h0)) = Some EmptyString
  /\ POST w request
     = (match fst run with
        | Failure e => {| http_status := 400; payload := BodyError e |}
        | Success res => {| http_status := 200; payload := BodyResult res |}
        end, snd run)
  /\ (forall env,
        provider h0 = "gemini" ->
        Wire.present (GOOGLE_GEMINI_API_KEY w) env ->
        build w (Route.provider data) img (Route.contextText data) None
        = Return (request_for "gemini" env
                    (prompt_of (Route.contextText data)) img))
  /\ (unresolvable (provider h0) w None ->
      POST w request
      = ({| http_status := 400;
            payload := BodyError (missing_credential (provider h0)) |},
         [EvConsoleError "Analysis error:"
            (missing_credential (provider h0))])).
Proof.
  intros Hrec Hp Hk Hne Hb Hpr Hi request run.
  assert (Ho : fst (hasProviderApiKey (provider h0) b) = false).
  { rewrite hasProviderApiKey_reads. rewrite getApiKey_reads in Hk.
    rewrite Hk. apply trim_empty in Hb. now rewrite Hb. }
  assert (Eh : headers_get request (key_header (provider h0))
               = Some EmptyString).
  { subst request. rewrite (arriving_key _ _ _ Hrec), Hk.
    rewrite (truthy_text _ Hne). cbn [option_map].
    now rewrite (blank_printable_strips _ Hb Hpr). }
  assert (Epost : POST w request
     = (match fst run with
        | Failure e => {| http_status := 400; payload := BodyError e |}
        | Success res => {| http_status := 200; payload := BodyResult res |}
        end, snd run)).
  { rewrite (POST_tree w request data eq_refl). cbv zeta.
    rewrite Hp, Eh. reflexivity. }
  split; [exact Ho|]. split; [|split; [|split; [|split; [|split]]]].
  - unfold isLimitApplied, bindB, retB.
    destruct (hasProviderApiKey (provider h0) b) as [own b1].
    cbn [fst] in *. now subst own.
  - rewrite Hk. cbn [headers analyze_request].
    now rewrite (key_headers_recognized _ _ Hrec), (truthy_text _ Hne).
  - exact Eh.
  - exact Epost.
  - intros env Hg He. rewrite Hp, Hg.
    apply build_Return; [now left|].
    right. split; [reflexivity|]. split; [now left | exact He].
  - intros Hu. rewrite Epost. subst run.
    apply as_truthy_Some in Hi.
    rewrite (analyze_tree _ _ _ _ Hi), Hp.
    now rewrite (build_missing _ _ _ _ _ Hrec Hu).
Qed.

Lemma blank_key_arrives_empty_witness :
  fst (hasProviderApiKey "gemini"
         (keeping {| apiKeys := [("gemini", "  ")];
                     preferredProvider := "gemini" |} []))
  = false
  /\ headers_get
       (arriving (analyze_request sample_home (Some "  "))
          (Return (sample_request "gemini")))
       "x-gemini-key"
     = Some EmptyString
  /\ POST offline
       (arriving (analyze_request sample_home (Some "  "))
          (Return (sample_request "gemini")))
     = ({| http_status := 400;
           payload := BodyError "No Gemini API key provided" |},
        [EvConsoleError "Analysis error:" "No Gemini API key provided"]).
Proof.
  assert (Hrec : recognized (provider sample_home)) by (left; reflexivity).
  assert (Hne : "  " <> EmptyString) by discriminate.
  assert (Hb : blank "  ").
  { apply blank_cons. split; [reflexivity|].
    apply blank_cons. split; [reflexivity|]. apply blank_empty. }
  assert (Hpr : printable "  ").
  { intros c Hc. cbn [occurs] in Hc.
    repeat (apply orb_true_iff in Hc as [Hc|Hc];
            [apply Ascii.eqb_eq in Hc; subst c; cbn; lia|]).
    discriminate Hc. }
  assert (Hi : Wire.present (Route.imageBase64 (sample_request "gemini"))
                 sample_image) by (split; [reflexivity | discriminate]).
  assert (Hu : unresolvable (provider sample_home) offline None).
  { split; [now left | intros _; now left]. }
  pose proof (blank_key_arrives_empty sample_home
                (keeping {| apiKeys := [("gemini", "  ")];
                            preferredProvider := "gemini" |} [])
                "  " offline (sample_request "gemini") sample_image
                Hrec eq_refl eq_refl Hne Hb Hpr Hi) as H.
  cbv zeta in H. destruct H as (H1 & _ & _ & H4 & _ & _ & H7).
  split; [exact H1|]. split; [exact H4 | exact (H7 Hu)].
Defined.


